(** * CodeGuard: evidence gathering, scoring and aggregation

    A shallow embedding of the analysis pipeline of the CodeGuard server
    (the analysis routes with [analyzeFile] and [aggregateSources],
    [services/searchService.js], [services/aiDetection.js] and
    [services/githubService.js]) and the properties of its scores, match
    lists and source aggregates; then the rest of the search service,
    the extraction from a GitHub repository with its upload route, the
    file processor and the risk scale of the report.

    Conventions of the embedding.
    - A JavaScript number is an exact rational ([Q]); [==] is numeric
      equality.  The rounding of IEEE doubles is not modelled, and
      [NaN] and the infinities have no counterpart; a bound is stated
      only where it holds of the doubles as well.
    - A JavaScript string is a [string] of 8-bit code units.
    - [await] is sequencing: the code awaits every call before it starts
      the next one, so an asynchronous function is a function.
    - An exception is a value of the [Exc] monad; [try]/[catch] is
      [tryCatch].
    - The remote services are a record of oracles ([Search.Net]) and the
      generative model is an oracle ([AIDetection.Gemini]); a repository
      is the tree of the replies of the contents API ([Github.Remote]).
    - [toLowerCase] changes the letters A to Z; the other code units,
      which no table or pattern of the sources mentions, are kept.
    - Members of the JavaScript objects that nothing reads afterwards
      (time stamps, descriptions, evidence texts) are left out. *)

From Stdlib Require Import List Bool Arith ZArith QArith Qminmax Lia Lqa.
From Stdlib Require Import Ascii String.
From Stdlib Require Import Permutation Sorted.
Import ListNotations.

Set Implicit Arguments.

Local Open Scope string_scope.
Local Open Scope Q_scope.

(** ** Exceptions *)

Module Exn.

Inductive Exc (A : Type) : Type :=
| Ok (a : A)
| Throw (message : string).

Arguments Ok {A} a.
Arguments Throw {A} message.

Definition bind {A B} (m : Exc A) (k : A -> Exc B) : Exc B :=
  match m with
  | Ok a => k a
  | Throw e => Throw e
  end.

(** [try { body } catch (error) { handler(error.message) }] *)
Definition tryCatch {A} (body : Exc A) (handler : string -> Exc A) : Exc A :=
  match body with
  | Ok a => Ok a
  | Throw e => handler e
  end.

Definition returns {A} (m : Exc A) : Prop := exists a, m = Ok a.

End Exn.
Import Exn.

Notation "x <- m ;; k" := (bind m (fun x => k))
  (at level 61, m at next level, right associativity).

(** ** Characters and strings *)

Module Str.

Definition code (c : ascii) : nat := nat_of_ascii c.

Definition between (lo hi : nat) (c : ascii) : bool :=
  (lo <=? code c)%nat && (code c <=? hi)%nat.

Definition isDigit : ascii -> bool := between 48 57.
Definition isUpper : ascii -> bool := between 65 90.
Definition isLower : ascii -> bool := between 97 122.

(** The class [\w]. *)
Definition isWord (c : ascii) : bool :=
  isLower c || isUpper c || isDigit c || (code c =? 95)%nat.

(** The class [\s]: tab, line feed, vertical tab, form feed, carriage
    return, space and no-break space. *)
Definition isSpace (c : ascii) : bool :=
  between 9 13 c || (code c =? 32)%nat || (code c =? 160)%nat.

Definition lowerChar (c : ascii) : ascii :=
  if isUpper c then ascii_of_nat (code c + 32) else c.

Definition upperChar (c : ascii) : ascii :=
  if isLower c then ascii_of_nat (code c - 32) else c.

Definition chars : string -> list ascii := list_ascii_of_string.
Definition ofChars : list ascii -> string := string_of_list_ascii.

Definition toLowerCase (s : string) : string := ofChars (map lowerChar (chars s)).
Definition toUpperCase (s : string) : string := ofChars (map upperChar (chars s)).

Fixpoint dropWhile {A} (p : A -> bool) (l : list A) : list A :=
  match l with
  | [] => []
  | x :: t => if p x then dropWhile p t else l
  end.

Definition trimChars (l : list ascii) : list ascii :=
  rev (dropWhile isSpace (rev (dropWhile isSpace l))).

Definition trim (s : string) : string := ofChars (trimChars (chars s)).

Fixpoint startsWithChars (p l : list ascii) : bool :=
  match p, l with
  | [], _ => true
  | _ :: _, [] => false
  | a :: p', b :: l' => Ascii.eqb a b && startsWithChars p' l'
  end.

Definition startsWith (s p : string) : bool := startsWithChars (chars p) (chars s).
Definition endsWith (s p : string) : bool :=
  startsWithChars (rev (chars p)) (rev (chars s)).

(** [s.split('\n')]: always at least one piece. *)
Fixpoint splitLinesChars (l : list ascii) : list (list ascii) :=
  match l with
  | [] => [[]]
  | c :: t =>
      if (code c =? 10)%nat then [] :: splitLinesChars t
      else match splitLinesChars t with
           | [] => [[c]]
           | h :: r => (c :: h) :: r
           end
  end.

Definition splitLines (s : string) : list string :=
  map ofChars (splitLinesChars (chars s)).

(** [pieces.join('\n')] *)
Fixpoint joinLines (l : list string) : string :=
  match l with
  | [] => ""
  | [s] => s
  | s :: t => s ++ String (ascii_of_nat 10) (joinLines t)
  end.

End Str.

(** ** Numbers *)

Module Num.

(** [a < b], [a > b] and [a >= b] on numbers. *)
Definition ltb (a b : Q) : bool := negb (Qle_bool b a).
Definition gtb (a b : Q) : bool := ltb b a.
Definition geb (a b : Q) : bool := Qle_bool b a.

(** [x || 0] on a number: zero is the only falsy rational. *)
Definition orZero (x : Q) : Q := if Qeq_bool x 0 then 0 else x.

Definition sum (l : list Q) : Q := fold_left Qplus l 0.

Definition natQ (n : nat) : Q := inject_Z (Z.of_nat n).

(** [Math.var], the helper the detection service adds to [Math]. *)
Definition Math_var (array : list Q) : Q :=
  let mean := sum array / natQ (List.length array) in
  fold_left (fun a b => a + (b - mean) * (b - mean)) array 0
  / natQ (List.length array).

Definition count {A} (p : A -> bool) (l : list A) : nat :=
  List.length (filter p l).

End Num.

(** ** SimilarityScorer *)

Module Similarity.
Import Str Num.

(** [text.replace(/[^\w\s]/g, ' ')] *)
Definition replaceSpecial (l : list ascii) : list ascii :=
  map (fun c => if isWord c || isSpace c then c else " "%char) l.

(** [text.replace(/\s+/g, ' ')]: every maximal run of white space
    becomes one space.  [inRun] tells that the previous character was
    white space already. *)
Fixpoint collapseFrom (inRun : bool) (l : list ascii) : list ascii :=
  match l with
  | [] => []
  | c :: t =>
      if isSpace c
      then (if inRun then collapseFrom true t else " "%char :: collapseFrom true t)
      else c :: collapseFrom false t
  end.

Definition collapseSpaces : list ascii -> list ascii := collapseFrom false.

(** [normalizeText] of [calculateSimilarity]. *)
Definition normalizeText (text : string) : string :=
  ofChars (trimChars (collapseSpaces (replaceSpecial (map lowerChar (chars text))))).

(** *** The string-similarity package

    [calculateSimilarity] calls [compareTwoStrings] of the package
    [string-similarity], a dependency outside the sources.  The spec
    describes it as a Dice coefficient over character bigrams that gives
    1.0 on identical strings.  [compareTwoStrings] below is modelled on
    that description, with the steps of the package: white space is
    removed, identical strings score 1, a string shorter than two
    characters scores 0, and otherwise the score is twice the number of
    shared bigrams (counted with multiplicity) over the total number of
    bigrams. *)

Definition bigram : Type := (ascii * ascii)%type.

Definition bigram_eqb (x y : bigram) : bool :=
  Ascii.eqb (fst x) (fst y) && Ascii.eqb (snd x) (snd y).

Fixpoint bigrams (l : list ascii) : list bigram :=
  match l with
  | a :: ((b :: _) as t) => (a, b) :: bigrams t
  | _ => []
  end.

(** The [Map] from bigram to count. *)
Definition counts : Type := list (bigram * nat).

Fixpoint getCount (m : counts) (b : bigram) : nat :=
  match m with
  | [] => 0
  | (k, n) :: t => if bigram_eqb k b then n else getCount t b
  end.

Fixpoint setCount (m : counts) (b : bigram) (n : nat) : counts :=
  match m with
  | [] => [(b, n)]
  | (k, v) :: t => if bigram_eqb k b then (k, n) :: t else (k, v) :: setCount t b n
  end.

(** First loop: count the bigrams of [first]. *)
Definition firstBigrams (bs : list bigram) : counts :=
  fold_left (fun m b => setCount m b (S (getCount m b))) bs [].

(** Second loop: every bigram of [second] still available in the map
    is consumed and counted. *)
Fixpoint intersectionSize (m : counts) (bs : list bigram) : nat :=
  match bs with
  | [] => 0
  | b :: t =>
      match getCount m b with
      | O => intersectionSize m t
      | S n => S (intersectionSize (setCount m b n) t)
      end
  end.

Definition stripSpaces (s : string) : list ascii :=
  filter (fun c => negb (isSpace c)) (chars s).

(** Modelled from the spec: the Dice coefficient over character
    bigrams, [(2.0 * intersectionSize) / (first.length + second.length - 2)]. *)
Definition dice (f s : list ascii) : Q :=
  natQ (2 * intersectionSize (firstBigrams (bigrams f)) (bigrams s))
  / natQ (List.length f + List.length s - 2).

(** Modelled from the spec: [compareTwoStrings] of the package
    [string-similarity], which is not among the sources.  Identical
    strings score 1.0 and the rest is scored by [dice]. *)
Definition compareTwoStrings (first second : string) : Q :=
  let f := stripSpaces first in
  let s := stripSpaces second in
  if String.eqb (ofChars f) (ofChars s) then 1
  else if (List.length f <? 2)%nat || (List.length s <? 2)%nat then 0
  else dice f s.

(** The number of bigrams a map holds, and the number of times a
    bigram occurs in a list. *)
Definition totalCount (m : counts) : nat :=
  fold_right (fun e acc => (snd e + acc)%nat) 0%nat m.

Definition occurrences (b : bigram) (bs : list bigram) : nat :=
  List.length (filter (bigram_eqb b) bs).

Definition calculateSimilarity (text1 text2 : string) : Q :=
  compareTwoStrings (normalizeText text1) (normalizeText text2).

End Similarity.

(** ** Regular expressions

    The patterns of the sources use character classes, literals,
    sequence, alternation, greedy and lazy repetition of one class, a
    look-ahead and the end anchor.  [matchAt] is the backtracking matcher
    with a continuation: it tries the alternatives in the order of the
    JavaScript engine. *)

Module Regex.
Import Str.

Inductive re : Type :=
| Eps
| Chr (p : ascii -> bool)
| Lit (s : string)
| Seq (r1 r2 : re)
| Alt (r1 r2 : re)
| Star (p : ascii -> bool)
| LazyStar (p : ascii -> bool)
| Ahead (r : re)
| Eos.

Definition cont : Type := list ascii -> option (list ascii).

Fixpoint starGreedy (p : ascii -> bool) (k : cont) (s : list ascii) : option (list ascii) :=
  match s with
  | c :: t =>
      if p c
      then match starGreedy p k t with
           | Some r => Some r
           | None => k s
           end
      else k s
  | [] => k s
  end.

Fixpoint starLazy (p : ascii -> bool) (k : cont) (s : list ascii) : option (list ascii) :=
  match k s with
  | Some r => Some r
  | None =>
      match s with
      | c :: t => if p c then starLazy p k t else None
      | [] => None
      end
  end.

Fixpoint dropPrefix (p s : list ascii) : option (list ascii) :=
  match p, s with
  | [], _ => Some s
  | _ :: _, [] => None
  | a :: p', b :: s' => if Ascii.eqb a b then dropPrefix p' s' else None
  end.

Fixpoint matchAt (r : re) (s : list ascii) (k : cont) : option (list ascii) :=
  match r with
  | Eps => k s
  | Chr p =>
      match s with
      | c :: t => if p c then k t else None
      | [] => None
      end
  | Lit l =>
      match dropPrefix (chars l) s with
      | Some t => k t
      | None => None
      end
  | Seq a b => matchAt a s (fun t => matchAt b t k)
  | Alt a b =>
      match matchAt a s k with
      | Some t => Some t
      | None => matchAt b s k
      end
  | Star p => starGreedy p k s
  | LazyStar p => starLazy p k s
  | Ahead a =>
      match matchAt a s (fun t => Some t) with
      | Some _ => k s
      | None => None
      end
  | Eos =>
      match s with
      | [] => k s
      | _ :: _ => None
      end
  end.

(** The leftmost match at or after the start of [s]: the text before
    it, the matched text and the rest. *)
Fixpoint searchFrom (r : re) (s : list ascii) : option (list ascii * list ascii) :=
  match matchAt r s (fun t => Some t) with
  | Some rest => Some (firstn (List.length s - List.length rest) s, rest)
  | None =>
      match s with
      | [] => None
      | _ :: t => searchFrom r t
      end
  end.

(** [regex.test(s)] *)
Definition test (r : re) (s : string) : bool :=
  match searchFrom r (chars s) with
  | Some _ => true
  | None => false
  end.

(** The loop [while ((match = regex.exec(s)) !== null)] of a global
    pattern, and [s.matchAll(regex)]: the successive matches, each
    search starting where the previous match ended.  None of the global
    patterns of the sources matches the empty string; an empty match
    ends the scan here. *)
Fixpoint execAllFrom (fuel : nat) (r : re) (s : list ascii) : list (list ascii) :=
  match fuel with
  | O => []
  | S fuel' =>
      match searchFrom r s with
      | Some (m, rest) =>
          match m with
          | [] => []
          | _ :: _ => m :: execAllFrom fuel' r rest
          end
      | None => []
      end
  end.

Definition execAll (r : re) (s : string) : list string :=
  map ofChars (execAllFrom (S (String.length s)) r (chars s)).

Definition seq (rs : list re) : re := fold_right Seq Eps rs.
Definition plus (p : ascii -> bool) : re := Seq (Chr p) (Star p).
Definition opt (r : re) : re := Alt r Eps.
Definition anyChar : ascii -> bool := fun _ => true.
Definition oneOf (s : string) (c : ascii) : bool :=
  existsb (Ascii.eqb c) (chars s).
Definition noneOf (s : string) (c : ascii) : bool := negb (oneOf s c).
Definition nl : string := String (ascii_of_nat 10) "".

End Regex.

(** ** SnippetExtractor *)

Module Extract.
Import Str Regex.

(** [/(?:function\s+\w+\s*\([^)]*\)\s*\{[\s\S]*?\n\s*\})|(?:def\s+\w+\s*\([^)]*\):[\s\S]*?)(?=\n\s*\n|\n\s*def|\n\s*class|$)/g] *)
Definition functionRegex : re :=
  Alt
    (seq [Lit "function"; plus isSpace; plus isWord; Star isSpace;
          Lit "("; Star (noneOf ")"); Lit ")"; Star isSpace; Lit "{";
          LazyStar anyChar; Lit nl; Star isSpace; Lit "}"])
    (seq [Lit "def"; plus isSpace; plus isWord; Star isSpace;
          Lit "("; Star (noneOf ")"); Lit ")"; Lit ":"; LazyStar anyChar;
          Ahead (Alt (seq [Lit nl; Star isSpace; Lit nl])
                (Alt (seq [Lit nl; Star isSpace; Lit "def"])
                (Alt (seq [Lit nl; Star isSpace; Lit "class"])
                     Eos)))]).

(** [/(?:class\s+\w+[\s\S]*?)(?=\n\s*\n|\n\s*class|$)/g] *)
Definition classRegex : re :=
  seq [Lit "class"; plus isSpace; plus isWord; LazyStar anyChar;
       Ahead (Alt (seq [Lit nl; Star isSpace; Lit nl])
             (Alt (seq [Lit nl; Star isSpace; Lit "class"])
                  Eos))].

Definition isSignificant (line : string) : bool :=
  let t := trim line in
  (20 <? String.length t)%nat
  && negb (startsWith t "//")
  && negb (startsWith t "#")
  && negb (startsWith t "/*").

(** [for (let i = 0; i < significantLines.length; i += 5)] *)
Fixpoint chunksOf5 (fuel : nat) (l : list string) : list string :=
  match fuel with
  | O => []
  | S fuel' =>
      match l with
      | [] => []
      | _ :: _ =>
          let chunk := joinLines (firstn 5 l) in
          ((if (50 <? String.length chunk)%nat then [chunk] else [])
           ++ chunksOf5 fuel' (skipn 5 l))%list
      end
  end.

Definition extractSearchSnippets (code : string) : list string :=
  let lines := splitLines code in
  let snippets := (execAll functionRegex code ++ execAll classRegex code)%list in
  let snippets :=
    match snippets with
    | [] =>
        let significantLines := filter isSignificant lines in
        chunksOf5 (List.length significantLines) significantLines
    | _ :: _ => snippets
    end in
  firstn 10 snippets.

End Extract.

(** ** Values received from the request *)

Module Js.

(** The [content] member of a submitted file.  The handler does not
    check it: it may be missing ([undefined] or [null]), a value that
    is not a string (a number, a boolean, an array, an object; its
    [length], when it has one, is kept) or a string. *)
Inductive Content : Type :=
| Absent
| NotText (length : option nat)
| Text (s : string).

(** A string is truthy when it is not empty; a missing one is falsy. *)
Definition truthy (s : option string) : bool :=
  match s with
  | Some t => negb (String.eqb t "")
  | None => false
  end.

(** The text of a template literal for a value that may be missing. *)
Definition render (s : option string) : string :=
  match s with
  | Some t => t
  | None => "undefined"
  end.

End Js.

(** ** AuthorshipHeuristic *)

Module AIDetection.
Import Str Regex Num.

Record Pattern : Type := {
  p_type : string;
  p_score : Q
}.

Record PatternAnalysis : Type := {
  patterns : list Pattern;
  pa_aiScore : Q;
  totalPatterns : nat
}.

Record OpenaiAnalysis : Type := {
  oa_aiProbability : Q;
  reasoning : string
}.

Record Stats : Type := {
  totalLines : nat;
  commentLines : nat;
  functionCount : nat;
  classCount : nat;
  variableCount : nat;
  st_aiScore : Q
}.

Record Analysis : Type := {
  pattern : PatternAnalysis;
  openai : OpenaiAnalysis;
  statistical : Stats
}.

Record AIResult : Type := {
  aiProbability : Q;
  ai_patterns : list Pattern;
  confidence : Q;
  analysis : option Analysis;
  ai_error : option string
}.

Definition tripleQuote : string :=
  String (ascii_of_nat 34) (String (ascii_of_nat 34) (String (ascii_of_nat 34) "")).

Definition calculateCommentRatio (code : string) (language : string) : Q :=
  let lines := splitLines code in
  let isComment (line : string) :=
    let trimmedLine := trim line in
    if String.eqb language "python"
    then startsWith trimmedLine "#"
         || startsWith trimmedLine tripleQuote
         || startsWith trimmedLine "'''"
    else startsWith trimmedLine "//"
         || startsWith trimmedLine "/*"
         || startsWith trimmedLine "*" in
  natQ (count isComment lines) / natQ (List.length lines).

(** The length of the white space a line starts with: the group that
    [line.match] captures at the start of the line. *)
Definition indentation (line : string) : Q :=
  natQ (List.length (chars line) - List.length (dropWhile isSpace (chars line))).

Definition operators : string := "+-*/=<>!&|".

Definition analyzeFormatting (code : string) : Q :=
  let lines := splitLines code in
  let totalLines := natQ (List.length lines) in
  let indentations := map indentation lines in
  let operatorSpacing :=
    count (fun line => test (Chr (oneOf operators)) line
                       && test (seq [Chr isSpace; Chr (oneOf operators); Chr isSpace]) line)
          lines in
  let hasConsistentEndings :=
    forallb (fun line => endsWith line ";" || String.eqb (trim line) ""
                         || endsWith (trim line) "{" || endsWith (trim line) "}"
                         || endsWith (trim line) ":" || startsWith (trim line) "//")
            lines in
  let c1 := if hasConsistentEndings then totalLines * 0.3 else 0 in
  let c2 := if gtb (natQ operatorSpacing) (totalLines * 0.1) then c1 + totalLines * 0.3 else c1 in
  let indentVariance := Math_var indentations in
  let c3 := if ltb indentVariance 2 then c2 + totalLines * 0.4 else c2 in
  Qmin (c3 / totalLines) 1.

Definition identStart (c : ascii) : bool :=
  isLower c || isUpper c || oneOf "_$" c.
Definition identPart (c : ascii) : bool :=
  identStart c || isDigit c.

(** The pattern [(?:const|let|var)\s+(IDENT)], global, where IDENT is
    a letter, underscore or dollar sign followed by any number of
    letters, digits, underscores and dollar signs. *)
Definition variableRegex : re :=
  seq [Alt (Lit "const") (Alt (Lit "let") (Lit "var")); plus isSpace;
       Chr identStart; Star identPart].

(** The capture group of [variableRegex]: the match without its
    keyword and the white space after it. *)
Definition declaredName (m : string) : string :=
  let afterKeyword :=
    if startsWith m "const" then skipn 5 (chars m) else skipn 3 (chars m) in
  ofChars (dropWhile isSpace afterKeyword).

Definition genericNames : list string :=
  ["data"; "result"; "value"; "item"; "element"; "obj"; "arr"; "str"; "num";
   "temp"; "temp1"; "temp2"; "var1"; "var2"; "x"; "y"; "z"; "i"; "j"; "k";
   "count"; "index"; "length"; "size"; "name"; "type"; "id"; "key"].

Definition analyzeVariableNames (code : string) : Q :=
  let matches := execAll variableRegex code in
  let genericCount :=
    count (fun m => existsb (String.eqb (toLowerCase (declaredName m))) genericNames)
          matches in
  match matches with
  | [] => 0
  | _ :: _ => natQ genericCount / natQ (List.length matches)
  end.

Definition analyzeOverEngineering (code : string) : Q :=
  let lines := splitLines code in
  let len := natQ (List.length lines) in
  let errorHandlingLines :=
    count (test (Alt (seq [Lit "try"; Star isSpace; Lit "{"])
                (Alt (seq [Lit "catch"; Star isSpace; Lit "("])
                (Alt (seq [Lit "finally"; Star isSpace; Lit "{"])
                     (seq [Lit "throw"; plus isSpace; Lit "new"])))))
          lines in
  let s1 := if gtb (natQ errorHandlingLines) (len * 0.1) then 0.3 else 0 in
  let functionLines :=
    count (test (Alt (seq [Lit "function"; plus isSpace; plus isWord])
                     (seq [Lit "def"; plus isSpace; plus isWord])))
          lines in
  let s2 := if gtb (natQ functionLines) (len * 0.15) then s1 + 0.3 else s1 in
  let commentLines :=
    count (fun line => startsWith (trim line) "//" || startsWith (trim line) "#") lines in
  let s3 := if gtb (natQ commentLines) (len * 0.3) then s2 + 0.4 else s2 in
  Qmin s3 1.

Definition analyzePersonalStyle (code : string) : Q :=
  let lines := splitLines code in
  let indentVariance := Math_var (map indentation lines) in
  let s1 := if gtb indentVariance 2 then 0.3 else 0 in
  let camelCaseVars :=
    List.length (execAll (seq [Chr isLower; Star (fun c => isLower c || isUpper c || isDigit c)]) code) in
  let snakeCaseVars :=
    List.length (execAll (seq [Chr isLower; Star (fun c => isLower c || isDigit c || oneOf "_" c)]) code) in
  let s2 := if (0 <? camelCaseVars)%nat && (0 <? snakeCaseVars)%nat then s1 + 0.3 else s1 in
  let personalComments :=
    count (fun line => test (Alt (Lit "TODO") (Alt (Lit "FIXME") (Alt (Lit "HACK")
                             (Alt (Lit "NOTE") (Lit "BUG")))))
                            (toUpperCase line))
          lines in
  let s3 := if (0 <? personalComments)%nat then s2 + 0.4 else s2 in
  Qmin s3 1.

(** One step of [analyzeAIPatterns]: a pattern that fires is recorded
    and its score is added to [aiScore]. *)
Definition addPattern (fires : bool) (type : string) (score : Q)
    (acc : list Pattern * Q) : list Pattern * Q :=
  if fires
  then ((fst acc ++ [{| p_type := type; p_score := score |}])%list, snd acc + score)
  else acc.

Definition analyzeAIPatterns (code : string) (language : string) : PatternAnalysis :=
  let commentRatio := calculateCommentRatio code language in
  let formattingScore := analyzeFormatting code in
  let genericNamesScore := analyzeVariableNames code in
  let overEngineeringScore := analyzeOverEngineering code in
  let personalStyleScore := analyzePersonalStyle code in
  let acc := ([], 0) in
  let acc := addPattern (gtb commentRatio 0.3) "excessive_comments" (commentRatio * 0.3) acc in
  let acc := addPattern (gtb formattingScore 0.8) "perfect_formatting" (formattingScore * 0.2) acc in
  let acc := addPattern (gtb genericNamesScore 0.6) "generic_names" (genericNamesScore * 0.25) acc in
  let acc := addPattern (gtb overEngineeringScore 0.7) "over_engineering" (overEngineeringScore * 0.3) acc in
  let acc := addPattern (ltb personalStyleScore 0.3) "lack_personal_style"
                        ((1 - personalStyleScore) * 0.2) acc in
  {| patterns := fst acc;
     pa_aiScore := Qmin (snd acc) 1;
     totalPatterns := List.length (fst acc) |}.


(** The member [aiProbability] of an answer that parses as JSON, as
    the code uses it.  [parsedResult.aiProbability || 0] keeps a truthy
    member whatever its type, and the weighted sum and the comparison
    of [calculateConfidence] then read it as a number.
    - [Falsy]: the member is missing, [null], [false], [0] or the empty
      string;
    - [Reads q]: a truthy member that arithmetic reads as the number
      [q]: a number, a string such as ['0.75'] (read as 0.75), [true]
      (read as 1).
    A truthy member that arithmetic reads as [NaN] (a word, an object)
    is not among the answers: exact rationals hold no [NaN]. *)
Inductive Member : Type :=
| Falsy
| Reads (q : Q).

(** What the generative model answers to one prompt: the call fails,
    or the answer parses as JSON to a value other than [null] (with
    its [aiProbability] member and its [reasoning] when that is truthy;
    a number or a string has no members), or the inner [try] throws
    ([JSON.parse] rejects the text, or the text is [null]) and the text
    is kept. *)
Inductive GeminiOutcome : Type :=
| GeminiFails (message : string)
| GeminiJson (aiProbability : Member) (reasoning : option string)
| GeminiText (content : string).

(** The client of the generative model, given the two parts of the
    prompt that vary: the language and the first 2000 characters of the
    code.  [None] when no key is configured. *)
Definition Gemini : Type := option (string -> string -> GeminiOutcome).

Definition digitsToZ (l : list ascii) : Z :=
  fold_left (fun a c => (10 * a + Z.of_nat (code c - 48))%Z) l 0%Z.

Fixpoint takeWhile {A} (p : A -> bool) (l : list A) : list A :=
  match l with
  | [] => []
  | x :: t => if p x then x :: takeWhile p t else []
  end.

(** [parseFloat] on a match of [probabilityRegex]: digits, then
    possibly a point and more digits. *)
Definition parseFloat (m : list ascii) : Q :=
  let whole := takeWhile isDigit m in
  let fraction :=
    match dropWhile isDigit m with
    | [] => []
    | _ :: f => f
    end in
  inject_Z (digitsToZ whole)
  + inject_Z (digitsToZ fraction) / inject_Z (10 ^ Z.of_nat (List.length fraction)).

(** The pattern [\d+\.?\d*] that recovers a number from free text. *)
Definition probabilityRegex : re :=
  seq [plus isDigit; opt (Lit "."); Star isDigit].

Definition openaiAnalysis (gemini : Gemini) (code language : string) : OpenaiAnalysis :=
  match gemini with
  | None => {| oa_aiProbability := 0; reasoning := "Gemini API not configured" |}
  | Some generateContent =>
      match generateContent language (String.substring 0 2000 code) with
      | GeminiFails message =>
          {| oa_aiProbability := 0; reasoning := "Analysis failed: " ++ message |}
      | GeminiJson p r =>
          {| oa_aiProbability := match p with Reads q => q | Falsy => 0 end;
             reasoning := match r with Some t => t | None => "No reasoning provided" end |}
      | GeminiText content =>
          {| oa_aiProbability :=
               match searchFrom probabilityRegex (chars content) with
               | Some (m, _) => parseFloat m / 100
               | None => 0
               end;
             reasoning := content |}
      end
  end.

Definition statisticalAnalysis (code : string) : Stats :=
  let lines := splitLines code in
  let totalLines := List.length lines in
  let commentLines :=
    count (fun line =>
             let trimmedLine := trim line in
             startsWith trimmedLine "//" || startsWith trimmedLine "#"
             || startsWith trimmedLine "/*" || startsWith trimmedLine "*")
          lines in
  let functionCount :=
    count (fun line => test (seq [Lit "function"; plus isSpace; plus isWord; Star isSpace; Lit "("]) line
                       || test (seq [Lit "def"; plus isSpace; plus isWord; Star isSpace; Lit "("]) line)
          lines in
  let classCount :=
    count (test (seq [Lit "class"; plus isSpace; plus isWord])) lines in
  let variableCount :=
    count (test (Alt (seq [Lit "const"; plus isSpace; plus isWord])
                (Alt (seq [Lit "let"; plus isSpace; plus isWord])
                     (seq [Lit "var"; plus isSpace; plus isWord]))))
          lines in
  let commentRatio := natQ commentLines / natQ totalLines in
  let functionDensity := natQ functionCount / natQ totalLines in
  let variableDensity := natQ variableCount / natQ totalLines in
  let aiScore := 0 in
  let aiScore := if gtb commentRatio 0.2 then aiScore + 0.2 else aiScore in
  let aiScore := if gtb functionDensity 0.05 && ltb functionDensity 0.15
                 then aiScore + 0.2 else aiScore in
  let aiScore := if gtb variableDensity 0.1 then aiScore + 0.2 else aiScore in
  let aiScore := if (50 <? totalLines)%nat then aiScore + 0.2 else aiScore in
  let aiScore := if (0 <? classCount)%nat then aiScore + 0.2 else aiScore in
  {| totalLines := totalLines;
     commentLines := commentLines;
     functionCount := functionCount;
     classCount := classCount;
     variableCount := variableCount;
     st_aiScore := Qmin aiScore 1 |}.

Definition calculateConfidence (a : Analysis) : Q :=
  let acc := (0, 0%nat) in
  let acc := if (0 <? totalPatterns (pattern a))%nat
             then (fst acc + natQ (totalPatterns (pattern a)) * 0.1, S (snd acc)) else acc in
  let acc := if gtb (oa_aiProbability (openai a)) 0
             then (fst acc + 0.3, S (snd acc)) else acc in
  let acc := if gtb (st_aiScore (statistical a)) 0
             then (fst acc + 0.2, S (snd acc)) else acc in
  if (0 <? snd acc)%nat then Qmin (fst acc / natQ (snd acc)) 1 else 0.

(** The weighted average of the three scores. *)
Definition weighted (patternScore openaiScore statisticalScore : Q) : Q :=
  patternScore * 0.4 + openaiScore * 0.4 + statisticalScore * 0.2.

(** [detectAIGeneratedCode].  The whole body is inside [try]; the first
    thing it does with [code] is [code.split], which throws on anything
    but a string. *)
Definition detectAIGeneratedCode (gemini : Gemini) (code : Js.Content)
    (language : option string) : AIResult :=
  let language := match language with Some l => l | None => "javascript" end in
  match code with
  | Js.Text code =>
      let patternAnalysis := analyzeAIPatterns code language in
      let openaiAnalysis := openaiAnalysis gemini code language in
      let statisticalAnalysis := statisticalAnalysis code in
      let analysis := {| pattern := patternAnalysis;
                         openai := openaiAnalysis;
                         statistical := statisticalAnalysis |} in
      let patternScore := orZero (pa_aiScore patternAnalysis) in
      let openaiScore := orZero (oa_aiProbability openaiAnalysis) in
      let statisticalScore := orZero (st_aiScore statisticalAnalysis) in
      {| aiProbability := weighted patternScore openaiScore statisticalScore;
         ai_patterns := patterns patternAnalysis;
         confidence := calculateConfidence analysis;
         analysis := Some analysis;
         ai_error := None |}
  | _ =>
      {| aiProbability := 0;
         ai_patterns := [];
         confidence := 0;
         analysis := None;
         ai_error := Some "code.split is not a function" |}
  end.

End AIDetection.

(** ** EvidenceSource: the three search operations *)

Module Search.
Import Str Regex Js.

(** The environment variables the services read when they are built. *)
Record Config : Type := {
  SERPAPI_KEY : option string;
  STACKOVERFLOW_API_KEY : option string;
  GITHUB_TOKEN : option string
}.

(** One organic result of the web search API. *)
Record WebItem : Type := {
  item_title : option string;
  item_link : option string;
  item_snippet : option string
}.

(** One question and one answer of the Stack Exchange API. *)
Record Question : Type := {
  question_id : Z;
  question_title : option string;
  question_link : option string;
  answer_count : nat
}.

Record Answer : Type := {
  body : string;
  answer_score : Z;
  answer_id : Z
}.

(** One item of the GitHub code search. *)
Record CodeItem : Type := {
  item_name : string;
  item_path : string;
  repository_full_name : string;
  html_url : string;
  item_language : option string
}.

(** The remote services.  A call that fails (transport, status code,
    authentication, rate limit, missing data) is a [Throw].
    - [serpapi api_key q] gives [response.data.organic_results];
    - [stackSearch q tagged key] gives [response.data.items];
    - [stackAnswers question_id key] gives [answerResponse.data.items];
    - [githubSearchCode auth q] gives [response.data.items]. *)
Record Net : Type := {
  serpapi : string -> string -> Exc (option (list WebItem));
  stackSearch : string -> string -> string -> Exc (option (list Question));
  stackAnswers : Z -> string -> Exc (option (list Answer));
  githubSearchCode : option string -> string -> Exc (list CodeItem)
}.

(** What [searchWeb] returns for one result. *)
Record WebResult : Type := {
  web_title : option string;
  web_link : option string;
  web_snippet : option string
}.

(** What [searchStackOverflow] returns for one question. *)
Record StackResult : Type := {
  so_title : option string;
  so_link : option string;
  so_snippet : string;
  so_score : Z;
  so_answerId : Z
}.

(** What [searchCode] returns for one item. *)
Record CodeResult : Type := {
  code_name : string;
  code_path : string;
  code_repository : string;
  code_url : string;
  code_language : option string
}.

Definition searchWeb (cfg : Config) (net : Net) (query : string)
    (language : option string) : Exc (list WebResult) :=
  tryCatch
    (if negb (truthy (SERPAPI_KEY cfg)) then Ok []
     else
       let searchQuery :=
         if truthy language then query ++ " " ++ render language ++ " code" else query in
       organic_results <- serpapi net (render (SERPAPI_KEY cfg)) searchQuery ;;
       match organic_results with
       | Some items =>
           Ok (map (fun item => {| web_title := item_title item;
                                   web_link := item_link item;
                                   web_snippet := item_snippet item |}) items)
       | None => Ok []
       end)
    (fun _ => Ok []).

(** The capture group of a match: the match without [before] leading
    and [after] trailing characters. *)
Definition inner (before after : nat) (m : string) : string :=
  String.substring before (String.length m - before - after) m.

Definition extractCodeFromAnswer (answerBody : string) : string :=
  let codeBlockRegex :=
    seq [Lit "<pre><code>"; LazyStar anyChar; Lit "</code></pre>"] in
  let inlineCodeRegex :=
    seq [Lit "<code>"; Star (noneOf "<"); Lit "</code>"] in
  let codeBlocks :=
    (map (inner 11 13) (execAll codeBlockRegex answerBody)
     ++ map (inner 6 7) (execAll inlineCodeRegex answerBody))%list in
  joinLines codeBlocks.

(** The configuration with another Stack Overflow key. *)
Definition withStackKey (cfg : Config) (key : option string) : Config :=
  {| SERPAPI_KEY := SERPAPI_KEY cfg;
     STACKOVERFLOW_API_KEY := key;
     GITHUB_TOKEN := GITHUB_TOKEN cfg |}.

Definition stackKey (cfg : Config) : string :=
  if truthy (STACKOVERFLOW_API_KEY cfg)
  then render (STACKOVERFLOW_API_KEY cfg) else "anonymous".

(** The loop over the questions of [searchStackOverflow]. *)
Fixpoint bestAnswers (cfg : Config) (net : Net) (questions : list Question)
    (results : list StackResult) : Exc (list StackResult) :=
  match questions with
  | [] => Ok results
  | question :: rest =>
      if (0 <? answer_count question)%nat
      then
        items <- stackAnswers net (question_id question) (stackKey cfg) ;;
        match items with
        | Some (answer :: _) =>
            bestAnswers cfg net rest
              (results ++ [{| so_title := question_title question;
                              so_link := question_link question;
                              so_snippet := extractCodeFromAnswer (body answer);
                              so_score := answer_score answer;
                              so_answerId := answer_id answer |}])%list
        | _ => bestAnswers cfg net rest results
        end
      else bestAnswers cfg net rest results
  end.

Definition searchStackOverflow (cfg : Config) (net : Net) (query : string)
    (language : option string) : Exc (list StackResult) :=
  tryCatch
    (let searchQuery :=
       if truthy language then query ++ " [" ++ render language ++ "]" else query in
     let tagged := if truthy language then render language else "" in
     items <- stackSearch net searchQuery tagged (stackKey cfg) ;;
     match items with
     | Some questions => bestAnswers cfg net questions []
     | None => Ok []
     end)
    (fun _ => Ok []).

(** [searchCode] of the GitHub service. *)
Definition searchCode (cfg : Config) (net : Net) (query : string)
    (language : option string) : Exc (list CodeResult) :=
  tryCatch
    (let searchQuery :=
       if truthy language then query ++ " language:" ++ render language else query in
     items <- githubSearchCode net (GITHUB_TOKEN cfg) searchQuery ;;
     Ok (map (fun item => {| code_name := item_name item;
                             code_path := item_path item;
                             code_repository := repository_full_name item;
                             code_url := html_url item;
                             code_language := item_language item |}) items))
    (fun _ => Ok []).

End Search.

(** ** FileAnalyzer and SubmissionAggregator *)

Module Analysis.
Import Str Js Num Similarity Extract AIDetection Search.

Inductive SourceKind : Type := github | stackoverflow | web.

Inductive RiskTier : Type := critical | high | medium | low | minimal.

(** The object a search result becomes inside [analyzeFile]:
    [{...match, source: ..., snippet: snippet}].  The members [source]
    and [snippet] are written after the spread, so they replace the
    members of the same name that the result had; the other members of
    the result are kept ([title] and [link] are the ones read later). *)
Record Tagged : Type := {
  title : option string;
  link : option string;
  source : SourceKind;
  snippet : string
}.

(** [{...match, similarity: similarity, risk: getRiskLevel(similarity)}] *)
Record Match : Type := {
  tagged : Tagged;
  similarity : Q;
  risk : RiskTier
}.

Record CodeFile : Type := {
  filename : string;
  content : Content;
  language : option string
}.

Record Options : Type := {
  searchGitHub : bool;
  searchStackOverflow : bool;
  searchWeb : bool;
  detectAI : bool;
  similarityThreshold : Q
}.

(** The defaults of the destructuring in [analyzeFile]. *)
Definition defaultOptions : Options :=
  {| searchGitHub := true;
     searchStackOverflow := true;
     searchWeb := true;
     detectAI := true;
     similarityThreshold := 0.3 |}.

(** The options with the GitHub search switched off. *)
Definition withoutGitHub (options : Options) : Options :=
  {| searchGitHub := false;
     searchStackOverflow := searchStackOverflow options;
     searchWeb := searchWeb options;
     detectAI := detectAI options;
     similarityThreshold := similarityThreshold options |}.

Record FileResult : Type := {
  r_filename : string;
  r_language : option string;
  size : option nat;
  plagiarismScore : Q;
  aiGeneratedScore : Q;
  matches : list Match;
  aiAnalysis : option AIResult;
  error : option string
}.

Definition getRiskLevel (similarity : Q) : RiskTier :=
  if geb similarity 0.9 then critical
  else if geb similarity 0.7 then high
  else if geb similarity 0.5 then medium
  else if geb similarity 0.3 then low
  else minimal.

Definition tagGithub (snippet : string) (m : CodeResult) : Tagged :=
  {| title := None; link := None; source := github; snippet := snippet |}.

Definition tagStackOverflow (snippet : string) (m : StackResult) : Tagged :=
  {| title := so_title m; link := so_link m; source := stackoverflow; snippet := snippet |}.

Definition tagWeb (snippet : string) (m : WebResult) : Tagged :=
  {| title := web_title m; link := web_link m; source := web; snippet := snippet |}.

(** [try { matches.push(...) } catch (error) { console.warn(...) }] *)
Definition pushed {A} (body : Exc (list A)) : list A :=
  match body with
  | Ok l => l
  | Throw _ => []
  end.

(** The three searches for one snippet, in the order of the code. *)
Definition searchSnippet (cfg : Config) (net : Net) (file : CodeFile)
    (options : Options) (snippet : string) : list Tagged :=
  ((if searchGitHub options
    then pushed (githubMatches <- searchCode cfg net snippet (language file) ;;
                 Ok (map (tagGithub snippet) githubMatches))
    else [])
   ++ (if searchStackOverflow options
       then pushed (stackOverflowMatches <- Search.searchStackOverflow cfg net snippet (language file) ;;
                    Ok (map (tagStackOverflow snippet) stackOverflowMatches))
       else [])
   ++ (if searchWeb options
       then pushed (webMatches <- Search.searchWeb cfg net snippet (language file) ;;
                    Ok (map (tagWeb snippet) webMatches))
       else []))%list.

(** The loop [for (const match of matches)] for one snippet. *)
Definition scoreMatches (similarityThreshold : Q) (snippet : string)
    (found : list Tagged) : list Match :=
  flat_map
    (fun m =>
       if negb (String.eqb (Analysis.snippet m) "")
       then
         let similarity := calculateSimilarity snippet (Analysis.snippet m) in
         if gtb similarity similarityThreshold
         then [{| tagged := m; similarity := similarity; risk := getRiskLevel similarity |}]
         else []
       else [])
    found.

(** What the scoring step is specified to do with one candidate: its
    own text, when it has one that is not empty, is compared with the
    unit; the candidate is kept with its similarity and tier when the
    similarity is above the threshold.  [scoreMatches] is what the code
    does; this is the statement it is compared with. *)
Definition specifiedVerdict (similarityThreshold : Q) (unit : string)
    (candidateText : option string) : option (Q * RiskTier) :=
  match candidateText with
  | Some text =>
      if negb (String.eqb text "")
      then
        let similarity := calculateSimilarity unit text in
        if gtb similarity similarityThreshold
        then Some (similarity, getRiskLevel similarity)
        else None
      else None
  | None => None
  end.

(** [allMatches] when the loop over the snippets ends. *)
Definition collectMatches (cfg : Config) (net : Net) (file : CodeFile)
    (options : Options) (snippets : list string) : list Match :=
  flat_map
    (fun snippet =>
       scoreMatches (similarityThreshold options) snippet
                    (searchSnippet cfg net file options snippet))
    snippets.

(** [list.sort((a, b) => key(b) - key(a))]: the stable sort by
    descending key. *)
Fixpoint insertDesc {A} (key : A -> Q) (x : A) (l : list A) : list A :=
  match l with
  | [] => [x]
  | y :: t => if ltb (key x) (key y) then y :: insertDesc key x t else x :: l
  end.

Definition sortDesc {A} (key : A -> Q) (l : list A) : list A :=
  fold_right (insertDesc key) [] l.

(** The order of a list sorted by descending key, and the elements of
    a list that have one given key, in their order. *)
Definition descending {A} (key : A -> Q) (a b : A) : Prop := key b <= key a.

Definition withKey {A} (key : A -> Q) (q : Q) (l : list A) : list A :=
  filter (fun a => Qeq_bool (key a) q) l.

(** [Math.max(...values)] of a list that is not empty. *)
Definition Math_max (values : list Q) : Q :=
  match values with
  | [] => 0
  | x :: t => fold_left Qmax t x
  end.

Definition overallScore (ms : list Match) : Q :=
  match ms with
  | [] => 0
  | _ :: _ =>
      let maxSimilarity := Math_max (map similarity ms) in
      let avgSimilarity :=
        fold_left (fun sum m => sum + similarity m) ms 0 / natQ (List.length ms) in
      maxSimilarity * 0.7 + avgSimilarity * 0.3
  end.

(** [file.content.length], read before the [try]. *)
Definition contentLength (c : Content) : Exc (option nat) :=
  match c with
  | Absent => Throw "Cannot read properties of undefined (reading 'length')"
  | NotText n => Ok n
  | Text s => Ok (Some (String.length s))
  end.

(** [searchService.extractSearchSnippets(file.content)]: its first
    statement is [code.split]. *)
Definition snippetsOf (c : Content) : Exc (list string) :=
  match c with
  | Text s => Ok (extractSearchSnippets s)
  | _ => Throw "code.split is not a function"
  end.

Definition analyzeFile (cfg : Config) (net : Net) (gemini : Gemini)
    (file : CodeFile) (options : Options) : Exc FileResult :=
  size <- contentLength (content file) ;;
  let result :=
    {| r_filename := filename file;
       r_language := language file;
       size := size;
       plagiarismScore := 0;
       aiGeneratedScore := 0;
       matches := [];
       aiAnalysis := None;
       error := None |} in
  (* 1. AI Detection *)
  let result :=
    if detectAI options
    then
      let ai := detectAIGeneratedCode gemini (content file) (language file) in
      {| r_filename := r_filename result;
         r_language := r_language result;
         size := Analysis.size result;
         plagiarismScore := plagiarismScore result;
         aiGeneratedScore := aiProbability ai;
         matches := matches result;
         aiAnalysis := Some ai;
         error := error result |}
    else result in
  (* 2. Plagiarism Detection *)
  match snippetsOf (content file) with
  | Ok snippets =>
      let allMatches := collectMatches cfg net file options snippets in
      let sorted := sortDesc similarity allMatches in
      Ok {| r_filename := r_filename result;
            r_language := r_language result;
            size := Analysis.size result;
            plagiarismScore := overallScore sorted;
            aiGeneratedScore := aiGeneratedScore result;
            matches := sorted;
            aiAnalysis := aiAnalysis result;
            error := error result |}
  | Throw message =>
      Ok {| r_filename := r_filename result;
            r_language := r_language result;
            size := Analysis.size result;
            plagiarismScore := plagiarismScore result;
            aiGeneratedScore := aiGeneratedScore result;
            matches := matches result;
            aiAnalysis := aiAnalysis result;
            error := Some message |}
  end.

(** *** Source aggregation *)

Module Aggregate.
Record t : Type := {
  source : SourceKind;
  title : option string;
  link : option string;
  files : list string;
  maxSimilarity : Q;
  totalMatches : nat
}.
End Aggregate.

Definition sourceName (k : SourceKind) : string :=
  match k with
  | github => "github"
  | stackoverflow => "stackoverflow"
  | web => "web"
  end.

Definition SourceKind_eqb (a b : SourceKind) : bool :=
  match a, b with
  | github, github | stackoverflow, stackoverflow | web, web => true
  | _, _ => false
  end.

(** The key [`${match.source}-${match.link}`]. *)
Definition keyOf (m : Match) : string :=
  sourceName (source (tagged m)) ++ "-" ++ render (link (tagged m)).

(** The [Map] of [aggregateSources]: its entries in insertion order. *)
Definition SourceMap : Type := list (string * Aggregate.t).

Definition has (sourceMap : SourceMap) (key : string) : bool :=
  existsb (fun e => String.eqb (fst e) key) sourceMap.

(** The three statements after [sourceMap.get(key)], which change the
    entry of [key] in place. *)
Definition record (filename : string) (m : Match) (a : Aggregate.t) : Aggregate.t :=
  {| Aggregate.source := Aggregate.source a;
     Aggregate.title := Aggregate.title a;
     Aggregate.link := Aggregate.link a;
     Aggregate.files := (Aggregate.files a ++ [filename])%list;
     Aggregate.maxSimilarity := Qmax (Aggregate.maxSimilarity a) (similarity m);
     Aggregate.totalMatches := S (Aggregate.totalMatches a) |}.

Definition update (key : string) (f : Aggregate.t -> Aggregate.t)
    (sourceMap : SourceMap) : SourceMap :=
  map (fun e => if String.eqb (fst e) key then (fst e, f (snd e)) else e) sourceMap.

(** The body of [file.matches.forEach]. *)
Definition visit (filename : string) (sourceMap : SourceMap) (m : Match) : SourceMap :=
  let key := keyOf m in
  let sourceMap :=
    if has sourceMap key then sourceMap
    else (sourceMap ++ [(key, {| Aggregate.source := source (tagged m);
                                 Aggregate.title := title (tagged m);
                                 Aggregate.link := link (tagged m);
                                 Aggregate.files := [];
                                 Aggregate.maxSimilarity := 0;
                                 Aggregate.totalMatches := 0 |})])%list in
  update key (record filename m) sourceMap.

Definition buildSourceMap (files : list FileResult) : SourceMap :=
  fold_left
    (fun sourceMap file => fold_left (visit (r_filename file)) (matches file) sourceMap)
    files [].

(** The object [sources]: one array for each of its three keys. *)
Definition Sources : Type := SourceKind -> list Aggregate.t.

Definition aggregateSources (files : list FileResult) : Sources :=
  let sourceMap := buildSourceMap files in
  fun kind =>
    sortDesc Aggregate.maxSimilarity
      (filter (fun a => SourceKind_eqb (Aggregate.source a) kind) (map snd sourceMap)).

(** The pair that identifies an aggregate, as the text of its key. *)
Definition aggKey (a : Aggregate.t) : string :=
  sourceName (Aggregate.source a) ++ "-" ++ render (Aggregate.link a).

(** The matches of all files in the order in which [aggregateSources]
    visits them, each with the name of its file. *)
Definition walk (files : list FileResult) : list (string * Match) :=
  flat_map (fun file => map (fun m => (r_filename file, m)) (matches file)) files.

(** A match cites an aggregate when it has the same source and the
    same link; a missing link reads [undefined]. *)
Definition cites (a : Aggregate.t) (m : Match) : bool :=
  SourceKind_eqb (source (tagged m)) (Aggregate.source a)
  && String.eqb (render (link (tagged m))) (render (Aggregate.link a)).

(** The file names of the matches that cite an aggregate, one for each
    match, in the order of the visit. *)
Definition citingFiles (files : list FileResult) (a : Aggregate.t) : list string :=
  map fst (filter (fun fm => cites a (snd fm)) (walk files)).

(** The state of the [Map] after the matches [seen]: what holds of one
    entry, and of the map. *)
Definition entryOk (seen : list (string * Match)) (e : string * Aggregate.t) : Prop :=
  fst e = aggKey (snd e)
  /\ Aggregate.files (snd e)
     = map fst (filter (fun fm => String.eqb (keyOf (snd fm)) (fst e)) seen)
  /\ Aggregate.totalMatches (snd e) = List.length (Aggregate.files (snd e)).

Definition mapOk (seen : list (string * Match)) (sourceMap : SourceMap) : Prop :=
  NoDup (map fst sourceMap)
  /\ Forall (entryOk seen) sourceMap
  /\ (forall fm, In fm seen -> In (keyOf (snd fm)) (map fst sourceMap))
  /\ (forall k, In k (map fst sourceMap) -> exists fm, In fm seen /\ keyOf (snd fm) = k).

(** *** The handler of [POST /analyze] *)

Module Summary.
Record t : Type := {
  plagiarismScore : Q;
  aiGeneratedScore : Q;
  totalMatches : nat;
  highRiskFiles : list (string * Q)
}.
End Summary.

Module Submission.
Record t : Type := {
  totalFiles : nat;
  summary : Summary.t;
  files : list FileResult;
  sources : Sources
}.
End Submission.

Inductive Response : Type :=
| BadRequest (error : string)
| ServerError (error : string)
| Success (data : Submission.t).

(** The loop [for (const file of codeFiles)]: the results so far, the
    high-risk files and the number of matches.  An exception of
    [analyzeFile] leaves the loop. *)
Fixpoint processFiles (cfg : Config) (net : Net) (gemini : Gemini)
    (options : Options) (codeFiles : list CodeFile)
    (acc : list FileResult * list (string * Q) * nat)
    : Exc (list FileResult * list (string * Q) * nat) :=
  match codeFiles with
  | [] => Ok acc
  | file :: rest =>
      fileResult <- analyzeFile cfg net gemini file options ;;
      let '(files, highRiskFiles, totalMatches) := acc in
      let highRiskFiles :=
        if gtb (plagiarismScore fileResult) 0.7
        then (highRiskFiles ++ [(filename file, plagiarismScore fileResult)])%list
        else highRiskFiles in
      processFiles cfg net gemini options rest
        ((files ++ [fileResult])%list, highRiskFiles,
         (totalMatches + List.length (matches fileResult))%nat)
  end.

(** The handler on a body whose [codeFiles] is a list of file objects
    and whose [options] is not [null]: [options] holds what the
    destructuring in [analyzeFile] gives.  [Body.postAnalyze] is the
    handler on every body. *)
Definition analyze (cfg : Config) (net : Net) (gemini : Gemini)
    (codeFiles : list CodeFile) (options : Options) : Response :=
  match codeFiles with
  | [] => BadRequest "Code files are required"
  | _ :: _ =>
      match processFiles cfg net gemini options codeFiles ([], [], 0%nat) with
      | Throw message => ServerError ("Analysis failed: " ++ message)
      | Ok (files, highRiskFiles, totalMatches) =>
          let totalPlagiarismScore :=
            fold_left (fun sum file => sum + plagiarismScore file) files 0 in
          let totalAIScore :=
            fold_left (fun sum file => sum + aiGeneratedScore file) files 0 in
          Success
            {| Submission.totalFiles := List.length codeFiles;
               Submission.summary :=
                 {| Summary.plagiarismScore := totalPlagiarismScore / natQ (List.length files);
                    Summary.aiGeneratedScore := totalAIScore / natQ (List.length files);
                    Summary.totalMatches := totalMatches;
                    Summary.highRiskFiles := highRiskFiles |};
               Submission.files := files;
               Submission.sources := aggregateSources files |}
      end
  end.

End Analysis.

(** ** Concrete requests *)

Module Examples.
Import Str Regex Js AIDetection Search Analysis.

(** Two lines without a function or a class: one chunk of 69
    characters. *)
Definition twoLines : string :=
  "const total = items.reduce(sum, 0);" ++ nl ++ "console.log(total + offset + 42);".

Definition fileA : CodeFile :=
  {| filename := "a.js"; content := Text twoLines; language := Some "javascript" |}.

(** The same text under another name. *)
Definition fileB : CodeFile :=
  {| filename := "b.js"; content := Text twoLines; language := Some "javascript" |}.

(** A file whose [content] member is missing. *)
Definition fileNoContent : CodeFile :=
  {| filename := "n.js"; content := Absent; language := Some "javascript" |}.

(** Only the web search has a key. *)
Definition cfgWeb : Config :=
  {| SERPAPI_KEY := Some "serp-key"; STACKOVERFLOW_API_KEY := None; GITHUB_TOKEN := None |}.

(** No key at all. *)
Definition cfgNone : Config :=
  {| SERPAPI_KEY := None; STACKOVERFLOW_API_KEY := None; GITHUB_TOKEN := None |}.

Definition unrelated : WebItem :=
  {| item_title := Some "Cooking pasta";
     item_link := Some "https://example.org/pasta";
     item_snippet := Some "zzz qqq" |}.

(** The web search answers every query with one unrelated page; the
    other two services refuse every request. *)
Definition netWeb : Net :=
  {| serpapi := fun _ _ => Ok (Some [unrelated]);
     stackSearch := fun _ _ _ => Throw "Request failed with status code 400";
     stackAnswers := fun _ _ => Throw "Request failed with status code 400";
     githubSearchCode := fun _ _ => Throw "Requires authentication" |}.

(** Stack Overflow answers every request; the other two services
    refuse. *)
Definition netStack : Net :=
  {| serpapi := fun _ _ => Throw "Request failed with status code 401";
     stackSearch := fun _ _ _ =>
       Ok (Some [{| question_id := 11%Z;
                    question_title := Some "How to add two numbers";
                    question_link := Some "https://stackoverflow.com/q/11";
                    answer_count := 1 |}]);
     stackAnswers := fun _ _ =>
       Ok (Some [{| body := "<p>Try</p><pre><code>a + b</code></pre>";
                    answer_score := 3%Z;
                    answer_id := 12%Z |}]);
     githubSearchCode := fun _ _ => Throw "Requires authentication" |}.

(** Six long lines without a function or a class: a chunk of five
    lines and a chunk of one line. *)
Definition longLine : string :=
  "const total = items.reduce((sum, item) => sum + item, 0);".

Definition sixLines : string :=
  joinLines [longLine; longLine; longLine; longLine; longLine; longLine].

Definition fileC : CodeFile :=
  {| filename := "c.js"; content := Text sixLines; language := Some "javascript" |}.

(** Every service refuses every request. *)
Definition netDown : Net :=
  {| serpapi := fun _ _ => Throw "connect ETIMEDOUT";
     stackSearch := fun _ _ _ => Throw "connect ETIMEDOUT";
     stackAnswers := fun _ _ => Throw "connect ETIMEDOUT";
     githubSearchCode := fun _ _ => Throw "connect ETIMEDOUT" |}.

(** The file results of a submission when only the web search is
    configured and answers. *)
Definition resultsOf (codeFiles : list CodeFile) : list FileResult :=
  match processFiles cfgWeb netWeb None defaultOptions codeFiles ([], [], 0%nat) with
  | Ok (files, _, _) => files
  | Throw _ => []
  end.

(** A model that answers in prose. *)
Definition geminiProse : Gemini :=
  Some (fun _ _ => GeminiText "As of 2024, this looks like typical generated code.").

End Examples.

(** ** The rest of the search service *)

Module Snippets.
Import Str Js Num Similarity Extract Search Analysis.

(** A search result as [searchCodeSnippets] collects it and
    [analyzeCodeSimilarity] reads it. *)
Record Candidate : Type := {
  cand_source : string;
  cand_title : option string;
  cand_link : option string;
  cand_snippet : option string
}.

(** An entry of the list [analyzeCodeSimilarity] returns. *)
Record Scored : Type := {
  scored_source : string;
  scored_title : option string;
  scored_link : option string;
  scored_similarity : Q;
  scored_snippet : string
}.

(** The loop of [analyzeCodeSimilarity]: a result with a snippet that
    is not empty is compared with the source code and kept above 0.3. *)
Definition scoreCandidate (sourceCode : string) (result : Candidate) : list Scored :=
  match cand_snippet result with
  | Some text =>
      if negb (String.eqb text "")
      then
        let similarity := calculateSimilarity sourceCode text in
        if gtb similarity 0.3
        then [{| scored_source := cand_source result;
                 scored_title := cand_title result;
                 scored_link := cand_link result;
                 scored_similarity := similarity;
                 scored_snippet := text |}]
        else []
      else []
  | None => []
  end.

Definition analyzeCodeSimilarity (sourceCode : string)
    (searchResults : list Candidate) : list Scored :=
  sortDesc scored_similarity (flat_map (scoreCandidate sourceCode) searchResults).

Definition ofStack (r : StackResult) : Candidate :=
  {| cand_source := "stackoverflow";
     cand_title := so_title r;
     cand_link := so_link r;
     cand_snippet := Some (so_snippet r) |}.

Definition ofWeb (r : WebResult) : Candidate :=
  {| cand_source := "web";
     cand_title := web_title r;
     cand_link := web_link r;
     cand_snippet := web_snippet r |}.

(** [searchGitHubCode]: the body of its [try] is [return []]. *)
Definition searchGitHubCode (query : string) (language : option string)
    : Exc (list Candidate) :=
  tryCatch (Ok []) (fun _ => Ok []).

(** [searchCodeSnippets]: the three searches in one [try]; what was
    pushed before an exception is returned. *)
Definition searchCodeSnippets (cfg : Config) (net : Net) (codeSnippet : string)
    (language : option string) : list Candidate :=
  let results := [] in
  match searchGitHubCode codeSnippet language with
  | Throw _ => results
  | Ok githubResults =>
      let results := (results ++ githubResults)%list in
      match Search.searchStackOverflow cfg net codeSnippet language with
      | Throw _ => results
      | Ok stackOverflowResults =>
          let results := (results ++ map ofStack stackOverflowResults)%list in
          match Search.searchWeb cfg net codeSnippet language with
          | Throw _ => results
          | Ok webResults => (results ++ map ofWeb webResults)%list
          end
      end
  end.

(** An entry of the list [batchSearch] returns. *)
Record Batch : Type := {
  batch_filename : string;
  batch_snippet : string;
  batch_results : list Candidate
}.

(** [this.extractSearchSnippets(file.content)] in [batchSearch]:
    [code.split] on a content that is missing or is not a string. *)
Definition snippetsFor (c : Content) : Exc (list string) :=
  match c with
  | Text s => Ok (extractSearchSnippets s)
  | NotText _ => Throw "code.split is not a function"
  | Absent => Throw "Cannot read properties of undefined (reading 'split')"
  end.

(** [batchSearch]: no [try]; an exception of [extractSearchSnippets]
    leaves the function. *)
Fixpoint batchSearch (cfg : Config) (net : Net) (codeFiles : list CodeFile)
    : Exc (list Batch) :=
  match codeFiles with
  | [] => Ok []
  | file :: rest =>
      snippets <- snippetsFor (content file) ;;
      let entries :=
        map (fun snippet =>
               {| batch_filename := filename file;
                  batch_snippet := snippet;
                  batch_results := searchCodeSnippets cfg net snippet (language file) |})
            snippets in
      others <- batchSearch cfg net rest ;;
      Ok (entries ++ others)%list
  end.

End Snippets.

(** ** The GitHub service: code files and their languages *)

Module Github.
Import Str.

(** [s.lastIndexOf(c)]; [None] is -1. *)
Fixpoint lastIndexOf (c : ascii) (l : list ascii) : option nat :=
  match l with
  | [] => None
  | x :: t =>
      match lastIndexOf c t with
      | Some i => Some (S i)
      | None => if Ascii.eqb x c then Some 0%nat else None
      end
  end.

(** [filename.toLowerCase().substring(filename.lastIndexOf('.'))];
    [substring(-1)] is [substring(0)]. *)
Definition extensionOf (filename : string) : string :=
  let lower := map lowerChar (chars filename) in
  match lastIndexOf "."%char (chars filename) with
  | Some i => ofChars (skipn i lower)
  | None => ofChars lower
  end.

Definition codeExtensions : list string :=
  [".js"; ".jsx"; ".ts"; ".tsx"; ".py"; ".java"; ".cpp"; ".c"; ".cs";
   ".php"; ".rb"; ".go"; ".rs"; ".swift"; ".kt"; ".scala"; ".html";
   ".css"; ".scss"; ".sass"; ".sql"; ".sh"; ".bat"; ".ps1"; ".vue";
   ".jsx"; ".tsx"; ".json"; ".xml"; ".yaml"; ".yml"; ".md"; ".txt"].

Definition isCodeFile (filename : string) : bool :=
  existsb (String.eqb (extensionOf filename)) codeExtensions.

Definition languageMap : list (string * string) :=
  [(".js", "javascript"); (".jsx", "javascript"); (".ts", "typescript");
   (".tsx", "typescript"); (".py", "python"); (".java", "java");
   (".cpp", "cpp"); (".c", "c"); (".cs", "csharp"); (".php", "php");
   (".rb", "ruby"); (".go", "go"); (".rs", "rust"); (".swift", "swift");
   (".kt", "kotlin"); (".scala", "scala"); (".html", "html"); (".css", "css");
   (".scss", "scss"); (".sass", "sass"); (".sql", "sql"); (".sh", "bash");
   (".bat", "batch"); (".ps1", "powershell"); (".vue", "vue");
   (".json", "json"); (".xml", "xml"); (".yaml", "yaml"); (".yml", "yaml");
   (".md", "markdown"); (".txt", "text")].

(** What [table[key] || fallback] gives on an object literal: the
    value of the key, or a member that every object inherits (a
    function or an object, which is truthy), or the fallback.  The
    inherited members whose names are in lower case are [constructor]
    and [__proto__]. *)
Inductive Looked : Type :=
| Named (value : string)
| Inherited (member : string).

Fixpoint assoc (key : string) (table : list (string * string)) : option string :=
  match table with
  | [] => None
  | (k, v) :: t => if String.eqb key k then Some v else assoc key t
  end.

Definition lookupOr (table : list (string * string)) (key fallback : string) : Looked :=
  match assoc key table with
  | Some v => Named v
  | None =>
      if String.eqb key "constructor" || String.eqb key "__proto__"
      then Inherited key
      else Named fallback
  end.

Definition getLanguageFromExtension (filename : string) : Looked :=
  lookupOr languageMap (extensionOf filename) "unknown".

(** [s.replace(needle, '')] with a string as the pattern: the first
    occurrence of the needle is removed. *)
Fixpoint removeFirst (needle l : list ascii) : list ascii :=
  match Regex.dropPrefix needle l with
  | Some rest => rest
  | None =>
      match l with
      | [] => []
      | c :: t => c :: removeFirst needle t
      end
  end.

(** [s.split(sep)] with a separator of one character: always at least
    one piece. *)
Fixpoint splitOn (sep : ascii) (l : list ascii) : list (list ascii) :=
  match l with
  | [] => [[]]
  | c :: t =>
      if Ascii.eqb c sep then [] :: splitOn sep t
      else match splitOn sep t with
           | [] => [[c]]
           | h :: r => (c :: h) :: r
           end
  end.

(** The first lines of [extractFromGitHub]: the owner and the
    repository of an address.  [urlParts[1]] is [undefined] when the
    address has one part only. *)
Definition parseUrl (githubUrl : string) : Exc (string * string) :=
  let urlParts :=
    splitOn "/" (removeFirst (chars ".git")
                   (removeFirst (chars "https://github.com/") (chars githubUrl))) in
  match urlParts with
  | owner :: second :: _ =>
      Ok (ofChars owner, ofChars (hd [] (splitOn "#" second)))
  | _ => Throw "Cannot read properties of undefined (reading 'split')"
  end.

(** The repository as the contents API presents it: a file, a
    directory with the reply to the request for its path (a listing, or
    a failure), or an item of another type. *)
#[warnings="-register-all"]
Inductive Item : Type :=
| FileItem (name path : string)
| DirItem (path : string) (listing : Exc (list Item))
| OtherItem.

(** The remote service: the reply to the request for the root of a
    repository, and the text of the reply to the request for a file
    ([None] when the reply holds neither a string nor a content that is
    not empty). *)
Record Remote : Type := {
  rootContents : string -> string -> Exc (list Item);
  rawContent : string -> string -> string -> Exc (option string)
}.

(** [getRepositoryContents]: the files below an item, and below a
    listing; a request that fails gives no file. *)
Fixpoint filesUnder (item : Item) : list (string * string) :=
  match item with
  | FileItem name path => [(name, path)]
  | DirItem _ (Ok contents) => flat_map filesUnder contents
  | DirItem _ (Throw _) => []
  | OtherItem => []
  end.

Definition getRepositoryContents (listing : Exc (list Item)) : list (string * string) :=
  match listing with
  | Ok contents => flat_map filesUnder contents
  | Throw _ => []
  end.

(** [getFileContent]: [null] is [None]. *)
Definition getFileContent (remote : Remote) (owner repo path : string) : option string :=
  match rawContent remote owner repo path with
  | Ok data => data
  | Throw _ => None
  end.

Record Extracted : Type := {
  e_filename : string;
  e_path : string;
  e_content : string;
  e_size : nat;
  e_language : Looked
}.

(** The body of the loop of [extractFromGitHub] for one file. *)
Definition extractFile (remote : Remote) (owner repo : string)
    (file : string * string) : list Extracted :=
  match getFileContent remote owner repo (snd file) with
  | Some content =>
      if negb (String.eqb content "")
      then [{| e_filename := fst file;
               e_path := snd file;
               e_content := content;
               e_size := String.length content;
               e_language := getLanguageFromExtension (fst file) |}]
      else []
  | None => []
  end.

Definition extractFromGitHub (remote : Remote) (githubUrl : string)
    : Exc (list Extracted) :=
  match parseUrl githubUrl with
  | Throw message => Throw ("Failed to extract from GitHub: " ++ message)
  | Ok (owner, repo) =>
      let files := getRepositoryContents (rootContents remote owner repo) in
      let codeFiles := filter (fun file => isCodeFile (fst file)) files in
      Ok (flat_map (extractFile remote owner repo) codeFiles)
  end.

End Github.

(** ** The upload routes *)

Module Upload.
Import Str Regex Js Github.









End Upload.

(** ** The report: risk levels and colours *)

Module Report.
Import Num Analysis.

Definition calculateOverallRisk (summary : Summary.t) : RiskTier :=
  let plagiarismRisk := Summary.plagiarismScore summary in
  let aiRisk := Summary.aiGeneratedScore summary in
  let overallScore := plagiarismRisk * 0.7 + aiRisk * 0.3 in
  if geb overallScore 0.8 then critical
  else if geb overallScore 0.6 then high
  else if geb overallScore 0.4 then medium
  else if geb overallScore 0.2 then low
  else minimal.

(** [getRiskColor] on the five names [calculateOverallRisk] returns. *)
Definition getRiskColor (risk : RiskTier) : string :=
  match risk with
  | critical => "#e74c3c"
  | high => "#e67e22"
  | medium => "#f39c12"
  | low => "#f1c40f"
  | minimal => "#27ae60"
  end.

Definition getScoreColor (score : Q) : string :=
  if geb score 0.8 then "#e74c3c"
  else if geb score 0.6 then "#e67e22"
  else if geb score 0.4 then "#f39c12"
  else if geb score 0.2 then "#f1c40f"
  else "#27ae60".

(** The place of a tier on the scale from minimal to critical. *)
Definition rank (t : RiskTier) : nat :=
  match t with
  | minimal => 0
  | low => 1
  | medium => 2
  | high => 3
  | critical => 4
  end.

End Report.

(** ** The file processor *)

Module FileProcessor.
Import Str Regex Num.

Definition forbidden : string :=
  String "<" (String ">" (String ":" (String (ascii_of_nat 34)
    (String "/" (String (ascii_of_nat 92) (String "|" (String "?" (String "*" "")))))))).

(** The first replacement of [sanitizeFilename]: each of the
    characters of [forbidden] becomes an underscore. *)
Definition replaceForbidden (l : list ascii) : list ascii :=
  map (fun c => if oneOf forbidden c then "_"%char else c) l.

(** The second replacement: every maximal run of white space becomes
    one underscore. *)
Fixpoint underscoreRuns (inRun : bool) (l : list ascii) : list ascii :=
  match l with
  | [] => []
  | c :: t =>
      if isSpace c
      then (if inRun then underscoreRuns true t else "_"%char :: underscoreRuns true t)
      else c :: underscoreRuns false t
  end.

Definition sanitizeFilename (filename : string) : string :=
  ofChars (firstn 255 (underscoreRuns false (replaceForbidden (chars filename)))).

Record Metrics : Type := {
  totalLines : nat;
  codeLines : nat;
  commentLines : nat;
  blankLines : nat;
  functionCount : nat;
  classCount : nat;
  variableCount : nat;
  complexity : nat
}.

Definition bump (b : bool) (n : nat) : nat := if b then S n else n.

(** The body of [lines.forEach] in [calculateCodeMetrics]. *)
Definition countLine (metrics : Metrics) (line : string) : Metrics :=
  let trimmedLine := trim line in
  if String.eqb trimmedLine "" then
    {| totalLines := totalLines metrics;
       codeLines := codeLines metrics;
       commentLines := commentLines metrics;
       blankLines := S (blankLines metrics);
       functionCount := functionCount metrics;
       classCount := classCount metrics;
       variableCount := variableCount metrics;
       complexity := complexity metrics |}
  else if startsWith trimmedLine "//" || startsWith trimmedLine "#"
          || startsWith trimmedLine "/*" || startsWith trimmedLine "*" then
    {| totalLines := totalLines metrics;
       codeLines := codeLines metrics;
       commentLines := S (commentLines metrics);
       blankLines := blankLines metrics;
       functionCount := functionCount metrics;
       classCount := classCount metrics;
       variableCount := variableCount metrics;
       complexity := complexity metrics |}
  else
    {| totalLines := totalLines metrics;
       codeLines := S (codeLines metrics);
       commentLines := commentLines metrics;
       blankLines := blankLines metrics;
       functionCount :=
         bump (test (seq [Lit "function"; plus isSpace; plus isWord; Star isSpace; Lit "("]) line
               || test (seq [Lit "def"; plus isSpace; plus isWord; Star isSpace; Lit "("]) line)
              (functionCount metrics);
       classCount :=
         bump (test (seq [Lit "class"; plus isSpace; plus isWord]) line)
              (classCount metrics);
       variableCount :=
         bump (test (Alt (seq [Lit "const"; plus isSpace; plus isWord])
                    (Alt (seq [Lit "let"; plus isSpace; plus isWord])
                         (seq [Lit "var"; plus isSpace; plus isWord]))) line)
              (variableCount metrics);
       complexity :=
         bump (test (Alt (seq [Lit "if"; Star isSpace; Lit "("])
                    (Alt (seq [Lit "for"; Star isSpace; Lit "("])
                    (Alt (seq [Lit "while"; Star isSpace; Lit "("])
                    (Alt (seq [Lit "switch"; Star isSpace; Lit "("])
                         (seq [Lit "catch"; Star isSpace; Lit "("]))))) line)
              (complexity metrics) |}.

Definition calculateCodeMetrics (content : string) : Metrics :=
  let lines := splitLines content in
  fold_left countLine lines
    {| totalLines := List.length lines;
       codeLines := 0;
       commentLines := 0;
       blankLines := 0;
       functionCount := 0;
       classCount := 0;
       variableCount := 0;
       complexity := 0 |}.

End FileProcessor.

(** ** Request bodies as they are posted *)

Module Body.
Import Js Num AIDetection Search Analysis.









End Body.

(** ** The handler of [POST /analyze-file] *)

Module FileRoute.
Import Js AIDetection Search Analysis Body.






End FileRoute.

(** ** Notions used to state the further properties *)

Module Derived.
Import Js Num AIDetection Search Analysis.

(** The entries of [highRiskFiles] for a list of file results: the
    files whose score is above 0.7, in order. *)
Definition highRiskOf (files : list FileResult) : list (string * Q) :=
  map (fun f => (r_filename f, plagiarismScore f))
      (filter (fun f => gtb (plagiarismScore f) 0.7) files).

(** The number of matches of a list of file results. *)
Definition matchCount (files : list FileResult) : nat :=
  fold_right (fun f n => (List.length (matches f) + n)%nat) 0%nat files.

(** The sum of [totalMatches] over a list of aggregates. *)
Definition aggregateCount (l : list Aggregate.t) : nat :=
  fold_right (fun a n => (Aggregate.totalMatches a + n)%nat) 0%nat l.

(** The matches seen so far that have a given key, and what holds of
    the greatest similarity, the title and the link of an entry of the
    [Map] after the matches [seen]. *)
Definition citing (key : string) (seen : list (string * Match)) : list (string * Match) :=
  filter (fun fm => String.eqb (keyOf (snd fm)) key) seen.

Definition entryMax (seen : list (string * Match)) (e : string * Aggregate.t) : Prop :=
  Forall (fun fm => similarity (snd fm) <= Aggregate.maxSimilarity (snd e))
         (citing (fst e) seen)
  /\ (Aggregate.maxSimilarity (snd e) == 0
      \/ Exists (fun fm => Aggregate.maxSimilarity (snd e) == similarity (snd fm))
                (citing (fst e) seen))
  /\ match citing (fst e) seen with
     | [] => True
     | fm :: _ => Aggregate.title (snd e) = title (tagged (snd fm))
                  /\ Aggregate.link (snd e) = link (tagged (snd fm))
     end.

(** A request fails. *)
Definition fails {A} (m : Exc A) : Prop := exists e, m = Throw e.

(** The three searches cannot find anything: each one is switched off
    or its service refuses every request; the web search may also lack
    its key. *)
Definition gitHubSilent (net : Net) (options : Options) : Prop :=
  searchGitHub options = false
  \/ forall auth q, fails (githubSearchCode net auth q).

Definition stackOverflowSilent (net : Net) (options : Options) : Prop :=
  searchStackOverflow options = false
  \/ forall q tagged key, fails (stackSearch net q tagged key).

Definition webSilent (cfg : Config) (net : Net) (options : Options) : Prop :=
  searchWeb options = false
  \/ truthy (SERPAPI_KEY cfg) = false
  \/ forall key q, fails (serpapi net key q).

(** The generative model gives no opinion: it is not configured, or
    every call fails. *)
Definition modelSilent (gemini : Gemini) : Prop :=
  match gemini with
  | None => True
  | Some generateContent => forall language excerpt, exists e,
      generateContent language excerpt = GeminiFails e
  end.

(** A search result that [analyzeCodeSimilarity] keeps for a source
    code: it has a snippet that is not empty and scores above 0.3. *)
Definition qualifies (sourceCode : string) (r : Snippets.Candidate) : bool :=
  match Snippets.cand_snippet r with
  | Some text => negb (String.eqb text "")
                 && gtb (Similarity.calculateSimilarity sourceCode text) 0.3
  | None => false
  end.

(** The file has a text as its content, and the (filename, snippet)
    pairs that a batch search sends for it. *)
Definition hasText (file : CodeFile) : bool :=
  match content file with
  | Text _ => true
  | _ => false
  end.

Definition queriesOf (file : CodeFile) : list (string * string) :=
  match content file with
  | Text s => map (pair (filename file)) (Extract.extractSearchSnippets s)
  | _ => []
  end.

(** The questions that the Stack Exchange search gives for a query,
    none when the request fails or the reply has no items; a question
    that has an answer; and a result made of a question and of the
    first answer in the reply to the request for its answers. *)
Definition questionsOf (cfg : Config) (net : Net) (query : string)
    (language : option string) : list Question :=
  let searchQuery :=
    if truthy language then query ++ " [" ++ render language ++ "]" else query in
  let tagged := if truthy language then render language else "" in
  match stackSearch net searchQuery tagged (stackKey cfg) with
  | Ok (Some questions) => questions
  | _ => []
  end.

Definition answered (question : Question) : bool := (0 <? answer_count question)%nat.

Definition bestAnswerOf (cfg : Config) (net : Net) (question : Question)
    (r : StackResult) : Prop :=
  exists answer others,
    stackAnswers net (question_id question) (stackKey cfg) = Ok (Some (answer :: others))
    /\ so_title r = question_title question
    /\ so_link r = question_link question
    /\ so_snippet r = extractCodeFromAnswer (body answer)
    /\ so_score r = answer_score answer
    /\ so_answerId r = answer_id answer.

(** A text is a contiguous part of another, and a text is made of at
    most five significant lines of a code, joined by line feeds. *)
Definition partOf (snippet code : string) : Prop :=
  exists before after : list ascii,
    Str.chars code = (before ++ Str.chars snippet ++ after)%list.

Definition chunkOf (snippet code : string) : Prop :=
  exists lines : list string,
    snippet = Str.joinLines lines
    /\ (List.length lines <= 5)%nat
    /\ Forall (fun line => In line (Str.splitLines code)
                           /\ Extract.isSignificant line = true) lines.

(** The characters of a normalised text: a space, or a word character
    that is not an upper-case letter.  [spaced inRun l]: no white space
    of [l] follows white space, nor starts [l] when [inRun] is set.
    [trimmed l]: [l] does not start with white space. *)
Definition normalChar (c : ascii) : Prop :=
  c = " "%char
  \/ (Str.isSpace c = false /\ Str.isWord c = true /\ Str.isUpper c = false).

Fixpoint spaced (inRun : bool) (l : list ascii) : Prop :=
  match l with
  | [] => True
  | c :: t => if Str.isSpace c then inRun = false /\ spaced true t else spaced false t
  end.

Definition trimmed (l : list ascii) : bool :=
  match l with
  | [] => true
  | c :: _ => negb (Str.isSpace c)
  end.

(** The AI probability as it is specified: the weighted sum of the
    three scores, clamped to [0,1].  [AIDetection.weighted] is what the
    code computes; this is the value it is compared with. *)
Definition specifiedProbability (patternScore openaiScore statisticalScore : Q) : Q :=
  Qmax 0 (Qmin (weighted patternScore openaiScore statisticalScore) 1).



(** The options with one source switched off, and a source whose
    service refuses every request (the web search is also down when it
    has no key). *)
Definition without (kind : SourceKind) (options : Options) : Options :=
  {| searchGitHub := match kind with github => false | _ => searchGitHub options end;
     searchStackOverflow :=
       match kind with stackoverflow => false | _ => searchStackOverflow options end;
     searchWeb := match kind with web => false | _ => searchWeb options end;
     detectAI := detectAI options;
     similarityThreshold := similarityThreshold options |}.

Definition sourceDown (cfg : Config) (net : Net) (kind : SourceKind) : Prop :=
  match kind with
  | github => forall auth q, fails (githubSearchCode net auth q)
  | stackoverflow => forall q tagged key, fails (stackSearch net q tagged key)
  | web => truthy (SERPAPI_KEY cfg) = false \/ forall key q, fails (serpapi net key q)
  end.

(** An address after the two removals of [extractFromGitHub], and the
    test that a list of characters holds a given one. *)
Definition stripped (githubUrl : string) : list ascii :=
  Github.removeFirst (Str.chars ".git")
    (Github.removeFirst (Str.chars "https://github.com/") (Str.chars githubUrl)).

Definition hasChar (sep : ascii) (l : list ascii) : bool :=
  existsb (fun c => Ascii.eqb c sep) l.

(** The content of a file of a repository can be fetched and is not
    empty. *)
Definition fetched (remote : Github.Remote) (owner repo : string)
    (file : string * string) : bool :=
  match Github.getFileContent remote owner repo (snd file) with
  | Some content => negb (String.eqb content "")
  | None => false
  end.

(** A character that a sanitised file name may hold. *)
Definition clean (c : ascii) : bool :=
  negb (Regex.oneOf FileProcessor.forbidden c) && negb (Str.isSpace c).

End Derived.

(** ** More concrete requests *)

Module Cases.
Import Str Regex Js AIDetection Search Analysis.

(** Only the web search is switched on. *)
Definition onlyWeb : Options :=
  {| searchGitHub := false;
     searchStackOverflow := false;
     searchWeb := true;
     detectAI := true;
     similarityThreshold := 0.3 |}.

(** Stack Overflow finds two answered questions; the request for the
    answers of the first succeeds and that of the second fails. *)
Definition netAnswersDown : Net :=
  {| serpapi := fun _ _ => Throw "Request failed with status code 401";
     stackSearch := fun _ _ _ =>
       Ok (Some [{| question_id := 11%Z;
                    question_title := Some "How to add two numbers";
                    question_link := Some "https://stackoverflow.com/q/11";
                    answer_count := 1 |};
                 {| question_id := 13%Z;
                    question_title := Some "How to sum a list";
                    question_link := Some "https://stackoverflow.com/q/13";
                    answer_count := 2 |}]);
     stackAnswers := fun id _ =>
       if Z.eqb id 11
       then Ok (Some [{| body := "<p>Try</p><pre><code>a + b</code></pre>";
                         answer_score := 3%Z;
                         answer_id := 12%Z |}])
       else Throw "Request failed with status code 429";
     githubSearchCode := fun _ _ => Throw "Requires authentication" |}.

(** GitHub answers every code search with one item, also a request
    that carries no token; the other services refuse. *)
Definition netGitHub : Net :=
  {| serpapi := fun _ _ => Throw "Request failed with status code 401";
     stackSearch := fun _ _ _ => Throw "Request failed with status code 400";
     stackAnswers := fun _ _ => Throw "Request failed with status code 400";
     githubSearchCode := fun _ _ =>
       Ok [{| item_name := "sum.js";
              item_path := "src/sum.js";
              repository_full_name := "octocat/sums";
              html_url := "https://github.com/octocat/sums/blob/main/src/sum.js";
              item_language := None |}] |}.

(** A model that is configured and whose every call fails. *)
Definition geminiDown : Gemini :=
  Some (fun _ _ => GeminiFails "429 Too Many Requests").

(** A model that answers in JSON, with a percentage where the prompt
    asks for a probability:
    [{ "aiProbability": 75, "reasoning": "Consistent formatting." }]. *)
Definition geminiPercent : Gemini :=
  Some (fun _ _ => GeminiJson (Reads 75) (Some "Consistent formatting.")).

(** Four matches with the similarities 0.25, 0.75, 0.25 and 0.5, in
    the order in which they are found. *)
Definition found (similarity : Q) (link : string) : Match :=
  {| tagged := {| title := Some "A page"; link := Some link; source := web;
                  snippet := "const total = 0;" |};
     similarity := similarity;
     risk := getRiskLevel similarity |}.

Definition mixed : list Match :=
  [found 0.25 "https://example.org/a"; found 0.75 "https://example.org/b";
   found 0.25 "https://example.org/c"; found 0.5 "https://example.org/d"].

(** Two summaries, the second with the higher scores. *)
Definition calm : Summary.t :=
  {| Summary.plagiarismScore := 0.1;
     Summary.aiGeneratedScore := 0.3;
     Summary.totalMatches := 0;
     Summary.highRiskFiles := [] |}.

Definition alarming : Summary.t :=
  {| Summary.plagiarismScore := 1;
     Summary.aiGeneratedScore := 0.5;
     Summary.totalMatches := 3;
     Summary.highRiskFiles := [("a.js", 1)] |}.

End Cases.

(** * Properties *)

Import Str Js Num Regex Similarity Extract AIDetection Search Analysis.

(** ** Numbers *)

Lemma ltb_lt (a b : Q) : ltb a b = true <-> a < b.
Proof.
  unfold ltb. rewrite negb_true_iff.
  destruct (Qle_bool b a) eqn:E.
  - apply Qle_bool_iff in E. split; [discriminate|]. intros H.
    exfalso. exact (Qlt_not_le _ _ H E).
  - split; [|reflexivity]. intros _. apply Qnot_le_lt. intros H.
    apply Qle_bool_iff in H. congruence.
Qed.

Lemma ltb_ge (a b : Q) : ltb a b = false <-> b <= a.
Proof.
  unfold ltb. rewrite negb_false_iff. apply Qle_bool_iff.
Qed.

Lemma gtb_gt (a b : Q) : gtb a b = true <-> b < a.
Proof. unfold gtb. apply ltb_lt. Qed.

Lemma geb_ge (a b : Q) : geb a b = true <-> b <= a.
Proof. unfold geb. apply Qle_bool_iff. Qed.

Lemma geb_lt (a b : Q) : geb a b = false <-> a < b.
Proof.
  unfold geb. rewrite <- ltb_lt. unfold ltb.
  destruct (Qle_bool b a); simpl; split; congruence.
Qed.

Lemma orZero_eq (x : Q) : orZero x == x.
Proof.
  unfold orZero. destruct (Qeq_bool x 0) eqn:E.
  - apply Qeq_bool_iff in E. symmetry. exact E.
  - reflexivity.
Qed.

Lemma natQ_nonneg (n : nat) : 0 <= Num.natQ n.
Proof.
  unfold Num.natQ. change 0 with (inject_Z 0). rewrite <- Zle_Qle. lia.
Qed.

Lemma natQ_pos (n : nat) : (0 < n)%nat -> 0 < Num.natQ n.
Proof.
  intros H. unfold Num.natQ. change 0 with (inject_Z 0). rewrite <- Zlt_Qlt. lia.
Qed.

(** ** The stable descending sort *)

Section Sorting.
Variable A : Type.
Variable key : A -> Q.

Lemma insertDesc_perm (x : A) (l : list A) :
  Permutation (x :: l) (insertDesc key x l).
Proof.
  induction l as [|y t IH]; simpl.
  - apply Permutation_refl.
  - destruct (ltb (key x) (key y)).
    + eapply perm_trans; [apply perm_swap|]. apply perm_skip. exact IH.
    + apply Permutation_refl.
Qed.

Lemma sortDesc_perm (l : list A) : Permutation l (sortDesc key l).
Proof.
  induction l as [|x t IH]; simpl.
  - constructor.
  - eapply perm_trans; [apply perm_skip; exact IH|]. apply insertDesc_perm.
Qed.

Lemma insertDesc_sorted (x : A) (l : list A) :
  StronglySorted (descending key) l -> StronglySorted (descending key) (insertDesc key x l).
Proof.
  induction l as [|y t IH]; simpl; intros S.
  - constructor; constructor.
  - inversion S as [|? ? St Ft]; subst.
    destruct (ltb (key x) (key y)) eqn:E.
    + constructor; [apply IH; exact St|].
      apply ltb_lt in E.
      eapply Permutation_Forall; [apply insertDesc_perm|].
      constructor; [apply Qlt_le_weak; exact E | exact Ft].
    + apply ltb_ge in E.
      constructor; [exact S|].
      constructor; [exact E|].
      eapply Forall_impl; [|exact Ft].
      intros z Hz. unfold descending in *. eapply Qle_trans; eassumption.
Qed.

Lemma sortDesc_sorted (l : list A) : StronglySorted (descending key) (sortDesc key l).
Proof.
  induction l as [|x t IH]; simpl.
  - constructor.
  - apply insertDesc_sorted. exact IH.
Qed.

Lemma insertDesc_withKey (q : Q) (x : A) (l : list A) :
  withKey key q (insertDesc key x l) = withKey key q (x :: l).
Proof.
  induction l as [|y t IH]; simpl; [reflexivity|].
  destruct (ltb (key x) (key y)) eqn:E; [|reflexivity].
  apply ltb_lt in E. simpl in IH. simpl. rewrite IH.
  destruct (Qeq_bool (key x) q) eqn:Ex; [|reflexivity].
  destruct (Qeq_bool (key y) q) eqn:Ey; [|reflexivity].
  apply Qeq_bool_iff in Ex. apply Qeq_bool_iff in Ey.
  exfalso. rewrite Ex, Ey in E. exact (Qlt_irrefl _ E).
Qed.

Lemma sortDesc_stable (q : Q) (l : list A) :
  withKey key q (sortDesc key l) = withKey key q l.
Proof.
  induction l as [|x t IH]; simpl; [reflexivity|].
  rewrite insertDesc_withKey. simpl. rewrite IH. reflexivity.
Qed.

End Sorting.

(** ** [analyzeFile] case by case *)

Section AnalyzeFile.
Variables (cfg : Config) (net : Net) (gemini : Gemini).
Variables (file : CodeFile) (options : Options).

Lemma analyzeFile_absent :
  content file = Absent ->
  analyzeFile cfg net gemini file options
  = Throw "Cannot read properties of undefined (reading 'length')".
Proof. intros H. unfold analyzeFile. rewrite H. reflexivity. Qed.

Lemma analyzeFile_notText (n : option nat) (r : FileResult) :
  content file = NotText n ->
  analyzeFile cfg net gemini file options = Ok r ->
  matches r = [] /\ plagiarismScore r = 0 /\ aiGeneratedScore r = 0
  /\ error r = Some "code.split is not a function".
Proof.
  intros H. unfold analyzeFile. rewrite H. simpl.
  destruct (detectAI options); simpl; intros E; injection E as <-; simpl; auto.
Qed.

Lemma analyzeFile_text (s : string) (r : FileResult) :
  content file = Text s ->
  analyzeFile cfg net gemini file options = Ok r ->
  let found := collectMatches cfg net file options (extractSearchSnippets s) in
  matches r = sortDesc similarity found
  /\ plagiarismScore r = overallScore (sortDesc similarity found)
  /\ aiGeneratedScore r
     = (if detectAI options
        then aiProbability (detectAIGeneratedCode gemini (Text s) (language file))
        else 0)
  /\ error r = None.
Proof.
  intros H. unfold analyzeFile. rewrite H. simpl.
  destruct (detectAI options); simpl; intros E; injection E as <-; simpl; auto.
Qed.

Lemma analyzeFile_returns :
  content file <> Absent ->
  exists r, analyzeFile cfg net gemini file options = Ok r.
Proof.
  intros H. unfold analyzeFile.
  destruct (content file) as [|n|s]; [congruence| |]; simpl; eexists; reflexivity.
Qed.

End AnalyzeFile.

(** ** Ordering of the matches *)

(** C8. The matches of every file result are the matches found,
    sorted by [allMatches.sort((a, b) => b.similarity - a.similarity)]:
    they are in descending order of similarity, and matches of equal
    similarity stay in the order in which they were found (the order of
    the snippets, and for one snippet GitHub, Stack Overflow, web).
    The sort does this to every list of matches, whatever their
    similarities: the result is in descending order, it has the same
    matches, and those of equal similarity keep their order. *)
Theorem matches_sorted_stable
    (cfg : Config) (net : Net) (gemini : Gemini) (file : CodeFile)
    (options : Options) (r : FileResult) :
  analyzeFile cfg net gemini file options = Ok r ->
  StronglySorted (descending similarity) (matches r)
  /\ (forall snippets, snippetsOf (content file) = Ok snippets ->
        let found := collectMatches cfg net file options snippets in
        matches r = sortDesc similarity found
        /\ Permutation found (matches r)
        /\ forall q, withKey similarity q (matches r) = withKey similarity q found)
  /\ forall found : list Match,
       StronglySorted (descending similarity) (sortDesc similarity found)
       /\ Permutation found (sortDesc similarity found)
       /\ forall q, withKey similarity q (sortDesc similarity found)
                    = withKey similarity q found.
Proof.
  intros E. split; [|split].
  - destruct (content file) as [|n|s] eqn:C.
    + rewrite analyzeFile_absent in E by exact C. discriminate.
    + destruct (analyzeFile_notText _ _ _ _ _ C E) as (M & _). rewrite M. constructor.
    + destruct (analyzeFile_text _ _ _ _ _ C E) as (M & _). rewrite M.
      apply sortDesc_sorted.
  - intros snippets S. cbv zeta. destruct (content file) as [|n|s] eqn:C.
    + rewrite analyzeFile_absent in E by exact C. discriminate.
    + simpl in S. discriminate.
    + destruct (analyzeFile_text _ _ _ _ _ C E) as (M & _).
      simpl in S. injection S as <-. rewrite M. split; [reflexivity|]. split.
      * apply sortDesc_perm.
      * intros q. apply sortDesc_stable.
  - intros found. split; [apply sortDesc_sorted|]. split; [apply sortDesc_perm|].
    intros q. apply sortDesc_stable.
Qed.

(** The two matches of [Examples.fileC] have the same similarity and
    stay in the order in which they were found; the four matches of
    [Cases.mixed] are put in the order 0.75, 0.5, 0.25, 0.25, the two
    matches of similarity 0.25 in the order they had. *)
Lemma matches_sorted_stable_witness :
  exists r snippets,
    analyzeFile Examples.cfgWeb Examples.netWeb None Examples.fileC defaultOptions = Ok r
    /\ snippetsOf (content Examples.fileC) = Ok snippets
    /\ List.length (matches r) = 2%nat
    /\ matches r
       = sortDesc similarity
           (collectMatches Examples.cfgWeb Examples.netWeb Examples.fileC
                           defaultOptions snippets)
    /\ StronglySorted (descending similarity) (sortDesc similarity Cases.mixed)
    /\ withKey similarity 0.25 (sortDesc similarity Cases.mixed)
       = withKey similarity 0.25 Cases.mixed
    /\ map (fun m => link (tagged m)) (sortDesc similarity Cases.mixed)
       = [Some "https://example.org/b"; Some "https://example.org/d";
          Some "https://example.org/a"; Some "https://example.org/c"]
    /\ map similarity (sortDesc similarity Cases.mixed) = [0.75; 0.5; 0.25; 0.25]
    /\ map similarity Cases.mixed = [0.25; 0.75; 0.25; 0.5].
Proof.
  do 2 eexists.
  assert (E : analyzeFile Examples.cfgWeb Examples.netWeb None Examples.fileC defaultOptions
              = Ok _) by (vm_compute; reflexivity).
  assert (S : snippetsOf (content Examples.fileC) = Ok _) by (vm_compute; reflexivity).
  destruct (matches_sorted_stable _ _ _ _ _ E) as (_ & Found & General).
  destruct (Found _ S) as (Eq & _ & _).
  destruct (General Cases.mixed) as (Sorted & _ & Keys).
  split; [exact E|]. split; [exact S|]. split; [reflexivity|].
  split; [exact Eq|]. split; [exact Sorted|]. split; [exact (Keys 0.25)|].
  split; [reflexivity|]. split; reflexivity.
Defined.

(** ** The plagiarism score of a file *)

Lemma fold_Qmax_spec (t : list Q) (x : Q) :
  let mx := fold_left Qmax t x in
  (mx == x \/ Exists (fun s => s == mx) t)
  /\ x <= mx
  /\ Forall (fun s => s <= mx) t.
Proof.
  revert x. induction t as [|y t IH]; intros x; simpl.
  - repeat split; [left; reflexivity | apply Qle_refl | constructor].
  - destruct (IH (Qmax x y)) as (Hin & Hle & Hall). repeat split.
    + destruct Hin as [Heq | Hex].
      * destruct (Q.max_dec x y) as [Hx | Hy].
        -- left. rewrite Heq. exact Hx.
        -- right. constructor. rewrite Heq. symmetry. exact Hy.
      * right. apply Exists_cons_tl. exact Hex.
    + eapply Qle_trans; [apply Q.le_max_l | exact Hle].
    + constructor; [|exact Hall].
      eapply Qle_trans; [apply Q.le_max_r | exact Hle].
Qed.

Lemma Math_max_spec (x : Q) (t : list Q) :
  let mx := Math_max (x :: t) in
  Exists (fun s => s == mx) (x :: t) /\ Forall (fun s => s <= mx) (x :: t).
Proof.
  simpl. destruct (fold_Qmax_spec t x) as (Hin & Hle & Hall). split.
  - destruct Hin as [Heq | Hex].
    + constructor. symmetry. exact Heq.
    + apply Exists_cons_tl. exact Hex.
  - constructor; assumption.
Qed.

Lemma fold_sum_map {A} (f : A -> Q) (l : list A) (a : Q) :
  fold_left (fun sum m => sum + f m) l a = fold_left Qplus (map f l) a.
Proof.
  revert a. induction l as [|x t IH]; intros a; simpl; [reflexivity|apply IH].
Qed.

(** The score of a list of matches that is not empty, in terms of the
    greatest and the mean similarity. *)
Lemma overallScore_formula (m : Match) (ms : list Match) :
  let sims := map similarity (m :: ms) in
  exists maxSimilarity meanSimilarity,
    Exists (fun s => s == maxSimilarity) sims
    /\ Forall (fun s => s <= maxSimilarity) sims
    /\ meanSimilarity * Num.natQ (List.length sims) == Num.sum sims
    /\ overallScore (m :: ms) == maxSimilarity * 0.7 + meanSimilarity * 0.3.
Proof.
  intros sims.
  exists (Math_max sims), (Num.sum sims / Num.natQ (List.length sims)).
  destruct (Math_max_spec (similarity m) (map similarity ms)) as (Hex & Hall).
  repeat split; try assumption.
  - assert (P : 0 < Num.natQ (List.length sims)) by (apply natQ_pos; simpl; lia).
    field. intros Z. rewrite Z in P. exact (Qlt_irrefl _ P).
  - unfold overallScore, sims, Num.sum. rewrite fold_sum_map.
    rewrite length_map. reflexivity.
Qed.

Lemma overallScore_single (m : Match) : overallScore [m] == similarity m.
Proof.
  unfold overallScore, Math_max, Num.natQ. simpl.
  change (inject_Z 1) with 1. field.
Qed.

(** C2. In every file result the plagiarism score is the score that
    the code computes from the matches of the result: without a match
    it is exactly 0; with matches it is 0.7 times the greatest
    similarity plus 0.3 times the mean similarity of the matches; with
    exactly one match it is that match's similarity.  The computation
    gives this for every list of matches, whatever their similarities. *)
Theorem plagiarismScore_formula
    (cfg : Config) (net : Net) (gemini : Gemini) (file : CodeFile)
    (options : Options) (r : FileResult) :
  analyzeFile cfg net gemini file options = Ok r ->
  let sims := map similarity (matches r) in
  (matches r = [] -> plagiarismScore r = 0)
  /\ (matches r <> [] ->
      exists maxSimilarity meanSimilarity,
        Exists (fun s => s == maxSimilarity) sims
        /\ Forall (fun s => s <= maxSimilarity) sims
        /\ meanSimilarity * Num.natQ (List.length sims) == Num.sum sims
        /\ plagiarismScore r == maxSimilarity * 0.7 + meanSimilarity * 0.3)
  /\ (forall m, matches r = [m] -> plagiarismScore r == similarity m)
  /\ plagiarismScore r = overallScore (matches r)
  /\ overallScore [] = 0
  /\ forall (m : Match) (others : list Match),
       let all := map similarity (m :: others) in
       exists maxSimilarity meanSimilarity,
         Exists (fun s => s == maxSimilarity) all
         /\ Forall (fun s => s <= maxSimilarity) all
         /\ meanSimilarity * Num.natQ (List.length all) == Num.sum all
         /\ overallScore (m :: others) == maxSimilarity * 0.7 + meanSimilarity * 0.3.
Proof.
  intros E sims.
  assert (P : plagiarismScore r = overallScore (matches r)).
  { destruct (content file) as [|n|s] eqn:C.
    - rewrite analyzeFile_absent in E by exact C. discriminate.
    - destruct (analyzeFile_notText _ _ _ _ _ C E) as (M & S & _).
      rewrite M, S. reflexivity.
    - destruct (analyzeFile_text _ _ _ _ _ C E) as (M & S & _).
      rewrite M, S. reflexivity. }
  split; [|split; [|split; [|split; [|split]]]].
  - intros M. rewrite P, M. reflexivity.
  - intros M. subst sims. rewrite P.
    destruct (matches r) as [|m ms]; [congruence|].
    apply overallScore_formula.
  - intros m M. rewrite P, M. apply overallScore_single.
  - exact P.
  - reflexivity.
  - intros m others. apply overallScore_formula.
Qed.

(** The request of [Examples.fileA] with the web search answering: one
    match is kept, and the score of the file is its similarity.  The
    four matches of [Cases.mixed], of similarities 0.25, 0.75, 0.25 and
    0.5, have the greatest similarity 0.75 and the mean 0.4375, hence
    the score 0.75 * 0.7 + 0.4375 * 0.3. *)
Lemma plagiarismScore_formula_witness :
  exists r,
    analyzeFile Examples.cfgWeb Examples.netWeb None Examples.fileA defaultOptions = Ok r
    /\ (exists m, matches r = [m] /\ plagiarismScore r == similarity m)
    /\ plagiarismScore r = overallScore (matches r)
    /\ overallScore Cases.mixed == 0.75 * 0.7 + 0.4375 * 0.3.
Proof.
  eexists.
  assert (E : analyzeFile Examples.cfgWeb Examples.netWeb None Examples.fileA defaultOptions
              = Ok _) by (vm_compute; reflexivity).
  destruct (plagiarismScore_formula _ _ _ _ _ E) as (_ & _ & One & Score & _ & General).
  split; [exact E|]. split; [eexists; split; [reflexivity | apply One; reflexivity]|].
  split; [exact Score|].
  destruct (General (Cases.found 0.25 "https://example.org/a")
                    [Cases.found 0.75 "https://example.org/b";
                     Cases.found 0.25 "https://example.org/c";
                     Cases.found 0.5 "https://example.org/d"])
    as (mx & mean & Hex & Hall & Hmean & Hscore).
  unfold Cases.mixed. rewrite Hscore.
  cbn [map similarity Cases.found List.length] in Hex, Hall, Hmean.
  unfold Num.sum in Hmean. cbn [fold_left] in Hmean.
  change (Num.natQ 4) with 4 in Hmean.
  assert (M : mx == 0.75).
  { inversion Hall as [|? ? _ Hall1]; subst. inversion Hall1 as [|? ? H9 _]; subst.
    repeat match goal with
           | H : Exists _ _ |- _ => inversion H; subst; clear H
           end; lra. }
  rewrite M. lra.
Defined.

(** ** The similarity of identical texts *)

Lemma compareTwoStrings_same (x : string) : compareTwoStrings x x = 1.
Proof. unfold compareTwoStrings. rewrite String.eqb_refl. reflexivity. Qed.

Lemma similarity_same (x : string) : calculateSimilarity x x = 1.
Proof. apply compareTwoStrings_same. Qed.

(** ** What the scoring step compares *)

Lemma in_pushed_map {A B} (f : A -> B) (body : Exc (list A)) (y : B) :
  In y (pushed (l <- body ;; Ok (map f l))) -> exists x, y = f x.
Proof.
  destruct body as [l|e]; simpl; [|tauto].
  intros H. apply in_map_iff in H. destruct H as (x & <- & _). eauto.
Qed.

(** Every object built for a snippet carries that snippet as its
    [snippet] member. *)
Lemma searchSnippet_snippet (cfg : Config) (net : Net) (file : CodeFile)
    (options : Options) (unit : string) (t : Tagged) :
  In t (searchSnippet cfg net file options unit) -> snippet t = unit.
Proof.
  unfold searchSnippet. rewrite !in_app_iff.
  intros [H | [H | H]].
  - destruct (searchGitHub options); [|contradiction].
    apply in_pushed_map in H. destruct H as (x & ->). reflexivity.
  - destruct (searchStackOverflow options); [|contradiction].
    apply in_pushed_map in H. destruct H as (x & ->). reflexivity.
  - destruct (searchWeb options); [|contradiction].
    apply in_pushed_map in H. destruct H as (x & ->). reflexivity.
Qed.

Lemma scoreMatches_self (threshold : Q) (unit : string) (found : list Tagged) (m : Match) :
  (forall t, In t found -> snippet t = unit) ->
  In m (scoreMatches threshold unit found) ->
  similarity m = 1 /\ risk m = critical /\ snippet (tagged m) = unit.
Proof.
  intros Hs H. unfold scoreMatches in H. apply in_flat_map in H.
  destruct H as (t & Ht & H). rewrite (Hs t Ht) in H.
  rewrite similarity_same in H.
  destruct (negb (unit =? "")%string); [|contradiction].
  destruct (gtb 1 threshold); [|contradiction].
  destruct H as [<- | []]. simpl. auto.
Qed.

(** Whatever the sources answer, every match that [analyzeFile] keeps
    has similarity 1 and the tier critical: the unit was compared with
    itself. *)
Lemma matches_compare_unit_with_itself
    (cfg : Config) (net : Net) (gemini : Gemini) (file : CodeFile)
    (options : Options) (r : FileResult) :
  analyzeFile cfg net gemini file options = Ok r ->
  Forall (fun m => similarity m = 1 /\ risk m = critical) (matches r).
Proof.
  intros E. destruct (content file) as [|n|s] eqn:C.
  - rewrite analyzeFile_absent in E by exact C. discriminate.
  - destruct (analyzeFile_notText _ _ _ _ _ C E) as (M & _). rewrite M. constructor.
  - destruct (analyzeFile_text _ _ _ _ _ C E) as (M & _). rewrite M.
    eapply Permutation_Forall; [apply sortDesc_perm|].
    apply Forall_forall. intros m H. unfold collectMatches in H.
    apply in_flat_map in H. destruct H as (unit & _ & H).
    apply scoreMatches_self in H; [tauto|].
    intros t. apply searchSnippet_snippet.
Qed.

(** The tiers of [getRiskLevel]. *)
Lemma getRiskLevel_tiers (s : Q) :
  (0.9 <= s -> getRiskLevel s = critical)
  /\ (0.7 <= s < 0.9 -> getRiskLevel s = high)
  /\ (0.5 <= s < 0.7 -> getRiskLevel s = medium)
  /\ (0.3 <= s < 0.5 -> getRiskLevel s = low)
  /\ (s < 0.3 -> getRiskLevel s = minimal).
Proof.
  unfold getRiskLevel.
  destruct (geb s 0.9) eqn:E9; [apply geb_ge in E9 | apply geb_lt in E9];
  (destruct (geb s 0.7) eqn:E7; [apply geb_ge in E7 | apply geb_lt in E7]);
  (destruct (geb s 0.5) eqn:E5; [apply geb_ge in E5 | apply geb_lt in E5]);
  (destruct (geb s 0.3) eqn:E3; [apply geb_ge in E3 | apply geb_lt in E3]);
  repeat split; intros; try reflexivity; exfalso; lra.
Qed.

(** Every match that is kept has a similarity above the threshold and
    the tier of its similarity. *)
Lemma kept_matches_above_threshold
    (cfg : Config) (net : Net) (gemini : Gemini) (file : CodeFile)
    (options : Options) (r : FileResult) :
  analyzeFile cfg net gemini file options = Ok r ->
  Forall (fun m => similarityThreshold options < similarity m
                   /\ risk m = getRiskLevel (similarity m))
         (matches r).
Proof.
  intros E. destruct (content file) as [|n|s] eqn:C.
  - rewrite analyzeFile_absent in E by exact C. discriminate.
  - destruct (analyzeFile_notText _ _ _ _ _ C E) as (M & _). rewrite M. constructor.
  - destruct (analyzeFile_text _ _ _ _ _ C E) as (M & _). rewrite M.
    eapply Permutation_Forall; [apply sortDesc_perm|].
    apply Forall_forall. intros m H. unfold collectMatches in H.
    apply in_flat_map in H. destruct H as (unit & _ & H).
    unfold scoreMatches in H. apply in_flat_map in H. destruct H as (t & _ & H).
    destruct (negb (snippet t =? "")%string); [|contradiction].
    destruct (gtb (calculateSimilarity unit (snippet t)) (similarityThreshold options)) eqn:G;
      [|contradiction].
    destruct H as [<- | []]. simpl. split; [apply gtb_gt; exact G | reflexivity].
Qed.

(** C1. On the request of [Examples.fileA], whose single unit is
    [Examples.twoLines], the web search returns one page whose text is
    unrelated.  The claim has the page's text compared with the unit,
    which discards the page; the code keeps it as a match of similarity
    1 and tier critical. *)
Theorem unrelated_page_kept_as_critical :
  specifiedVerdict 0.3 Examples.twoLines (item_snippet Examples.unrelated) = None
  /\ exists r,
       analyzeFile Examples.cfgWeb Examples.netWeb None Examples.fileA defaultOptions = Ok r
       /\ map (fun m => (link (tagged m), similarity m, risk m)) (matches r)
          = [(item_link Examples.unrelated, 1, critical)].
Proof.
  split; [vm_compute; reflexivity|].
  eexists. split; vm_compute; reflexivity.
Qed.

(** ** A file without content *)

(** C6. A submission of two files, the first without [content]:
    [analyzeFile] throws on the first file instead of returning a result
    with [error], and the handler answers 500 without analysing the
    second file, which is analysed without an error when it is submitted
    alone. *)
Theorem missing_content_aborts_submission :
  analyzeFile Examples.cfgWeb Examples.netWeb None Examples.fileNoContent defaultOptions
  = Throw "Cannot read properties of undefined (reading 'length')"
  /\ analyze Examples.cfgWeb Examples.netWeb None
             [Examples.fileNoContent; Examples.fileA] defaultOptions
     = ServerError "Analysis failed: Cannot read properties of undefined (reading 'length')"
  /\ exists d,
       analyze Examples.cfgWeb Examples.netWeb None [Examples.fileA] defaultOptions
       = Success d.
Proof.
  split; [reflexivity|]. split; [reflexivity|].
  eexists. vm_compute. reflexivity.
Qed.

(** An exception inside the [try] is caught: the result has [error] and
    both scores are 0. *)
Lemma caught_error_zero_scores
    (cfg : Config) (net : Net) (gemini : Gemini) (file : CodeFile)
    (options : Options) (r : FileResult) :
  analyzeFile cfg net gemini file options = Ok r ->
  error r <> None ->
  plagiarismScore r = 0 /\ aiGeneratedScore r = 0 /\ matches r = [].
Proof.
  intros E H. destruct (content file) as [|n|s] eqn:C.
  - rewrite analyzeFile_absent in E by exact C. discriminate.
  - destruct (analyzeFile_notText _ _ _ _ _ C E) as (M & P & G & _). auto.
  - destruct (analyzeFile_text _ _ _ _ _ C E) as (_ & _ & _ & N). congruence.
Qed.

(** ** The AI probability *)

Lemma addPattern_nonneg (fires : bool) (type : string) (score : Q)
    (acc : list Pattern * Q) :
  0 <= snd acc -> (fires = true -> 0 <= score) ->
  0 <= snd (addPattern fires type score acc).
Proof.
  intros A S. unfold addPattern. destruct fires; simpl; [|exact A].
  specialize (S eq_refl). lra.
Qed.

Lemma Qmin_unit (x : Q) : 0 <= x -> 0 <= Qmin x 1 <= 1.
Proof.
  intros H. split.
  - apply Q.min_glb; [exact H|lra].
  - apply Q.le_min_r.
Qed.

Lemma pattern_score_range (code language : string) :
  0 <= pa_aiScore (analyzeAIPatterns code language) <= 1.
Proof.
  unfold analyzeAIPatterns. cbn [pa_aiScore]. apply Qmin_unit.
  generalize (calculateCommentRatio code language) as commentRatio.
  generalize (analyzeFormatting code) as formattingScore.
  generalize (analyzeVariableNames code) as genericNamesScore.
  generalize (analyzeOverEngineering code) as overEngineeringScore.
  generalize (analyzePersonalStyle code) as personalStyleScore.
  intros.
  repeat (apply addPattern_nonneg;
          [|let H := fresh in
            intros H; first [apply gtb_gt in H | apply ltb_lt in H]; lra]).
  simpl. lra.
Qed.

Lemma add_if_nonneg (b : bool) (x : Q) :
  0 <= x -> 0 <= (if b then x + 0.2 else x).
Proof. intros H. destruct b; lra. Qed.

Lemma statistical_score_range (code : string) :
  0 <= st_aiScore (statisticalAnalysis code) <= 1.
Proof.
  unfold statisticalAnalysis. cbn [st_aiScore]. apply Qmin_unit.
  repeat apply add_if_nonneg. lra.
Qed.

Lemma weighted_range (p o s : Q) :
  0 <= p <= 1 -> 0 <= o <= 1 -> 0 <= s <= 1 -> 0 <= weighted p o s <= 1.
Proof. unfold weighted. intros. lra. Qed.

(** For every text and language the AI probability is 0.4 times the
    pattern score plus 0.4 times the score of the model's opinion plus
    0.2 times the statistical score.  The pattern score and the
    statistical score are within [0,1]; when the score of the model's
    opinion is within [0,1] too, so is the AI probability. *)
Lemma aiProbability_weighted
    (gemini : Gemini) (code : string) (language : option string) :
  let r := detectAIGeneratedCode gemini (Text code) language in
  exists a,
    analysis r = Some a
    /\ aiProbability r
       == pa_aiScore (pattern a) * 0.4 + oa_aiProbability (openai a) * 0.4
          + st_aiScore (statistical a) * 0.2
    /\ 0 <= pa_aiScore (pattern a) <= 1
    /\ 0 <= st_aiScore (statistical a) <= 1
    /\ (0 <= oa_aiProbability (openai a) <= 1 -> 0 <= aiProbability r <= 1).
Proof.
  intros r. unfold r, detectAIGeneratedCode. cbn [analysis aiProbability].
  eexists. split; [reflexivity|]. cbn [pattern openai statistical].
  set (lang := match language with Some l => l | None => "javascript" end).
  pose proof (pattern_score_range code lang) as P.
  pose proof (statistical_score_range code) as S.
  assert (W : weighted (orZero (pa_aiScore (analyzeAIPatterns code lang)))
                       (orZero (oa_aiProbability (openaiAnalysis gemini code lang)))
                       (orZero (st_aiScore (statisticalAnalysis code)))
              == pa_aiScore (analyzeAIPatterns code lang) * 0.4
                 + oa_aiProbability (openaiAnalysis gemini code lang) * 0.4
                 + st_aiScore (statisticalAnalysis code) * 0.2).
  { unfold weighted. rewrite !orZero_eq. reflexivity. }
  split; [exact W|]. split; [exact P|]. split; [exact S|].
  intros O. rewrite W. lra.
Qed.

(** C3. The weighted sum is returned as it is: nothing clamps it.
    With a model that answers the percentage 75 in JSON, the opinion of
    the model alone adds 75 * 0.4 = 30 to the AI probability of
    [Examples.twoLines] (30.12 with the two other scores, 0.2 each),
    where the weighted sum clamped to [0,1] is 1. *)
Theorem weighted_sum_not_clamped :
  let r := detectAIGeneratedCode Cases.geminiPercent (Text Examples.twoLines)
                                 (Some "javascript") in
  exists a,
    analysis r = Some a
    /\ oa_aiProbability (openai a) == 75
    /\ 0 <= pa_aiScore (pattern a) <= 1
    /\ 0 <= st_aiScore (statistical a) <= 1
    /\ aiProbability r
       == pa_aiScore (pattern a) * 0.4 + 75 * 0.4 + st_aiScore (statistical a) * 0.2
    /\ 30 <= aiProbability r
    /\ Derived.specifiedProbability (pa_aiScore (pattern a)) (oa_aiProbability (openai a))
                                    (st_aiScore (statistical a)) == 1
    /\ ~ aiProbability r <= 1.
Proof.
  cbv zeta. eexists. split; [vm_compute; reflexivity|].
  split; [vm_compute; reflexivity|].
  split; [vm_compute; split; discriminate|].
  split; [vm_compute; split; discriminate|].
  split; [vm_compute; reflexivity|].
  split; [vm_compute; discriminate|].
  split; [vm_compute; reflexivity|].
  intros H. vm_compute in H. apply H. reflexivity.
Qed.

(** ** The range of the scores *)

(** C4. With a model that answers in prose, the AI score of the file
    and the AI score of the submission summary are above 1. *)
Theorem prose_reply_breaks_score_range :
  exists d,
    analyze Examples.cfgWeb Examples.netWeb Examples.geminiProse
            [Examples.fileA] defaultOptions = Success d
    /\ 1 < Summary.aiGeneratedScore (Submission.summary d)
    /\ Forall (fun f => 1 < aiGeneratedScore f) (Submission.files d).
Proof.
  eexists. split; [vm_compute; reflexivity|]. split.
  - vm_compute. reflexivity.
  - repeat constructor.
Qed.

(** ** The search operations *)

Lemma tryCatch_empty_returns {A} (body : Exc (list A)) :
  returns (tryCatch body (fun _ => Ok [])).
Proof. unfold returns. destruct body as [l|e]; simpl; eauto. Qed.

Lemma bestAnswers_key (cfg : Config) (net : Net) (key : option string)
    (questions : list Question) (results : list StackResult) :
  stackKey (withStackKey cfg key) = stackKey cfg ->
  bestAnswers (withStackKey cfg key) net questions results
  = bestAnswers cfg net questions results.
Proof.
  intros K. revert results.
  induction questions as [|q t IH]; intros results; simpl; [reflexivity|].
  rewrite K. destruct (0 <? answer_count q)%nat; [|apply IH].
  destruct (stackAnswers net (question_id q) (stackKey cfg)) as [items|e]; simpl;
    [|reflexivity].
  destruct items as [[|answer rest]|]; apply IH.
Qed.

(** When the answers cannot be fetched, the first question that has an
    answer makes the loop throw. *)
Lemma bestAnswers_fails (cfg : Config) (net : Net)
    (questions : list Question) (results : list StackResult) :
  (forall id key, exists e, stackAnswers net id key = Throw e) ->
  Exists (fun q => (0 < answer_count q)%nat) questions ->
  exists e, bestAnswers cfg net questions results = Throw e.
Proof.
  intros F H. revert results.
  induction H as [q t Hq | q t _ IH]; intros results; simpl.
  - apply Nat.ltb_lt in Hq. rewrite Hq.
    destruct (F (question_id q) (stackKey cfg)) as (e & ->). simpl. eauto.
  - destruct (0 <? answer_count q)%nat; [|apply IH].
    destruct (F (question_id q) (stackKey cfg)) as (e & ->). simpl. eauto.
Qed.

(** A failure while the answers are fetched empties the whole result
    of [searchStackOverflow]. *)
Lemma searchStackOverflow_answers_fail (cfg : Config) (net : Net)
    (query : string) (language : option string) :
  (forall id key, exists e, stackAnswers net id key = Throw e) ->
  (forall q tagged key, exists questions,
      stackSearch net q tagged key = Ok (Some questions)
      /\ Exists (fun q => (0 < answer_count q)%nat) questions) ->
  Search.searchStackOverflow cfg net query language = Ok [].
Proof.
  intros F S. unfold Search.searchStackOverflow.
  match goal with
  | |- context [stackSearch net ?q ?t ?k] =>
      destruct (S q t k) as (questions & -> & E)
  end.
  simpl. destruct (bestAnswers_fails cfg net [] F E) as (e & ->). reflexivity.
Qed.

Lemma search_code_fails (cfg : Config) (net : Net) (query : string)
    (language : option string) :
  (forall auth q, exists e, githubSearchCode net auth q = Throw e) ->
  searchCode cfg net query language = Ok [].
Proof.
  intros F. unfold searchCode.
  match goal with
  | |- context [githubSearchCode net ?a ?q] => destruct (F a q) as (e & ->)
  end. reflexivity.
Qed.

(** C7 as the code has it. None of the three search operations throws:
    each returns a list, and the empty list when its request fails.
    The web search returns the empty list when its key is not
    configured.  The Stack Overflow search has no such gate: without a
    key it behaves as with the key [anonymous].  The GitHub search has
    none either: it sends its request with the token of the
    configuration, present or not, and returns one result for each item
    that the service answers. *)
Theorem search_operations_never_throw
    (cfg : Config) (net : Net) (query : string) (language : option string) :
  returns (Search.searchWeb cfg net query language)
  /\ returns (Search.searchStackOverflow cfg net query language)
  /\ returns (searchCode cfg net query language)
  /\ ((forall key q, exists e, serpapi net key q = Throw e) ->
      Search.searchWeb cfg net query language = Ok [])
  /\ ((forall q tagged key, exists e, stackSearch net q tagged key = Throw e) ->
      Search.searchStackOverflow cfg net query language = Ok [])
  /\ ((forall auth q, exists e, githubSearchCode net auth q = Throw e) ->
      searchCode cfg net query language = Ok [])
  /\ (truthy (SERPAPI_KEY cfg) = false ->
      Search.searchWeb cfg net query language = Ok [])
  /\ (truthy (STACKOVERFLOW_API_KEY cfg) = false ->
      Search.searchStackOverflow cfg net query language
      = Search.searchStackOverflow (withStackKey cfg (Some "anonymous")) net query language)
  /\ searchCode cfg net query language
     = match githubSearchCode net (GITHUB_TOKEN cfg)
               (if truthy language then query ++ " language:" ++ render language
                else query) with
       | Ok items =>
           Ok (map (fun item => {| code_name := item_name item;
                                   code_path := item_path item;
                                   code_repository := repository_full_name item;
                                   code_url := html_url item;
                                   code_language := item_language item |}) items)
       | Throw _ => Ok []
       end
  /\ (GITHUB_TOKEN cfg = None ->
      forall items,
        githubSearchCode net None
          (if truthy language then query ++ " language:" ++ render language else query)
        = Ok items ->
        exists results,
          searchCode cfg net query language = Ok results
          /\ map code_url results = map html_url items).
Proof.
  assert (G : searchCode cfg net query language
              = match githubSearchCode net (GITHUB_TOKEN cfg)
                        (if truthy language then query ++ " language:" ++ render language
                         else query) with
                | Ok items =>
                    Ok (map (fun item => {| code_name := item_name item;
                                            code_path := item_path item;
                                            code_repository := repository_full_name item;
                                            code_url := html_url item;
                                            code_language := item_language item |}) items)
                | Throw _ => Ok []
                end).
  { unfold searchCode.
    destruct (githubSearchCode net (GITHUB_TOKEN cfg)
                (if truthy language then query ++ " language:" ++ render language
                 else query)); reflexivity. }
  split; [apply tryCatch_empty_returns|].
  split; [apply tryCatch_empty_returns|].
  split; [apply tryCatch_empty_returns|].
  split.
  { intros F. unfold Search.searchWeb.
    destruct (negb (truthy (SERPAPI_KEY cfg))); [reflexivity|].
    match goal with
    | |- context [serpapi net ?k ?q] => destruct (F k q) as (e & ->)
    end. reflexivity. }
  split.
  { intros F. unfold Search.searchStackOverflow.
    match goal with
    | |- context [stackSearch net ?q ?t ?k] => destruct (F q t k) as (e & ->)
    end. reflexivity. }
  split; [apply search_code_fails|].
  split.
  { intros K. unfold Search.searchWeb. rewrite K. reflexivity. }
  split.
  { intros K. unfold Search.searchStackOverflow.
    assert (E : stackKey (withStackKey cfg (Some "anonymous")) = stackKey cfg).
    { unfold stackKey. rewrite K. reflexivity. }
    rewrite E.
    match goal with
    | |- context [stackSearch net ?q ?t ?k] => destruct (stackSearch net q t k) as [items|e]
    end; [|reflexivity].
    simpl. destruct items as [questions|]; [|reflexivity].
    rewrite (bestAnswers_key cfg net (Some "anonymous") questions [] E). reflexivity. }
  split; [exact G|].
  intros T items A. rewrite G, T, A. eexists. split; [reflexivity|].
  rewrite map_map. reflexivity.
Qed.

(** With no key and every service down, the three searches return the
    empty list; with no token and GitHub answering, the GitHub search
    returns the item that the service answers. *)
Lemma search_operations_never_throw_witness :
  (truthy (SERPAPI_KEY Examples.cfgNone) = false
   /\ Search.searchWeb Examples.cfgNone Examples.netDown Examples.twoLines (Some "javascript") = Ok [])
  /\ Search.searchWeb Examples.cfgWeb Examples.netDown Examples.twoLines (Some "javascript") = Ok []
  /\ Search.searchStackOverflow Examples.cfgNone Examples.netDown Examples.twoLines (Some "javascript") = Ok []
  /\ searchCode Examples.cfgNone Examples.netDown Examples.twoLines (Some "javascript") = Ok []
  /\ Search.searchStackOverflow Examples.cfgNone Examples.netDown Examples.twoLines (Some "javascript")
     = Search.searchStackOverflow (withStackKey Examples.cfgNone (Some "anonymous"))
         Examples.netDown Examples.twoLines (Some "javascript")
  /\ (GITHUB_TOKEN Examples.cfgNone = None
      /\ exists results,
           searchCode Examples.cfgNone Cases.netGitHub Examples.twoLines (Some "javascript")
           = Ok results
           /\ map code_url results
              = ["https://github.com/octocat/sums/blob/main/src/sum.js"]).
Proof.
  destruct (search_operations_never_throw Examples.cfgNone Examples.netDown
              Examples.twoLines (Some "javascript"))
    as (_ & _ & _ & _ & S & G & K & A & _).
  destruct (search_operations_never_throw Examples.cfgWeb Examples.netDown
              Examples.twoLines (Some "javascript"))
    as (_ & _ & _ & W & _).
  destruct (search_operations_never_throw Examples.cfgNone Cases.netGitHub
              Examples.twoLines (Some "javascript"))
    as (_ & _ & _ & _ & _ & _ & _ & _ & _ & T).
  assert (D : forall A (x : Exc A), x = Throw "connect ETIMEDOUT" -> exists e, x = Throw e)
    by (intros A0 x ->; eauto).
  split; [split; [reflexivity | apply K; reflexivity]|].
  split; [apply W; intros; apply D; reflexivity|].
  split; [apply S; intros; apply D; reflexivity|].
  split; [apply G; intros; apply D; reflexivity|].
  split; [apply A; reflexivity|].
  split; [reflexivity|].
  exact (T eq_refl _ eq_refl).
Defined.

(** C7 as stated fails: no Stack Overflow key and no GitHub token are
    configured, the services answer, and each of the two searches
    returns a candidate. *)
Lemma unconfigured_searches_return_results :
  STACKOVERFLOW_API_KEY Examples.cfgNone = None
  /\ Search.searchStackOverflow Examples.cfgNone Examples.netStack
       Examples.twoLines (Some "javascript") <> Ok []
  /\ GITHUB_TOKEN Examples.cfgNone = None
  /\ searchCode Examples.cfgNone Cases.netGitHub
       Examples.twoLines (Some "javascript") <> Ok [].
Proof.
  split; [reflexivity|]. split; [vm_compute; discriminate|].
  split; [reflexivity|]. vm_compute. discriminate.
Qed.

(** ** Source aggregation *)

Lemma key_eqb (k1 k2 : SourceKind) (l1 l2 : string) :
  String.eqb (sourceName k1 ++ "-" ++ l1) (sourceName k2 ++ "-" ++ l2)
  = SourceKind_eqb k1 k2 && String.eqb l1 l2.
Proof. destruct k1, k2; reflexivity. Qed.

Lemma keyOf_cites (a : Aggregate.t) (m : Match) :
  String.eqb (keyOf m) (aggKey a) = cites a m.
Proof. apply key_eqb. Qed.

Lemma SourceKind_eqb_eq (a b : SourceKind) : SourceKind_eqb a b = true <-> a = b.
Proof. destruct a, b; simpl; split; congruence. Qed.

Lemma buildSourceMap_walk (files : list FileResult) :
  buildSourceMap files
  = fold_left (fun sourceMap fm => visit (fst fm) sourceMap (snd fm)) (walk files) [].
Proof.
  unfold buildSourceMap, walk. generalize (@nil (string * Aggregate.t)) as sm.
  induction files as [|f t IH]; intros sm; simpl; [reflexivity|].
  rewrite fold_left_app, IH. f_equal.
  generalize sm. induction (matches f) as [|m ms IHm]; intros sm0; simpl;
    [reflexivity | apply IHm].
Qed.

Lemma map_fst_update (key : string) (f : Aggregate.t -> Aggregate.t) (sm : SourceMap) :
  map fst (update key f sm) = map fst sm.
Proof.
  unfold update. rewrite map_map. apply map_ext.
  intros [k a]. simpl. destruct (k =? key)%string; reflexivity.
Qed.

Lemma has_In (sm : SourceMap) (key : string) :
  has sm key = true <-> In key (map fst sm).
Proof.
  unfold has. rewrite existsb_exists, in_map_iff. split.
  - intros (e & He & E). apply String.eqb_eq in E. eauto.
  - intros (e & E & He). exists e. split; [exact He|]. apply String.eqb_eq. exact E.
Qed.

Lemma Forall_update (P Q : string * Aggregate.t -> Prop) (key : string)
    (f : Aggregate.t -> Aggregate.t) (sm : SourceMap) :
  (forall e, P e -> fst e <> key -> Q e) ->
  (forall e, P e -> fst e = key -> Q (fst e, f (snd e))) ->
  Forall P sm -> Forall Q (update key f sm).
Proof.
  intros Hne Heq H. unfold update. apply Forall_map.
  eapply Forall_impl; [|exact H].
  intros e He. destruct (fst e =? key)%string eqn:E.
  - apply String.eqb_eq in E. auto.
  - apply String.eqb_neq in E. auto.
Qed.

Lemma filter_none {A} (p : A -> bool) (l : list A) :
  (forall x, In x l -> p x = false) -> filter p l = [].
Proof.
  induction l as [|x t IH]; intros H; simpl; [reflexivity|].
  rewrite (H x (or_introl eq_refl)). apply IH. intros y Hy. apply H. right. exact Hy.
Qed.

(** An entry survives a visit: it is unchanged when the match has
    another key, and gets the file name when the match has its key. *)
Lemma entryOk_visit (seen : list (string * Match)) (filename : string) (m : Match)
    (e : string * Aggregate.t) :
  entryOk seen e ->
  (fst e <> keyOf m -> entryOk (seen ++ [(filename, m)]) e)
  /\ (fst e = keyOf m ->
      entryOk (seen ++ [(filename, m)]) (fst e, record filename m (snd e))).
Proof.
  intros (K & F & T). split; intros E; unfold entryOk.
  - rewrite filter_app. simpl.
    replace (keyOf m =? fst e)%string with false
      by (symmetry; apply String.eqb_neq; congruence).
    rewrite app_nil_r. auto.
  - simpl. rewrite filter_app. simpl.
    replace (keyOf m =? fst e)%string with true
      by (symmetry; apply String.eqb_eq; congruence).
    rewrite map_app, <- F, length_app. simpl. repeat split.
    + exact K.
    + rewrite T. lia.
Qed.

Lemma mapOk_visit (seen : list (string * Match)) (sm : SourceMap)
    (filename : string) (m : Match) :
  mapOk seen sm -> mapOk (seen ++ [(filename, m)]) (visit filename sm m).
Proof.
  intros (N & F & C & B). unfold visit.
  set (fresh := {| Aggregate.source := source (tagged m);
                   Aggregate.title := title (tagged m);
                   Aggregate.link := link (tagged m);
                   Aggregate.files := [];
                   Aggregate.maxSimilarity := 0;
                   Aggregate.totalMatches := 0 |}).
  set (sm1 := if has sm (keyOf m) then sm else (sm ++ [(keyOf m, fresh)])%list).
  assert (N1 : NoDup (map fst sm1)).
  { unfold sm1. destruct (has sm (keyOf m)) eqn:H; [exact N|].
    rewrite map_app. simpl. apply NoDup_app; [exact N | repeat constructor; simpl; tauto |].
    intros k Hk [<- | []].
    apply has_In in Hk. congruence. }
  assert (F1 : Forall (entryOk seen) sm1).
  { unfold sm1. destruct (has sm (keyOf m)) eqn:H; [exact F|].
    apply Forall_app. split; [exact F|]. constructor; [|constructor].
    unfold entryOk. simpl. repeat split.
    rewrite filter_none; [reflexivity|].
    intros fm Hfm. apply String.eqb_neq. intros E.
    apply C in Hfm. rewrite E in Hfm. apply has_In in Hfm. congruence. }
  assert (I1 : forall k, In k (map fst sm1) <-> In k (map fst sm) \/ k = keyOf m).
  { intros k. unfold sm1. destruct (has sm (keyOf m)) eqn:H.
    - split; [tauto|]. intros [Hk | ->]; [exact Hk|]. apply has_In. exact H.
    - rewrite map_app, in_app_iff. simpl. intuition congruence. }
  unfold mapOk. rewrite map_fst_update. repeat split.
  - exact N1.
  - eapply Forall_update; [| |exact F1].
    + intros e He. apply (entryOk_visit filename m He).
    + intros e He. apply (entryOk_visit filename m He).
  - intros fm Hfm. apply I1. apply in_app_iff in Hfm.
    destruct Hfm as [Hfm | [<- | []]]; [left; apply C; exact Hfm | right; reflexivity].
  - intros k Hk. apply I1 in Hk. destruct Hk as [Hk | ->].
    + destruct (B k Hk) as (fm & Hfm & E). exists fm. split; [|exact E].
      apply in_app_iff. left. exact Hfm.
    + exists (filename, m). split; [|reflexivity].
      apply in_app_iff. right. left. reflexivity.
Qed.

Lemma mapOk_fold (todo seen : list (string * Match)) (sm : SourceMap) :
  mapOk seen sm ->
  mapOk (seen ++ todo)
        (fold_left (fun sourceMap fm => visit (fst fm) sourceMap (snd fm)) todo sm).
Proof.
  revert seen sm. induction todo as [|[fn m] t IH]; intros seen sm H; simpl.
  - rewrite app_nil_r. exact H.
  - replace (seen ++ (fn, m) :: t)%list with ((seen ++ [(fn, m)]) ++ t)%list
      by (rewrite <- app_assoc; reflexivity).
    apply IH. apply mapOk_visit. exact H.
Qed.

Lemma buildSourceMap_ok (files : list FileResult) :
  mapOk (walk files) (buildSourceMap files).
Proof.
  rewrite buildSourceMap_walk. apply (@mapOk_fold (walk files) [] []).
  repeat split; simpl; try constructor; intros; contradiction.
Qed.

Lemma NoDup_keys_filter {K V} (keep : V -> bool) (key : V -> K) (entries : list V) :
  NoDup (map key entries) -> NoDup (map key (filter keep entries)).
Proof.
  intros N. induction entries as [|x t IH]; simpl; [constructor|].
  simpl in N. inversion N as [|? ? Hx Ht]; subst.
  destruct (keep x); simpl; [|apply IH; exact Ht].
  constructor; [|apply IH; exact Ht].
  intros Hin. apply Hx. apply in_map_iff in Hin. destruct Hin as (y & E & Hy).
  apply in_map_iff. exists y. split; [exact E|]. apply filter_In in Hy. tauto.
Qed.

Lemma in_aggregateSources (files : list FileResult) (kind : SourceKind) (a : Aggregate.t) :
  In a (aggregateSources files kind)
  <-> In a (map snd (buildSourceMap files)) /\ Aggregate.source a = kind.
Proof.
  unfold aggregateSources. split.
  - intros H. eapply Permutation_in in H; [|apply Permutation_sym, sortDesc_perm].
    apply filter_In in H. rewrite SourceKind_eqb_eq in H. exact H.
  - intros H. eapply Permutation_in; [apply sortDesc_perm|].
    apply filter_In. rewrite SourceKind_eqb_eq. exact H.
Qed.

(** C5 as the code has it. The aggregates listed under a source kind
    all have that kind and pairwise different links (a missing link
    reads [undefined]), so there is one aggregate for each pair of
    source and link; every match of every file cites an aggregate of its
    kind; and the [files] of an aggregate holds the file name of every
    match that cites it, once for each match and in the order of the
    visit, so that its length is [totalMatches].  A file name is
    repeated when a file has several matches that cite the aggregate. *)
Theorem aggregate_per_source_and_link (files : list FileResult) (kind : SourceKind) :
  let listed := aggregateSources files kind in
  Forall (fun a => Aggregate.source a = kind) listed
  /\ NoDup (map (fun a => render (Aggregate.link a)) listed)
  /\ Forall (fun a => Aggregate.files a = citingFiles files a
                      /\ Aggregate.totalMatches a = List.length (Aggregate.files a)
                      /\ Aggregate.files a <> [])
            listed
  /\ (forall file m, In file files -> In m (matches file) ->
      source (tagged m) = kind ->
      exists a, In a listed /\ cites a m = true /\ In (r_filename file) (Aggregate.files a)).
Proof.
  intros listed.
  destruct (buildSourceMap_ok files) as (N & F & C & B).
  assert (K : map fst (buildSourceMap files) = map aggKey (map snd (buildSourceMap files))).
  { rewrite map_map. apply map_ext_in. intros e He.
    rewrite Forall_forall in F. apply (F e He). }
  assert (E : forall a, In a (map snd (buildSourceMap files)) ->
                Aggregate.files a = citingFiles files a
                /\ Aggregate.totalMatches a = List.length (Aggregate.files a)).
  { intros a Ha. apply in_map_iff in Ha. destruct Ha as (e & <- & He).
    rewrite Forall_forall in F. destruct (F e He) as (Ke & Fe & Te).
    split; [|exact Te]. rewrite Fe. unfold citingFiles. f_equal.
    apply filter_ext. intros fm. rewrite Ke. apply keyOf_cites. }
  repeat split.
  - apply Forall_forall. intros a Ha. apply in_aggregateSources in Ha. tauto.
  - assert (P : Permutation (filter (fun a => SourceKind_eqb (Aggregate.source a) kind)
                                    (map snd (buildSourceMap files)))
                            listed) by apply sortDesc_perm.
    assert (D : NoDup (map aggKey listed)).
    { eapply Permutation_NoDup; [apply Permutation_map; exact P|].
      apply NoDup_keys_filter. rewrite <- K. exact N. }
    assert (M : map aggKey listed
                = map (fun l => sourceName kind ++ "-" ++ l)
                      (map (fun a => render (Aggregate.link a)) listed)).
    { rewrite map_map. apply map_ext_in. intros a Ha.
      apply in_aggregateSources in Ha. destruct Ha as (_ & <-). reflexivity. }
    rewrite M in D. eapply NoDup_map_inv. exact D.
  - apply Forall_forall. intros a Ha. apply in_aggregateSources in Ha.
    destruct Ha as (Ha & _). destruct (E a Ha) as (Fa & Ta).
    repeat split; [exact Fa | exact Ta |].
    assert (Hk : In (aggKey a) (map fst (buildSourceMap files)))
      by (rewrite K; apply in_map; exact Ha).
    destruct (B _ Hk) as (fm & Hfm & Efm).
    rewrite Fa. unfold citingFiles. intros Z.
    assert (I : In (fst fm) (map fst (filter (fun fm0 => cites a (snd fm0)) (walk files)))).
    { apply in_map. apply filter_In. split; [exact Hfm|].
      rewrite <- keyOf_cites, Efm. apply String.eqb_refl. }
    rewrite Z in I. exact I.
  - intros file m Hf Hm Hs.
    assert (W : In (r_filename file, m) (walk files)).
    { unfold walk. apply in_flat_map. exists file. split; [exact Hf|].
      apply in_map. exact Hm. }
    pose proof (C _ W) as Hk. simpl in Hk. rewrite K in Hk.
    apply in_map_iff in Hk. destruct Hk as (a & Ka & Ha).
    assert (Ci : cites a m = true).
    { rewrite <- keyOf_cites, Ka. apply String.eqb_refl. }
    exists a. repeat split.
    + apply in_aggregateSources. split; [exact Ha|].
      unfold cites in Ci. apply andb_true_iff in Ci. destruct Ci as (Cs & _).
      apply SourceKind_eqb_eq in Cs. congruence.
    + exact Ci.
    + destruct (E a Ha) as (Fa & _). rewrite Fa. unfold citingFiles.
      change (r_filename file) with (fst (r_filename file, m)).
      apply in_map. apply filter_In. split; [exact W | exact Ci].
Qed.

(** Two files whose single matches cite the same page: one aggregate,
    whose [files] has length 2. *)
Lemma aggregate_per_source_and_link_witness :
  let files := Examples.resultsOf [Examples.fileA; Examples.fileB] in
  (exists a, aggregateSources files web = [a]
             /\ Aggregate.files a = ["a.js"; "b.js"]
             /\ Aggregate.totalMatches a = 2%nat)
  /\ (exists file m a,
        In file files /\ In m (matches file) /\ source (tagged m) = web
        /\ In a (aggregateSources files web) /\ cites a m = true
        /\ In (r_filename file) (Aggregate.files a)).
Proof.
  intros files. split.
  - eexists. split; [vm_compute; reflexivity|]. split; reflexivity.
  - destruct (aggregate_per_source_and_link files web) as (_ & _ & _ & H).
    assert (F : exists file m, In file files /\ In m (matches file)
                               /\ source (tagged m) = web).
    { vm_compute. do 2 eexists. split; [left; reflexivity|].
      split; [left; reflexivity|reflexivity]. }
    destruct F as (file & m & Hf & Hm & Hs).
    destruct (H file m Hf Hm Hs) as (a & Ha & Hc & Hi).
    exists file, m, a.
    exact (conj Hf (conj Hm (conj Hs (conj Ha (conj Hc Hi))))).
Defined.

(** C5 as stated fails: one file with two units that both find the
    same page is listed twice in the [files] of the page's aggregate. *)
Lemma one_file_listed_twice :
  exists d a,
    analyze Examples.cfgWeb Examples.netWeb None [Examples.fileC] defaultOptions = Success d
    /\ Submission.sources d web = [a]
    /\ Aggregate.files a = ["c.js"; "c.js"]
    /\ ~ NoDup (Aggregate.files a).
Proof.
  do 2 eexists. split; [vm_compute; reflexivity|].
  split; [vm_compute; reflexivity|].
  split; [reflexivity|].
  simpl. intros H. inversion H as [|? ? N _]; subst. apply N. left. reflexivity.
Qed.

(** ** The range of the similarity *)

Lemma setCount_total (m : counts) (b : bigram) (n : nat) :
  (totalCount (setCount m b n) + getCount m b = totalCount m + n)%nat.
Proof.
  induction m as [|[k v] t IH]; simpl; [lia|].
  destruct (bigram_eqb k b); simpl; lia.
Qed.

Lemma firstBigrams_total (bs : list bigram) (m : counts) :
  totalCount (fold_left (fun m b => setCount m b (S (getCount m b))) bs m)
  = (totalCount m + List.length bs)%nat.
Proof.
  revert m. induction bs as [|b t IH]; intros m; simpl; [lia|].
  rewrite IH. pose proof (setCount_total m b (S (getCount m b))). lia.
Qed.

Lemma intersectionSize_le_total (bs : list bigram) (m : counts) :
  (intersectionSize m bs <= totalCount m)%nat.
Proof.
  revert m. induction bs as [|b t IH]; intros m; simpl; [lia|].
  destruct (getCount m b) as [|n] eqn:G; [apply IH|].
  specialize (IH (setCount m b n)).
  pose proof (setCount_total m b n). lia.
Qed.

Lemma intersectionSize_le_length (bs : list bigram) (m : counts) :
  (intersectionSize m bs <= List.length bs)%nat.
Proof.
  revert m. induction bs as [|b t IH]; intros m; simpl; [lia|].
  destruct (getCount m b) as [|n]; [specialize (IH m) | specialize (IH (setCount m b n))]; lia.
Qed.

Lemma bigrams_length (l : list ascii) :
  List.length (bigrams l) = (List.length l - 1)%nat.
Proof.
  induction l as [|a t IH]; [reflexivity|].
  destruct t as [|b t']; [reflexivity|].
  change (bigrams (a :: b :: t')) with ((a, b) :: bigrams (b :: t')).
  simpl List.length in *. lia.
Qed.

Lemma natQ_le (a b : nat) : (a <= b)%nat -> Num.natQ a <= Num.natQ b.
Proof. intros H. unfold Num.natQ. rewrite <- Zle_Qle. lia. Qed.

Lemma dice_range (f s : list ascii) :
  (2 <= List.length f)%nat -> (2 <= List.length s)%nat -> 0 <= dice f s <= 1.
Proof.
  intros Hf Hs. unfold dice.
  set (i := intersectionSize (firstBigrams (bigrams f)) (bigrams s)).
  assert (I1 : (i <= List.length f - 1)%nat).
  { unfold i, firstBigrams. rewrite <- bigrams_length.
    etransitivity; [apply intersectionSize_le_total|].
    rewrite firstBigrams_total. simpl. lia. }
  assert (I2 : (i <= List.length s - 1)%nat).
  { unfold i. rewrite <- bigrams_length. apply intersectionSize_le_length. }
  assert (P : 0 < Num.natQ (List.length f + List.length s - 2)) by (apply natQ_pos; lia).
  split.
  - apply Qle_shift_div_l; [exact P|]. rewrite Qmult_0_l. apply natQ_nonneg.
  - apply Qle_shift_div_r; [exact P|]. rewrite Qmult_1_l. apply natQ_le. lia.
Qed.

Lemma compareTwoStrings_range (first second : string) :
  0 <= compareTwoStrings first second <= 1.
Proof.
  unfold compareTwoStrings.
  destruct (ofChars (stripSpaces first) =? ofChars (stripSpaces second))%string; [lra|].
  destruct ((List.length (stripSpaces first) <? 2)%nat
            || (List.length (stripSpaces second) <? 2)%nat) eqn:E; [lra|].
  apply orb_false_iff in E. destruct E as (E1 & E2).
  apply Nat.ltb_ge in E1. apply Nat.ltb_ge in E2.
  apply dice_range; assumption.
Qed.

(** Whatever two texts are compared, the similarity is within [0,1]. *)
Lemma similarity_range (text1 text2 : string) :
  0 <= calculateSimilarity text1 text2 <= 1.
Proof. apply compareTwoStrings_range. Qed.

(** ** The Dice coefficient of a text with itself

    [compareTwoStrings] answers 1 for identical texts before it counts
    bigrams.  The count agrees with that answer: every bigram of a text
    is found in the map built from the same text. *)

Lemma bigram_eqb_eq (x y : bigram) : bigram_eqb x y = true <-> x = y.
Proof.
  destruct x as [a b], y as [c d]. unfold bigram_eqb. simpl.
  rewrite andb_true_iff, !Ascii.eqb_eq. split; [intros [-> ->]; reflexivity|].
  intros E. injection E as -> ->. auto.
Qed.

Lemma bigram_eqb_refl (x : bigram) : bigram_eqb x x = true.
Proof. apply bigram_eqb_eq. reflexivity. Qed.

Lemma getCount_setCount (m : counts) (b b' : bigram) (n : nat) :
  getCount (setCount m b n) b' = if bigram_eqb b b' then n else getCount m b'.
Proof.
  induction m as [|[k v] t IH]; simpl.
  - reflexivity.
  - destruct (bigram_eqb k b) eqn:Ek; simpl.
    + apply bigram_eqb_eq in Ek. subst k.
      destruct (bigram_eqb b b'); reflexivity.
    + rewrite IH. destruct (bigram_eqb k b') eqn:Ek'; [|reflexivity].
      destruct (bigram_eqb b b') eqn:Eb; [|reflexivity].
      apply bigram_eqb_eq in Ek'. apply bigram_eqb_eq in Eb. subst.
      rewrite bigram_eqb_refl in Ek. discriminate.
Qed.

Lemma getCount_firstBigrams (bs : list bigram) (m : counts) (b : bigram) :
  getCount (fold_left (fun m b => setCount m b (S (getCount m b))) bs m) b
  = (getCount m b + occurrences b bs)%nat.
Proof.
  revert m. induction bs as [|x t IH]; intros m; simpl.
  - unfold occurrences. simpl. lia.
  - rewrite IH, getCount_setCount. unfold occurrences. simpl.
    destruct (bigram_eqb x b) eqn:E.
    + apply bigram_eqb_eq in E. subst x. rewrite bigram_eqb_refl. simpl. lia.
    + replace (bigram_eqb b x) with false; [reflexivity|].
      symmetry. destruct (bigram_eqb b x) eqn:E'; [|reflexivity].
      apply bigram_eqb_eq in E'. subst. rewrite bigram_eqb_refl in E. discriminate.
Qed.

Lemma intersectionSize_all (bs : list bigram) (m : counts) :
  (forall b, (occurrences b bs <= getCount m b)%nat) ->
  intersectionSize m bs = List.length bs.
Proof.
  revert m. induction bs as [|x t IH]; intros m H; simpl; [reflexivity|].
  pose proof (H x) as Hx. unfold occurrences in Hx. simpl in Hx.
  rewrite bigram_eqb_refl in Hx. simpl in Hx.
  destruct (getCount m x) as [|n] eqn:G; [lia|].
  f_equal. apply IH. intros b. rewrite getCount_setCount.
  destruct (bigram_eqb x b) eqn:E.
  - apply bigram_eqb_eq in E. subst b. unfold occurrences. lia.
  - specialize (H b). unfold occurrences in *. simpl in H.
    destruct (bigram_eqb b x); simpl in H; lia.
Qed.

Lemma dice_identical (l : list ascii) :
  (2 <= List.length l)%nat -> dice l l == 1.
Proof.
  intros H. unfold dice, firstBigrams.
  rewrite intersectionSize_all.
  - rewrite bigrams_length.
    replace (2 * (List.length l - 1))%nat with (List.length l + List.length l - 2)%nat by lia.
    assert (P : 0 < Num.natQ (List.length l + List.length l - 2)) by (apply natQ_pos; lia).
    field. intros Z. rewrite Z in P. exact (Qlt_irrefl _ P).
  - intros b. rewrite getCount_firstBigrams. simpl. lia.
Qed.

(** C9. A text that is not empty after normalization has similarity 1
    with itself, and the similarity of the empty text with itself is
    defined: it is 1 as well.  The answer does not hang on the test for
    identical strings: when the normalized text has two characters or
    more besides white space, its Dice coefficient with itself is 1. *)
Theorem calculateSimilarity_identical (x : string) :
  (normalizeText x <> "" -> calculateSimilarity x x = 1)
  /\ calculateSimilarity "" "" = 1
  /\ ((2 <= List.length (stripSpaces (normalizeText x)))%nat ->
      dice (stripSpaces (normalizeText x)) (stripSpaces (normalizeText x)) == 1).
Proof.
  split; [|split].
  - intros _. unfold calculateSimilarity. apply compareTwoStrings_same.
  - reflexivity.
  - apply dice_identical.
Qed.

Lemma calculateSimilarity_identical_witness :
  normalizeText "Function add(a, b)" <> ""
  /\ (2 <= List.length (stripSpaces (normalizeText "Function add(a, b)")))%nat
  /\ calculateSimilarity "Function add(a, b)" "Function add(a, b)" = 1
  /\ dice (stripSpaces (normalizeText "Function add(a, b)"))
          (stripSpaces (normalizeText "Function add(a, b)")) == 1.
Proof.
  assert (N : normalizeText "Function add(a, b)" <> "") by (vm_compute; discriminate).
  assert (L : (2 <= List.length (stripSpaces (normalizeText "Function add(a, b)")))%nat)
    by (vm_compute; lia).
  destruct (calculateSimilarity_identical "Function add(a, b)") as (S & _ & D).
  split; [exact N|]. split; [exact L|]. split; [exact (S N) | exact (D L)].
Defined.

(** ** The range of the plagiarism scores *)

Lemma natQ_succ (n : nat) : Num.natQ (S n) == Num.natQ n + 1.
Proof.
  unfold Num.natQ. rewrite Nat2Z.inj_succ, <- Z.add_1_r, inject_Z_plus. reflexivity.
Qed.

Lemma sum_range (l : list Q) (a : Q) :
  Forall (fun s => 0 <= s <= 1) l ->
  a <= fold_left Qplus l a <= a + Num.natQ (List.length l).
Proof.
  intros H. revert a. induction H as [|x t Hx _ IH]; intros a; simpl.
  - change (Num.natQ 0) with 0. lra.
  - specialize (IH (a + x)). rewrite natQ_succ. lra.
Qed.

Lemma overallScore_range (ms : list Match) :
  Forall (fun m => 0 <= similarity m <= 1) ms -> 0 <= overallScore ms <= 1.
Proof.
  intros H. destruct ms as [|m t]; [simpl; lra|].
  destruct (overallScore_formula m t) as (mx & mean & Hex & _ & Hmean & ->).
  assert (S : Forall (fun s => 0 <= s <= 1) (map similarity (m :: t))).
  { apply Forall_map. exact H. }
  assert (Mx : 0 <= mx <= 1).
  { apply Exists_exists in Hex. destruct Hex as (s & Hs & <-).
    rewrite Forall_forall in S. apply S. exact Hs. }
  pose proof (sum_range 0 S) as R. fold (Num.sum (map similarity (m :: t))) in R.
  rewrite <- Hmean in R.
  assert (P : 0 < Num.natQ (List.length (map similarity (m :: t))))
    by (apply natQ_pos; simpl; lia).
  assert (Mean : 0 <= mean <= 1).
  { split; apply (Qmult_lt_0_le_reg_r _ _ _ P); lra. }
  lra.
Qed.

Lemma scoreMatches_similarity (threshold : Q) (unit : string) (found : list Tagged)
    (m : Match) :
  In m (scoreMatches threshold unit found) ->
  exists text, similarity m = calculateSimilarity unit text.
Proof.
  intros H. unfold scoreMatches in H. apply in_flat_map in H.
  destruct H as (t & _ & H).
  destruct (negb (snippet t =? "")%string); [|contradiction].
  destruct (gtb (calculateSimilarity unit (snippet t)) threshold); [|contradiction].
  destruct H as [<- | []]. simpl. eauto.
Qed.

(** The similarity of every match and the plagiarism score of every
    file result are within [0,1]. *)
Lemma plagiarismScore_range
    (cfg : Config) (net : Net) (gemini : Gemini) (file : CodeFile)
    (options : Options) (r : FileResult) :
  analyzeFile cfg net gemini file options = Ok r ->
  Forall (fun m => 0 <= similarity m <= 1) (matches r)
  /\ 0 <= plagiarismScore r <= 1.
Proof.
  intros E. destruct (content file) as [|n|s] eqn:C.
  - rewrite analyzeFile_absent in E by exact C. discriminate.
  - destruct (analyzeFile_notText _ _ _ _ _ C E) as (-> & -> & _).
    split; [constructor|lra].
  - destruct (analyzeFile_text _ _ _ _ _ C E) as (M & P & _).
    assert (F : Forall (fun m => 0 <= similarity m <= 1) (matches r)).
    { rewrite M. eapply Permutation_Forall; [apply sortDesc_perm|].
      apply Forall_forall. intros m H. unfold collectMatches in H.
      apply in_flat_map in H. destruct H as (unit & _ & H).
      apply scoreMatches_similarity in H. destruct H as (text & ->).
      apply similarity_range. }
    split; [exact F|]. rewrite P, <- M. apply overallScore_range. exact F.
Qed.

(** ** The submission *)

Section Submission.
Variables (cfg : Config) (net : Net) (gemini : Gemini) (options : Options).

(** The loop over the files keeps what holds of every result of
    [analyzeFile], and adds one result for each file. *)
Lemma processFiles_results (P : FileResult -> Prop) (codeFiles : list CodeFile)
    (acc out : list FileResult * list (string * Q) * nat) :
  (forall file r, analyzeFile cfg net gemini file options = Ok r -> P r) ->
  processFiles cfg net gemini options codeFiles acc = Ok out ->
  Forall P (fst (fst acc)) ->
  Forall P (fst (fst out))
  /\ List.length (fst (fst out))
     = (List.length (fst (fst acc)) + List.length codeFiles)%nat.
Proof.
  intros HP. revert acc. induction codeFiles as [|file rest IH]; intros acc E F; simpl in E.
  - injection E as <-. split; [exact F|simpl; lia].
  - destruct (analyzeFile cfg net gemini file options) as [r|e] eqn:A; simpl in E;
      [|discriminate].
    destruct acc as [[files highRisk] total].
    apply IH in E.
    + simpl in *. destruct E as (E1 & E2). split; [exact E1|].
      rewrite E2, length_app. simpl. lia.
    + simpl. apply Forall_app. split; [exact F|].
      constructor; [|constructor]. eapply HP. exact A.
Qed.

(** When every file has content, no file stops the loop. *)
Lemma processFiles_returns (codeFiles : list CodeFile)
    (acc : list FileResult * list (string * Q) * nat) :
  Forall (fun file => content file <> Absent) codeFiles ->
  exists out, processFiles cfg net gemini options codeFiles acc = Ok out.
Proof.
  intros H. revert acc. induction H as [|file rest Hf _ IH]; intros acc; simpl.
  - eauto.
  - destruct (analyzeFile_returns cfg net gemini file options Hf) as (r & ->). simpl.
    destruct acc as [[files highRisk] total]. apply IH.
Qed.

(** A submission that is not empty and whose files all have content is
    answered with one result for each file. *)
Lemma analyze_succeeds (codeFiles : list CodeFile) :
  codeFiles <> [] ->
  Forall (fun file => content file <> Absent) codeFiles ->
  exists d, analyze cfg net gemini codeFiles options = Success d
            /\ List.length (Submission.files d) = List.length codeFiles.
Proof.
  intros N H. unfold analyze.
  destruct codeFiles as [|file rest] eqn:L; [congruence|]. rewrite <- L in *.
  destruct (processFiles_returns ([], [], 0%nat) H) as (out & E).
  rewrite E. destruct out as [[files highRisk] total].
  eexists. split; [reflexivity|]. simpl.
  destruct (@processFiles_results (fun _ => True) _ _ _ (fun _ _ _ => I) E) as (_ & Len);
    [constructor|].
  exact Len.
Qed.

(** The plagiarism score of the summary and of every file is within
    [0,1]. *)
Lemma summary_plagiarismScore_range (codeFiles : list CodeFile) (d : Submission.t) :
  analyze cfg net gemini codeFiles options = Success d ->
  0 <= Summary.plagiarismScore (Submission.summary d) <= 1
  /\ Forall (fun f => 0 <= plagiarismScore f <= 1) (Submission.files d).
Proof.
  unfold analyze. destruct codeFiles as [|file rest] eqn:L; [discriminate|].
  rewrite <- L.
  destruct (processFiles cfg net gemini options codeFiles ([], [], 0%nat))
    as [[[files highRisk] total]|e] eqn:E; [|discriminate].
  intros S. injection S as <-. simpl.
  destruct (@processFiles_results (fun f => 0 <= plagiarismScore f <= 1) _ _ _
              (fun file r A => proj2 (plagiarismScore_range _ _ _ _ _ A)) E)
    as (F & Len); [constructor|].
  simpl in F, Len. split; [|exact F].
  rewrite fold_sum_map.
  assert (R := @sum_range (map plagiarismScore files) 0
                 (proj2 (Forall_map _ _ _) F)).
  rewrite length_map in R.
  assert (P : 0 < Num.natQ (List.length files)).
  { apply natQ_pos. rewrite Len, L. simpl. lia. }
  split.
  - apply Qle_shift_div_l; [exact P|]. lra.
  - apply Qle_shift_div_r; [exact P|]. lra.
Qed.

End Submission.

(** ** Consequences for the scores *)

Lemma sum_of_ones (l : list Q) (a : Q) :
  Forall (fun s => s = 1) l -> fold_left Qplus l a == a + Num.natQ (List.length l).
Proof.
  intros H. revert a. induction H as [|x t Hx _ IH]; intros a; simpl.
  - change (Num.natQ 0) with 0. lra.
  - rewrite IH, natQ_succ, Hx. lra.
Qed.

(** A file with a match has the plagiarism score 1: every match has
    similarity 1. *)
Lemma plagiarismScore_one_when_matched
    (cfg : Config) (net : Net) (gemini : Gemini) (file : CodeFile)
    (options : Options) (r : FileResult) :
  analyzeFile cfg net gemini file options = Ok r ->
  matches r <> [] -> plagiarismScore r == 1.
Proof.
  intros E N.
  pose proof (matches_compare_unit_with_itself _ _ _ _ _ E) as One.
  assert (P0 : plagiarismScore r = overallScore (matches r)).
  { destruct (content file) as [|n|s] eqn:C.
    - rewrite analyzeFile_absent in E by exact C. discriminate.
    - destruct (analyzeFile_notText _ _ _ _ _ C E) as (M & _). congruence.
    - destruct (analyzeFile_text _ _ _ _ _ C E) as (M & S & _).
      rewrite M, S. reflexivity. }
  rewrite P0. destruct (matches r) as [|m0 ms] eqn:L; [congruence|].
  destruct (overallScore_formula m0 ms) as (mx & mean & Hex & _ & Hmean & ->).
  assert (S : Forall (fun s => s = 1) (map similarity (m0 :: ms))).
  { apply Forall_map. eapply Forall_impl; [|exact One]. intros m H. apply H. }
  assert (Mx : mx == 1).
  { apply Exists_exists in Hex. destruct Hex as (s & Hs & <-).
    rewrite Forall_forall in S. rewrite (S s Hs). reflexivity. }
  unfold Num.sum in Hmean. rewrite (sum_of_ones 0 S) in Hmean.
  assert (P : 0 < Num.natQ (List.length (map similarity (m0 :: ms)))).
  { apply natQ_pos. simpl. lia. }
  assert (Mean : mean == 1).
  { apply (Qmult_inj_r _ _ (Num.natQ (List.length (map similarity (m0 :: ms))))).
    - intros Z. rewrite Z in P. exact (Qlt_irrefl _ P).
    - rewrite Hmean. lra. }
  rewrite Mx, Mean. lra.
Qed.

(** ** One source failing *)

(** A GitHub search that fails leaves the candidates of the other two
    sources as they are: the searches for a snippet give what they give
    with the GitHub search switched off. *)
Lemma github_failure_isolated (cfg : Config) (net : Net) (file : CodeFile)
    (options : Options) (unit : string) :
  (forall auth q, exists e, githubSearchCode net auth q = Throw e) ->
  searchSnippet cfg net file options unit
  = searchSnippet cfg net file (withoutGitHub options) unit.
Proof.
  intros F. unfold searchSnippet, withoutGitHub. simpl.
  destruct (searchGitHub options); [|reflexivity].
  rewrite (search_code_fails cfg net unit (language file) F). reflexivity.
Qed.

(** * Further properties *)

Import Derived.

(** ** The response of [POST /analyze] *)

Section AnalyzeResponse.
Variables (cfg : Config) (net : Net) (gemini : Gemini) (options : Options).

Lemma analyzeFile_filename (file : CodeFile) (r : FileResult) :
  analyzeFile cfg net gemini file options = Ok r -> r_filename r = filename file.
Proof.
  unfold analyzeFile. destruct (content file) as [|n|s]; simpl; [discriminate| |];
    destruct (detectAI options); simpl; intros E; injection E as <-; reflexivity.
Qed.

(** What the loop over the files adds to its three accumulators. *)
Lemma processFiles_adds (codeFiles : list CodeFile)
    (files files' : list FileResult) (highRisk highRisk' : list (string * Q))
    (total total' : nat) :
  processFiles cfg net gemini options codeFiles (files, highRisk, total)
  = Ok (files', highRisk', total') ->
  exists results,
    Forall2 (fun file r => analyzeFile cfg net gemini file options = Ok r) codeFiles results
    /\ files' = (files ++ results)%list
    /\ highRisk' = (highRisk ++ highRiskOf results)%list
    /\ total' = (total + matchCount results)%nat.
Proof.
  revert files highRisk total.
  induction codeFiles as [|file rest IH]; intros files highRisk total E; simpl in E.
  - injection E as <- <- <-. exists []. repeat split.
    + constructor.
    + rewrite app_nil_r. reflexivity.
    + rewrite app_nil_r. reflexivity.
    + simpl. lia.
  - destruct (analyzeFile cfg net gemini file options) as [r|e] eqn:A; simpl in E;
      [|discriminate].
    apply IH in E. destruct E as (results & F & -> & -> & ->).
    exists (r :: results). repeat split.
    + constructor; assumption.
    + rewrite <- app_assoc. reflexivity.
    + unfold highRiskOf. simpl.
      destruct (gtb (plagiarismScore r) 0.7); simpl; [|reflexivity].
      rewrite (analyzeFile_filename _ A), <- app_assoc. reflexivity.
    + simpl. lia.
Qed.

(** X2. In a successful response [highRiskFiles] lists, in the order of the
    analysis, exactly the files whose plagiarism score is above 0.7,
    each with that score, and [totalMatches] is the number of matches of
    all file results. *)
Theorem summary_counts (codeFiles : list CodeFile) (d : Submission.t) :
  analyze cfg net gemini codeFiles options = Success d ->
  Summary.highRiskFiles (Submission.summary d) = highRiskOf (Submission.files d)
  /\ Summary.totalMatches (Submission.summary d) = matchCount (Submission.files d).
Proof.
  unfold analyze. destruct codeFiles as [|file rest] eqn:L; [discriminate|].
  rewrite <- L.
  destruct (processFiles cfg net gemini options codeFiles ([], [], 0%nat))
    as [[[files highRisk] total]|e] eqn:E; [|discriminate].
  intros S. injection S as <-. simpl.
  destruct (processFiles_adds _ _ _ _ E) as (results & _ & -> & -> & ->).
  split; reflexivity.
Qed.

End AnalyzeResponse.






Lemma summary_counts_witness :
  exists d,
    analyze Examples.cfgWeb Examples.netWeb None [Examples.fileA; Examples.fileB]
            defaultOptions = Success d
    /\ Summary.highRiskFiles (Submission.summary d) = highRiskOf (Submission.files d)
    /\ Summary.totalMatches (Submission.summary d) = 2%nat.
Proof.
  eexists.
  assert (E : analyze Examples.cfgWeb Examples.netWeb None
                [Examples.fileA; Examples.fileB] defaultOptions = Success _)
    by (vm_compute; reflexivity).
  destruct (summary_counts _ _ _ _ _ E) as (H & T).
  split; [exact E|]. split; [exact H|]. rewrite T. reflexivity.
Defined.

(** ** Every match is counted in one aggregate *)

Lemma filter_disjoint_length {A} (p q : A -> bool) (l : list A) :
  (forall x, In x l -> p x = true -> q x = false) ->
  (List.length (filter p l) + List.length (filter q l))%nat
  = List.length (filter (fun x => p x || q x) l).
Proof.
  induction l as [|x t IH]; intros D; simpl; [reflexivity|].
  assert (Dt : forall y, In y t -> p y = true -> q y = false)
    by (intros y Hy; apply D; right; exact Hy).
  specialize (IH Dt). pose proof (D x (or_introl eq_refl)) as Dx.
  destruct (p x) eqn:P; simpl.
  - rewrite (Dx eq_refl). simpl. lia.
  - destruct (q x); simpl; lia.
Qed.

Lemma count_by_keys {A} (key : A -> string) (ks : list string) (l : list A) :
  NoDup ks ->
  fold_right (fun k n => (List.length (filter (fun x => String.eqb (key x) k) l) + n)%nat)
             0%nat ks
  = List.length (filter (fun x => existsb (String.eqb (key x)) ks) l).
Proof.
  intros N. induction N as [|k ks Hk _ IH]; simpl.
  - rewrite filter_none; [reflexivity|]. reflexivity.
  - rewrite IH. apply filter_disjoint_length.
    intros x _ E. apply String.eqb_eq in E. subst k.
    destruct (existsb (String.eqb (key x)) ks) eqn:X; [|reflexivity].
    apply existsb_exists in X. destruct X as (k' & Hk' & E').
    apply String.eqb_eq in E'. subst k'. contradiction.
Qed.

Lemma aggregateCount_perm (l l' : list Aggregate.t) :
  Permutation l l' -> aggregateCount l = aggregateCount l'.
Proof.
  induction 1; simpl; lia.
Qed.

Lemma aggregateCount_by_kind (l : list Aggregate.t) :
  (aggregateCount (filter (fun a => SourceKind_eqb (Aggregate.source a) github) l)
   + aggregateCount (filter (fun a => SourceKind_eqb (Aggregate.source a) stackoverflow) l)
   + aggregateCount (filter (fun a => SourceKind_eqb (Aggregate.source a) web) l))%nat
  = aggregateCount l.
Proof.
  induction l as [|a t IH]; simpl; [reflexivity|].
  destruct (Aggregate.source a); simpl; lia.
Qed.

Lemma walk_length (files : list FileResult) :
  List.length (walk files) = matchCount files.
Proof.
  unfold walk. induction files as [|f t IH]; simpl; [reflexivity|].
  rewrite length_app, length_map, IH. reflexivity.
Qed.

Lemma aggregateCount_map (seen : list (string * Match)) (sm : SourceMap) :
  Forall (entryOk seen) sm ->
  aggregateCount (map snd sm)
  = fold_right (fun k n => (List.length (filter (fun fm => String.eqb (keyOf (snd fm)) k) seen)
                            + n)%nat)
               0%nat (map fst sm).
Proof.
  induction 1 as [|e t (_ & F & T) _ IH]; simpl; [reflexivity|].
  rewrite IH, T, F, length_map. reflexivity.
Qed.

(** X3. The [totalMatches] of the aggregates of the three sources add up
    to the number of matches of the files: every match is counted in
    exactly one aggregate. *)
Theorem matches_counted_once (files : list FileResult) :
  (aggregateCount (aggregateSources files github)
   + aggregateCount (aggregateSources files stackoverflow)
   + aggregateCount (aggregateSources files web))%nat
  = matchCount files.
Proof.
  destruct (buildSourceMap_ok files) as (N & F & C & _).
  unfold aggregateSources.
  rewrite <- !(aggregateCount_perm (sortDesc_perm Aggregate.maxSimilarity _)).
  rewrite aggregateCount_by_kind, (aggregateCount_map F), (count_by_keys _ _ N).
  rewrite <- walk_length. f_equal.
  rewrite (filter_ext_in _ (fun _ => true)).
  - clear. induction (walk files) as [|x t IH]; simpl; [reflexivity|]. rewrite IH. reflexivity.
  - intros fm Hfm. apply C in Hfm. apply existsb_exists.
    exists (keyOf (snd fm)). split; [exact Hfm | apply String.eqb_refl].
Qed.

(** ** The ranking of the sources *)

Lemma visit_fold_keeps (I : list (string * Match) -> SourceMap -> Prop) :
  (forall (seen : list (string * Match)) (sm : SourceMap) (filename : string) (m : Match),
      mapOk seen sm -> I seen sm ->
      I (seen ++ [(filename, m)])%list (visit filename sm m)) ->
  forall (todo seen : list (string * Match)) (sm : SourceMap),
    mapOk seen sm -> I seen sm ->
    I (seen ++ todo)%list
      (fold_left (fun sourceMap fm => visit (fst fm) sourceMap (snd fm)) todo sm).
Proof.
  intros Step. induction todo as [|[fn m] t IH]; intros seen sm M H; simpl.
  - rewrite app_nil_r. exact H.
  - replace (seen ++ (fn, m) :: t)%list with ((seen ++ [(fn, m)]) ++ t)%list
      by (rewrite <- app_assoc; reflexivity).
    apply IH; [apply mapOk_visit; exact M | apply Step; assumption].
Qed.

Lemma citing_snoc (key : string) (seen : list (string * Match)) (fn : string) (m : Match) :
  citing key (seen ++ [(fn, m)])
  = (citing key seen ++ (if String.eqb (keyOf m) key then [(fn, m)] else []))%list.
Proof. unfold citing. rewrite filter_app. reflexivity. Qed.

Lemma entryMax_visit (seen : list (string * Match)) (sm : SourceMap)
    (filename : string) (m : Match) :
  mapOk seen sm -> Forall (entryMax seen) sm ->
  Forall (entryMax (seen ++ [(filename, m)])) (visit filename sm m).
Proof.
  intros (N & F & C & B) H. unfold visit.
  set (fresh := {| Aggregate.source := source (tagged m);
                   Aggregate.title := title (tagged m);
                   Aggregate.link := link (tagged m);
                   Aggregate.files := [];
                   Aggregate.maxSimilarity := 0;
                   Aggregate.totalMatches := 0 |}).
  set (sm1 := if has sm (keyOf m) then sm else (sm ++ [(keyOf m, fresh)])%list).
  set (P := fun e : string * Aggregate.t =>
              entryMax seen e
              /\ (citing (fst e) seen = [] ->
                  Aggregate.title (snd e) = title (tagged m)
                  /\ Aggregate.link (snd e) = link (tagged m))).
  assert (H1 : Forall P sm1).
  { assert (Old : Forall P sm).
    { apply Forall_forall. intros e He. split.
      - rewrite Forall_forall in H. apply H. exact He.
      - intros Z. exfalso.
        destruct (B (fst e) (in_map fst _ _ He)) as (fm & Hfm & K).
        assert (I : In fm (citing (fst e) seen)).
        { apply filter_In. split; [exact Hfm|]. apply String.eqb_eq. exact K. }
        rewrite Z in I. exact I. }
    unfold sm1. destruct (has sm (keyOf m)) eqn:Hs; [exact Old|].
    apply Forall_app. split; [exact Old|]. constructor; [|constructor].
    assert (Z : citing (keyOf m) seen = []).
    { apply filter_none. intros fm Hfm. apply String.eqb_neq. intros K.
      apply C in Hfm. rewrite K in Hfm. apply has_In in Hfm. congruence. }
    split.
    - unfold entryMax. simpl. rewrite Z. repeat split.
      + constructor.
      + left. reflexivity.
    - intros _. simpl. auto. }
  eapply Forall_update; [| |exact H1].
  - intros e (E & _) Ne. unfold entryMax. rewrite citing_snoc.
    replace (keyOf m =? fst e)%string with false
      by (symmetry; apply String.eqb_neq; congruence).
    rewrite app_nil_r. exact E.
  - intros e ((Le & At & Ti) & Fr) Eq. unfold entryMax. simpl.
    rewrite citing_snoc.
    replace (keyOf m =? fst e)%string with true
      by (symmetry; apply String.eqb_eq; congruence).
    repeat split.
    + apply Forall_app. split.
      * eapply Forall_impl; [|exact Le]. intros fm L. simpl in L.
        eapply Qle_trans; [exact L | apply Q.le_max_l].
      * constructor; [apply Q.le_max_r | constructor].
    + destruct (Q.max_dec (Aggregate.maxSimilarity (snd e)) (similarity m)) as [Ml | Mr].
      * destruct At as [Z | Ex].
        -- left. rewrite Ml. exact Z.
        -- right. apply Exists_app. left.
           eapply Exists_impl; [|exact Ex]. intros fm L. simpl in L.
           rewrite Ml. exact L.
      * right. apply Exists_app. right. constructor. exact Mr.
    + destruct (citing (fst e) seen) as [|fm0 rest] eqn:Ci; simpl.
      * apply Fr. reflexivity.
      * exact Ti.
Qed.

Lemma buildSourceMap_max (files : list FileResult) :
  Forall (entryMax (walk files)) (buildSourceMap files).
Proof.
  rewrite buildSourceMap_walk.
  apply (@visit_fold_keeps (fun seen sm => Forall (entryMax seen) sm)
           entryMax_visit (walk files) [] []).
  - repeat split; simpl; try constructor; intros; contradiction.
  - constructor.
Qed.

Lemma in_walk (files : list FileResult) (fm : string * Match) :
  In fm (walk files)
  <-> exists file, In file files /\ fst fm = r_filename file /\ In (snd fm) (matches file).
Proof.
  unfold walk. rewrite in_flat_map. split.
  - intros (file & Hf & H). apply in_map_iff in H. destruct H as (m & <- & Hm).
    exists file. auto.
  - intros (file & Hf & E & Hm). exists file. split; [exact Hf|].
    apply in_map_iff. exists (snd fm). split; [|exact Hm].
    destruct fm as [fn m]. simpl in *. subst. reflexivity.
Qed.

(** X4. The aggregates of a source are listed by descending
    [maxSimilarity].  The [maxSimilarity] of an aggregate is at least
    the similarity of every match that cites it, and it is 0 or the
    similarity of one of them; its title and its link are those of the
    first match that cited it. *)
Theorem sources_ranked (files : list FileResult) (kind : SourceKind) :
  let listed := aggregateSources files kind in
  StronglySorted (descending Aggregate.maxSimilarity) listed
  /\ Forall (fun a =>
       (forall file m, In file files -> In m (matches file) -> cites a m = true ->
                       similarity m <= Aggregate.maxSimilarity a)
       /\ (Aggregate.maxSimilarity a == 0
           \/ exists file m, In file files /\ In m (matches file) /\ cites a m = true
                             /\ Aggregate.maxSimilarity a == similarity m)
       /\ (exists fm rest,
             filter (fun fm => cites a (snd fm)) (walk files) = fm :: rest
             /\ Aggregate.title a = title (tagged (snd fm))
             /\ Aggregate.link a = link (tagged (snd fm))))
     listed.
Proof.
  intros listed. split; [apply sortDesc_sorted|].
  destruct (buildSourceMap_ok files) as (_ & F & _ & B).
  pose proof (buildSourceMap_max files) as M.
  apply Forall_forall. intros a Ha. apply in_aggregateSources in Ha.
  destruct Ha as (Ha & _). apply in_map_iff in Ha. destruct Ha as (e & <- & He).
  rewrite Forall_forall in F, M.
  destruct (F e He) as (K & _ & _). destruct (M e He) as (Le & At & Ti).
  assert (Ci : citing (fst e) (walk files)
               = filter (fun fm => cites (snd e) (snd fm)) (walk files)).
  { unfold citing. apply filter_ext. intros fm. rewrite K. apply keyOf_cites. }
  rewrite Ci in Le, At, Ti. rewrite Forall_forall in Le.
  repeat split.
  - intros file m Hf Hm Hc.
    apply (Le (r_filename file, m)). apply filter_In. split; [|exact Hc].
    apply in_walk. exists file. auto.
  - destruct At as [Z | Ex]; [left; exact Z|]. right.
    apply Exists_exists in Ex. destruct Ex as (fm & Hfm & E).
    apply filter_In in Hfm. destruct Hfm as (Hw & Hc).
    apply in_walk in Hw. destruct Hw as (file & Hf & _ & Hm).
    exists file, (snd fm). auto.
  - destruct (filter (fun fm => cites (snd e) (snd fm)) (walk files)) as [|fm rest] eqn:Fi.
    + exfalso. destruct (B (fst e) (in_map fst _ _ He)) as (fm & Hfm & Kf).
      assert (I : In fm (filter (fun fm => cites (snd e) (snd fm)) (walk files))).
      { apply filter_In. split; [exact Hfm|]. rewrite <- keyOf_cites, <- K, Kf.
        apply String.eqb_refl. }
      rewrite Fi in I. exact I.
    + exists fm, rest. destruct Ti as (T & L). auto.
Qed.

Lemma sources_ranked_witness :
  let files := Examples.resultsOf [Examples.fileA; Examples.fileB] in
  exists a file m,
    In a (aggregateSources files web)
    /\ In file files /\ In m (matches file) /\ cites a m = true
    /\ similarity m <= Aggregate.maxSimilarity a.
Proof.
  intros files.
  destruct (sources_ranked files web) as (_ & H).
  assert (A : exists a, In a (aggregateSources files web))
    by (vm_compute; eexists; left; reflexivity).
  destruct A as (a & Ha). rewrite Forall_forall in H.
  destruct (H a Ha) as (Le & _ & (fm & rest & Fi & _)).
  assert (I : In fm (filter (fun fm => cites a (snd fm)) (walk files)))
    by (rewrite Fi; left; reflexivity).
  apply filter_In in I. destruct I as (Hw & Hc).
  apply in_walk in Hw. destruct Hw as (file & Hf & _ & Hm).
  exists a, file, (snd fm).
  exact (conj Ha (conj Hf (conj Hm (conj Hc (Le file (snd fm) Hf Hm Hc))))).
Defined.

(** ** Where the matches of a file come from *)

Lemma searchSnippet_source (cfg : Config) (net : Net) (file : CodeFile)
    (options : Options) (unit : string) (t : Tagged) :
  In t (searchSnippet cfg net file options unit) ->
  match source t with
  | github => searchGitHub options = true
  | stackoverflow => searchStackOverflow options = true
  | web => searchWeb options = true
  end.
Proof.
  unfold searchSnippet. rewrite !in_app_iff.
  intros [H | [H | H]].
  - destruct (searchGitHub options); [|contradiction].
    apply in_pushed_map in H. destruct H as (x & ->). reflexivity.
  - destruct (searchStackOverflow options); [|contradiction].
    apply in_pushed_map in H. destruct H as (x & ->). reflexivity.
  - destruct (searchWeb options); [|contradiction].
    apply in_pushed_map in H. destruct H as (x & ->). reflexivity.
Qed.

Lemma scoreMatches_tagged (threshold : Q) (unit : string) (found : list Tagged) (m : Match) :
  In m (scoreMatches threshold unit found) -> In (tagged m) found.
Proof.
  intros H. unfold scoreMatches in H. apply in_flat_map in H.
  destruct H as (t & Ht & H).
  destruct (negb (snippet t =? "")%string); [|contradiction].
  destruct (gtb (calculateSimilarity unit (snippet t)) threshold); [|contradiction].
  destruct H as [<- | []]. exact Ht.
Qed.

(** X5. Every match of a file result comes from a source that is switched
    on, and its [snippet] is one of the snippets extracted from the
    file. *)
Theorem matches_from_enabled_sources
    (cfg : Config) (net : Net) (gemini : Gemini) (file : CodeFile)
    (options : Options) (r : FileResult) :
  analyzeFile cfg net gemini file options = Ok r ->
  Forall (fun m =>
            match source (tagged m) with
            | github => searchGitHub options = true
            | stackoverflow => searchStackOverflow options = true
            | web => searchWeb options = true
            end
            /\ exists s, content file = Text s
                         /\ In (snippet (tagged m)) (extractSearchSnippets s))
         (matches r).
Proof.
  intros E. destruct (content file) as [|n|s] eqn:C.
  - rewrite analyzeFile_absent in E by exact C. discriminate.
  - destruct (analyzeFile_notText _ _ _ _ _ C E) as (M & _). rewrite M. constructor.
  - destruct (analyzeFile_text _ _ _ _ _ C E) as (M & _). rewrite M.
    eapply Permutation_Forall; [apply sortDesc_perm|].
    apply Forall_forall. intros m H. unfold collectMatches in H.
    apply in_flat_map in H. destruct H as (unit & Hu & H).
    pose proof (scoreMatches_tagged _ _ _ _ H) as T. split.
    + eapply searchSnippet_source. exact T.
    + exists s. split; [reflexivity|].
      rewrite (searchSnippet_snippet _ _ _ _ _ _ T). exact Hu.
Qed.

(** With the web search alone switched on, the match of
    [Examples.fileA] is a web match. *)
Lemma matches_from_enabled_sources_witness :
  exists r,
    analyzeFile Examples.cfgWeb Examples.netWeb None Examples.fileA Cases.onlyWeb = Ok r
    /\ matches r <> []
    /\ Forall (fun m => source (tagged m) = web) (matches r).
Proof.
  eexists.
  assert (E : analyzeFile Examples.cfgWeb Examples.netWeb None Examples.fileA Cases.onlyWeb
              = Ok _) by (vm_compute; reflexivity).
  pose proof (matches_from_enabled_sources _ _ _ _ _ E) as H.
  split; [exact E|]. split; [vm_compute; discriminate|].
  eapply Forall_impl; [|exact H].
  intros m (S & _). destruct (source (tagged m)); simpl in S;
    [discriminate | discriminate | reflexivity].
Defined.

Lemma search_web_silent (cfg : Config) (net : Net) (query : string)
    (language : option string) :
  truthy (SERPAPI_KEY cfg) = false \/ (forall key q, fails (serpapi net key q)) ->
  Search.searchWeb cfg net query language = Ok [].
Proof.
  intros [K | F]; unfold Search.searchWeb.
  - rewrite K. reflexivity.
  - destruct (negb (truthy (SERPAPI_KEY cfg))); [reflexivity|].
    match goal with
    | |- context [serpapi net ?k ?q] => destruct (F k q) as (e & ->)
    end. reflexivity.
Qed.

Lemma search_stack_silent (cfg : Config) (net : Net) (query : string)
    (language : option string) :
  (forall q tagged key, fails (stackSearch net q tagged key)) ->
  Search.searchStackOverflow cfg net query language = Ok [].
Proof.
  intros F. unfold Search.searchStackOverflow.
  match goal with
  | |- context [stackSearch net ?q ?t ?k] => destruct (F q t k) as (e & ->)
  end. reflexivity.
Qed.

Lemma searchSnippet_silent (cfg : Config) (net : Net) (file : CodeFile)
    (options : Options) (unit : string) :
  gitHubSilent net options -> stackOverflowSilent net options ->
  webSilent cfg net options ->
  searchSnippet cfg net file options unit = [].
Proof.
  intros G S W. unfold searchSnippet.
  assert (Eg : (if searchGitHub options
                then pushed (githubMatches <- searchCode cfg net unit (language file) ;;
                             Ok (map (tagGithub unit) githubMatches))
                else []) = []).
  { destruct G as [-> | F]; [reflexivity|].
    destruct (searchGitHub options); [|reflexivity].
    rewrite (search_code_fails cfg net unit (language file) F). reflexivity. }
  assert (Es : (if searchStackOverflow options
                then pushed (stackOverflowMatches <-
                               Search.searchStackOverflow cfg net unit (language file) ;;
                             Ok (map (tagStackOverflow unit) stackOverflowMatches))
                else []) = []).
  { destruct S as [-> | F]; [reflexivity|].
    destruct (searchStackOverflow options); [|reflexivity].
    rewrite (search_stack_silent cfg net unit (language file) F). reflexivity. }
  assert (Ew : (if searchWeb options
                then pushed (webMatches <- Search.searchWeb cfg net unit (language file) ;;
                             Ok (map (tagWeb unit) webMatches))
                else []) = []).
  { destruct W as [-> | F]; [reflexivity|].
    destruct (searchWeb options); [|reflexivity].
    rewrite (search_web_silent cfg net unit (language file) F). reflexivity. }
  rewrite Eg, Es, Ew. reflexivity.
Qed.

(** X6. A file of which no snippet is extracted, or for which each of the
    three searches is switched off or fails, has no match, the
    plagiarism score 0 and no error. *)
Theorem no_evidence_no_match
    (cfg : Config) (net : Net) (gemini : Gemini) (file : CodeFile)
    (options : Options) (s : string) (r : FileResult) :
  content file = Text s ->
  extractSearchSnippets s = []
  \/ (gitHubSilent net options /\ stackOverflowSilent net options
      /\ webSilent cfg net options) ->
  analyzeFile cfg net gemini file options = Ok r ->
  matches r = [] /\ plagiarismScore r = 0 /\ error r = None.
Proof.
  intros C H E. destruct (analyzeFile_text _ _ _ _ _ C E) as (M & P & _ & Er).
  assert (Z : collectMatches cfg net file options (extractSearchSnippets s) = []).
  { destruct H as [-> | (G & S & W)]; [reflexivity|].
    unfold collectMatches. generalize (extractSearchSnippets s) as units.
    induction units as [|u t IH]; [reflexivity|].
    simpl. rewrite IH, (searchSnippet_silent file u G S W). reflexivity. }
  rewrite Z in M, P. simpl in M, P. auto.
Qed.

(** With every service down, [Examples.fileA] has no match and no
    error. *)
Lemma no_evidence_no_match_witness :
  exists r,
    analyzeFile Examples.cfgWeb Examples.netDown None Examples.fileA defaultOptions = Ok r
    /\ matches r = [] /\ plagiarismScore r = 0 /\ error r = None.
Proof.
  eexists.
  assert (E : analyzeFile Examples.cfgWeb Examples.netDown None Examples.fileA defaultOptions
              = Ok _) by (vm_compute; reflexivity).
  assert (G : gitHubSilent Examples.netDown defaultOptions)
    by (right; intros auth q; eexists; reflexivity).
  assert (S : stackOverflowSilent Examples.netDown defaultOptions)
    by (right; intros q tagged key; eexists; reflexivity).
  assert (W : webSilent Examples.cfgWeb Examples.netDown defaultOptions)
    by (right; right; intros key q; eexists; reflexivity).
  split; [exact E|].
  exact (@no_evidence_no_match Examples.cfgWeb Examples.netDown None Examples.fileA
           defaultOptions Examples.twoLines _ eq_refl
           (or_intror (conj G (conj S W))) E).
Defined.

(** ** Risk tiers *)

(** X7. A greater similarity never has a lower tier. *)
Theorem getRiskLevel_monotone (s1 s2 : Q) :
  s1 <= s2 -> (Report.rank (getRiskLevel s1) <= Report.rank (getRiskLevel s2))%nat.
Proof.
  intros L. unfold getRiskLevel.
  destruct (geb s1 0.9) eqn:A1; [apply geb_ge in A1 | apply geb_lt in A1];
  (destruct (geb s1 0.7) eqn:B1; [apply geb_ge in B1 | apply geb_lt in B1]);
  (destruct (geb s1 0.5) eqn:C1; [apply geb_ge in C1 | apply geb_lt in C1]);
  (destruct (geb s1 0.3) eqn:D1; [apply geb_ge in D1 | apply geb_lt in D1]);
  (destruct (geb s2 0.9) eqn:A2; [apply geb_ge in A2 | apply geb_lt in A2]);
  (destruct (geb s2 0.7) eqn:B2; [apply geb_ge in B2 | apply geb_lt in B2]);
  (destruct (geb s2 0.5) eqn:C2; [apply geb_ge in C2 | apply geb_lt in C2]);
  (destruct (geb s2 0.3) eqn:D2; [apply geb_ge in D2 | apply geb_lt in D2]);
  simpl; try lia; exfalso; lra.
Qed.

Lemma getRiskLevel_monotone_witness :
  0.5 <= 0.75
  /\ (Report.rank (getRiskLevel 0.5) <= Report.rank (getRiskLevel 0.75))%nat.
Proof.
  assert (L : 0.5 <= 0.75) by (vm_compute; discriminate).
  split; [exact L | exact (getRiskLevel_monotone L)].
Defined.

(** ** The heuristics of the AI detection *)

Lemma splitLinesChars_nonempty (l : list ascii) : splitLinesChars l <> [].
Proof.
  induction l as [|c t IH]; simpl; [discriminate|].
  destruct (code c =? 10)%nat; [discriminate|].
  destruct (splitLinesChars t); discriminate.
Qed.

Lemma splitLines_length (s : string) : (1 <= List.length (splitLines s))%nat.
Proof.
  unfold splitLines. rewrite length_map.
  pose proof (splitLinesChars_nonempty (chars s)) as N.
  destruct (splitLinesChars (chars s)); [congruence | simpl; lia].
Qed.

Lemma count_le_length {A} (p : A -> bool) (l : list A) :
  (count p l <= List.length l)%nat.
Proof.
  unfold count. induction l as [|x t IH]; simpl; [lia|].
  destruct (p x); simpl; lia.
Qed.

Lemma ratio_range (c n : nat) :
  (c <= n)%nat -> 0 <= Num.natQ c / Num.natQ n <= 1.
Proof.
  intros H. destruct n as [|n].
  - replace c with 0%nat by lia. vm_compute. split; discriminate.
  - assert (P : 0 < Num.natQ (S n)) by (apply natQ_pos; lia). split.
    + apply Qle_shift_div_l; [exact P|]. rewrite Qmult_0_l. apply natQ_nonneg.
    + apply Qle_shift_div_r; [exact P|]. rewrite Qmult_1_l. apply natQ_le. exact H.
Qed.

Ltac split_ifs :=
  repeat match goal with
         | |- context [if ?b then _ else _] => destruct b
         end.

Lemma analyzeFormatting_range (code : string) : 0 <= analyzeFormatting code <= 1.
Proof.
  unfold analyzeFormatting. cbv zeta. apply Qmin_unit.
  pose proof (splitLines_length code) as L.
  assert (P : 0 < Num.natQ (List.length (splitLines code))) by (apply natQ_pos; lia).
  revert P. generalize (Num.natQ (List.length (splitLines code))) as T. intros T P.
  apply Qle_shift_div_l; [exact P|]. split_ifs; lra.
Qed.

Lemma analyzeVariableNames_range (code : string) : 0 <= analyzeVariableNames code <= 1.
Proof.
  unfold analyzeVariableNames. cbv zeta.
  destruct (execAll variableRegex code) as [|m ms] eqn:E; [lra|].
  apply ratio_range, count_le_length.
Qed.

Lemma analyzeOverEngineering_range (code : string) : 0 <= analyzeOverEngineering code <= 1.
Proof.
  unfold analyzeOverEngineering. cbv zeta. apply Qmin_unit. split_ifs; lra.
Qed.

Lemma analyzePersonalStyle_range (code : string) : 0 <= analyzePersonalStyle code <= 1.
Proof.
  unfold analyzePersonalStyle. cbv zeta. apply Qmin_unit. split_ifs; lra.
Qed.

(** X8. Each of the five measures that [analyzeAIPatterns] combines is
    within [0,1], for every text and language. *)
Theorem heuristic_scores_range (code language : string) :
  0 <= calculateCommentRatio code language <= 1
  /\ 0 <= analyzeFormatting code <= 1
  /\ 0 <= analyzeVariableNames code <= 1
  /\ 0 <= analyzeOverEngineering code <= 1
  /\ 0 <= analyzePersonalStyle code <= 1.
Proof.
  split; [|split; [|split; [|split]]].
  - apply ratio_range, count_le_length.
  - apply analyzeFormatting_range.
  - apply analyzeVariableNames_range.
  - apply analyzeOverEngineering_range.
  - apply analyzePersonalStyle_range.
Qed.

(** ** The verdict without the model *)

Lemma openai_silent (gemini : Gemini) (code language : string) :
  modelSilent gemini -> oa_aiProbability (openaiAnalysis gemini code language) = 0.
Proof.
  unfold modelSilent, openaiAnalysis. destruct gemini as [generateContent|]; [|reflexivity].
  intros S. destruct (S language (String.substring 0 2000 code)) as (e & ->). reflexivity.
Qed.

(** X9. When the model is not configured or its call fails, the
    opinion of the model counts for exactly 0 in the weighted sum, and
    the AI probability is within [0,1]. *)
Theorem aiProbability_without_model
    (gemini : Gemini) (c : Content) (language : option string) :
  modelSilent gemini ->
  0 <= aiProbability (detectAIGeneratedCode gemini c language) <= 1
  /\ forall a, analysis (detectAIGeneratedCode gemini c language) = Some a ->
               oa_aiProbability (openai a) = 0.
Proof.
  intros S. unfold detectAIGeneratedCode. destruct c as [|n|code];
    cbn [aiProbability analysis]; try (split; [lra | discriminate]).
  set (lang := match language with Some l => l | None => "javascript" end).
  split.
  - rewrite (@openai_silent gemini code lang S).
    pose proof (pattern_score_range code lang) as P.
    pose proof (statistical_score_range code) as T.
    unfold weighted. rewrite !orZero_eq. lra.
  - intros a A. injection A as <-. cbn [openai]. apply openai_silent. exact S.
Qed.

Lemma aiProbability_without_model_witness :
  modelSilent Cases.geminiDown
  /\ 0 <= aiProbability (detectAIGeneratedCode Cases.geminiDown (Text Examples.twoLines)
                                               (Some "javascript")) <= 1.
Proof.
  assert (S : modelSilent Cases.geminiDown).
  { intros language excerpt. eexists. reflexivity. }
  split; [exact S|].
  exact (proj1 (@aiProbability_without_model Cases.geminiDown (Text Examples.twoLines)
                  (Some "javascript") S)).
Defined.

(** X10. The confidence of the verdict is within [0,1] for every input,
    whatever the model answers. *)
Theorem confidence_range (gemini : Gemini) (c : Content) (language : option string) :
  0 <= confidence (detectAIGeneratedCode gemini c language) <= 1.
Proof.
  unfold detectAIGeneratedCode. destruct c as [|n|code]; cbn [confidence]; try lra.
  unfold calculateConfidence. cbn [pattern openai statistical].
  set (lang := match language with Some l => l | None => "javascript" end).
  generalize (analyzeAIPatterns code lang) as p.
  generalize (openaiAnalysis gemini code lang) as o.
  generalize (statisticalAnalysis code) as st. intros st o p.
  pose proof (natQ_nonneg (totalPatterns p)) as N.
  cbv zeta.
  destruct (0 <? totalPatterns p)%nat; destruct (gtb (oa_aiProbability o) 0);
    destruct (gtb (st_aiScore st) 0); cbn [fst snd Nat.ltb Nat.leb]; try lra;
    apply Qmin_unit; (apply Qle_shift_div_l; [apply natQ_pos; lia | lra]).
Qed.

(** ** Scoring search results against a source code *)

Lemma scoreCandidate_kept (sourceCode : string) (r : Snippets.Candidate)
    (e : Snippets.Scored) :
  In e (Snippets.scoreCandidate sourceCode r) ->
  Snippets.scored_similarity e = calculateSimilarity sourceCode (Snippets.scored_snippet e)
  /\ 0.3 < Snippets.scored_similarity e
  /\ Snippets.scored_snippet e <> ""
  /\ Snippets.cand_snippet r = Some (Snippets.scored_snippet e)
  /\ Snippets.cand_source r = Snippets.scored_source e
  /\ Snippets.cand_title r = Snippets.scored_title e
  /\ Snippets.cand_link r = Snippets.scored_link e.
Proof.
  unfold Snippets.scoreCandidate.
  destruct (Snippets.cand_snippet r) as [text|]; [|intros []].
  destruct (String.eqb text "") eqn:E; simpl; [intros []|].
  destruct (gtb (calculateSimilarity sourceCode text) 0.3) eqn:G; [|intros []].
  intros [<-|[]]; simpl. apply gtb_gt in G. apply String.eqb_neq in E.
  repeat split; auto.
Qed.

Lemma scoreCandidate_length (sourceCode : string) (r : Snippets.Candidate) :
  List.length (Snippets.scoreCandidate sourceCode r)
  = if qualifies sourceCode r then 1%nat else 0%nat.
Proof.
  unfold Snippets.scoreCandidate, qualifies.
  destruct (Snippets.cand_snippet r) as [text|]; [|reflexivity].
  destruct (String.eqb text ""); simpl; [reflexivity|].
  destruct (gtb (calculateSimilarity sourceCode text) 0.3); reflexivity.
Qed.

(** X11. [analyzeCodeSimilarity] scores the text of each search result
    against the source code: the list it returns is in descending
    order of similarity; every entry carries the similarity of the
    source code with the entry's own snippet, which is above 0.3 and at
    most 1, and repeats the source, title and link of a search result
    with that snippet; and there is one entry for each search result
    whose snippet is not empty and scores above 0.3. *)
Theorem analyzeCodeSimilarity_ranked (sourceCode : string)
    (searchResults : list Snippets.Candidate) :
  let ranked := Snippets.analyzeCodeSimilarity sourceCode searchResults in
  StronglySorted (descending Snippets.scored_similarity) ranked
  /\ Forall (fun e =>
       Snippets.scored_similarity e
       = calculateSimilarity sourceCode (Snippets.scored_snippet e)
       /\ 0.3 < Snippets.scored_similarity e <= 1
       /\ Snippets.scored_snippet e <> ""
       /\ exists r, In r searchResults
            /\ Snippets.cand_snippet r = Some (Snippets.scored_snippet e)
            /\ Snippets.cand_source r = Snippets.scored_source e
            /\ Snippets.cand_title r = Snippets.scored_title e
            /\ Snippets.cand_link r = Snippets.scored_link e) ranked
  /\ List.length ranked = count (qualifies sourceCode) searchResults.
Proof.
  cbv zeta. unfold Snippets.analyzeCodeSimilarity.
  split; [apply sortDesc_sorted|]. split.
  - eapply Permutation_Forall; [apply sortDesc_perm|].
    apply Forall_forall. intros e He. apply in_flat_map in He.
    destruct He as (r & Hr & He).
    destruct (scoreCandidate_kept _ _ _ He) as (S1 & S2 & S3 & S4 & S5 & S6 & S7).
    split; [exact S1|]. split.
    + split; [exact S2|]. rewrite S1. apply similarity_range.
    + split; [exact S3|]. exists r. auto.
  - rewrite <- (Permutation_length (sortDesc_perm Snippets.scored_similarity _)).
    unfold count. induction searchResults as [|r t IH]; [reflexivity|].
    simpl. rewrite length_app, scoreCandidate_length, IH.
    destruct (qualifies sourceCode r); reflexivity.
Qed.

(** ** The combined search and the batch search *)

(** X12. [searchCodeSnippets] returns the results of the Stack Overflow
    search followed by those of the web search, each search having
    returned without an exception; no result comes from GitHub. *)
Theorem searchCodeSnippets_sources (cfg : Config) (net : Net)
    (codeSnippet : string) (language : option string) :
  exists stack web,
    Search.searchStackOverflow cfg net codeSnippet language = Ok stack
    /\ Search.searchWeb cfg net codeSnippet language = Ok web
    /\ Snippets.searchCodeSnippets cfg net codeSnippet language
       = (map Snippets.ofStack stack ++ map Snippets.ofWeb web)%list
    /\ Forall (fun c => Snippets.cand_source c = "stackoverflow"
                        \/ Snippets.cand_source c = "web")
              (Snippets.searchCodeSnippets cfg net codeSnippet language).
Proof.
  assert (Hs : exists stack,
             Search.searchStackOverflow cfg net codeSnippet language = Ok stack).
  { unfold Search.searchStackOverflow. apply tryCatch_empty_returns. }
  destruct Hs as (stack & Hs).
  assert (Hw : exists web, Search.searchWeb cfg net codeSnippet language = Ok web).
  { unfold Search.searchWeb. apply tryCatch_empty_returns. }
  destruct Hw as (web & Hw).
  exists stack, web. split; [exact Hs|]. split; [exact Hw|].
  assert (E : Snippets.searchCodeSnippets cfg net codeSnippet language
              = (map Snippets.ofStack stack ++ map Snippets.ofWeb web)%list).
  { unfold Snippets.searchCodeSnippets. rewrite Hs, Hw. reflexivity. }
  split; [exact E|]. rewrite E. apply Forall_app. split; apply Forall_map, Forall_forall; auto.
Qed.

Lemma extractSearchSnippets_length (code : string) :
  (List.length (extractSearchSnippets code) <= 10)%nat.
Proof. unfold extractSearchSnippets. cbv zeta. apply firstn_le_length. Qed.

(** X13. [batchSearch] is all or nothing.  When every file has a text as
    its content it returns one entry per snippet of each file, in the
    order of the files and of their snippets, at most ten per file,
    each entry holding the results of [searchCodeSnippets] for its
    snippet and the language of its file.  When one file has no text it
    throws, and nothing is returned for the other files either. *)
Theorem batchSearch_outcome (cfg : Config) (net : Net) (codeFiles : list CodeFile) :
  match Snippets.batchSearch cfg net codeFiles with
  | Ok out =>
      forallb hasText codeFiles = true
      /\ map (fun b => (Snippets.batch_filename b, Snippets.batch_snippet b)) out
         = flat_map queriesOf codeFiles
      /\ (List.length out <= 10 * List.length codeFiles)%nat
      /\ Forall (fun b => exists file,
                   In file codeFiles
                   /\ Snippets.batch_filename b = filename file
                   /\ Snippets.batch_results b
                      = Snippets.searchCodeSnippets cfg net (Snippets.batch_snippet b)
                                                    (language file)) out
  | Throw _ => forallb hasText codeFiles = false
  end.
Proof.
  induction codeFiles as [|file rest IH].
  - simpl. repeat split; auto.
  - cbn [Snippets.batchSearch forallb flat_map].
    change (hasText file) with (match content file with Text _ => true | _ => false end).
    change (queriesOf file)
      with (match content file with
            | Text s => map (pair (filename file)) (extractSearchSnippets s)
            | _ => []
            end).
    destruct (content file) as [|n|s]; cbn [Snippets.snippetsFor bind]; try reflexivity.
    destruct (Snippets.batchSearch cfg net rest) as [others|e]; cbn [bind].
    + destruct IH as (T & M & L & F). split; [exact T|]. split; [|split].
      * rewrite map_app, map_map, M. reflexivity.
      * rewrite length_app, length_map.
        pose proof (extractSearchSnippets_length s). cbn [List.length]. lia.
      * apply Forall_app. split.
        -- apply Forall_map, Forall_forall. intros snippet _. exists file.
           simpl. auto.
        -- eapply Forall_impl; [|exact F]. intros b (f & Hf & Hb). exists f.
           split; [right; exact Hf | exact Hb].
    + exact IH.
Qed.

(** ** Code files and their languages *)

(** X14. The GitHub service takes a file for a code file exactly when it
    finds a language other than ["unknown"] for it: every entry of the
    list of extensions has a language in the table, and conversely. *)
Theorem isCodeFile_language (filename : string) :
  Github.isCodeFile filename
  = match Github.getLanguageFromExtension filename with
    | Github.Named language => negb (String.eqb language "unknown")
    | Github.Inherited _ => false
    end.
Proof.
  unfold Github.isCodeFile, Github.getLanguageFromExtension, Github.lookupOr.
  generalize (Github.extensionOf filename) as ext. intros ext.
  unfold Github.codeExtensions, Github.languageMap.
  cbn [existsb Github.assoc].
  repeat match goal with
         | |- context [String.eqb ext ?k] =>
             destruct (String.eqb ext k) eqn:?; cbn [orb]; try reflexivity
         end.
Qed.

(** ** The overall risk of a report *)

(** X15. The overall risk of a report is coloured as its weighted score
    0.7 * plagiarism + 0.3 * AI is on the scale of the per-file scores,
    and it never goes down when both scores go up. *)
Theorem overall_risk_scale (s : Summary.t) :
  Report.getRiskColor (Report.calculateOverallRisk s)
  = Report.getScoreColor (Summary.plagiarismScore s * 0.7
                          + Summary.aiGeneratedScore s * 0.3)
  /\ forall s' : Summary.t,
       Summary.plagiarismScore s <= Summary.plagiarismScore s' ->
       Summary.aiGeneratedScore s <= Summary.aiGeneratedScore s' ->
       (Report.rank (Report.calculateOverallRisk s)
        <= Report.rank (Report.calculateOverallRisk s'))%nat.
Proof.
  split.
  - unfold Report.calculateOverallRisk, Report.getScoreColor. cbv zeta.
    split_ifs; reflexivity.
  - intros s' P A. unfold Report.calculateOverallRisk. cbv zeta.
    set (x := Summary.plagiarismScore s * 0.7 + Summary.aiGeneratedScore s * 0.3).
    set (y := Summary.plagiarismScore s' * 0.7 + Summary.aiGeneratedScore s' * 0.3).
    assert (L : x <= y) by (unfold x, y; lra).
    clearbody x y.
    destruct (geb x 0.8) eqn:A1; [apply geb_ge in A1 | apply geb_lt in A1];
    (destruct (geb x 0.6) eqn:B1; [apply geb_ge in B1 | apply geb_lt in B1]);
    (destruct (geb x 0.4) eqn:C1; [apply geb_ge in C1 | apply geb_lt in C1]);
    (destruct (geb x 0.2) eqn:D1; [apply geb_ge in D1 | apply geb_lt in D1]);
    (destruct (geb y 0.8) eqn:A2; [apply geb_ge in A2 | apply geb_lt in A2]);
    (destruct (geb y 0.6) eqn:B2; [apply geb_ge in B2 | apply geb_lt in B2]);
    (destruct (geb y 0.4) eqn:C2; [apply geb_ge in C2 | apply geb_lt in C2]);
    (destruct (geb y 0.2) eqn:D2; [apply geb_ge in D2 | apply geb_lt in D2]);
    simpl; try lia; exfalso; lra.
Qed.

Lemma overall_risk_scale_witness :
  Summary.plagiarismScore Cases.calm <= Summary.plagiarismScore Cases.alarming
  /\ Summary.aiGeneratedScore Cases.calm <= Summary.aiGeneratedScore Cases.alarming
  /\ (Report.rank (Report.calculateOverallRisk Cases.calm)
      <= Report.rank (Report.calculateOverallRisk Cases.alarming))%nat.
Proof.
  assert (P : Summary.plagiarismScore Cases.calm
              <= Summary.plagiarismScore Cases.alarming) by (simpl; lra).
  assert (A : Summary.aiGeneratedScore Cases.calm
              <= Summary.aiGeneratedScore Cases.alarming) by (simpl; lra).
  exact (conj P (conj A (proj2 (overall_risk_scale Cases.calm) Cases.alarming P A))).
Defined.

(** ** Sanitised file names *)

Lemma chars_ofChars (l : list ascii) : chars (ofChars l) = l.
Proof. apply list_ascii_of_string_of_list_ascii. Qed.

Lemma length_ofChars (l : list ascii) : String.length (ofChars l) = List.length l.
Proof. induction l as [|c t IH]; simpl; [reflexivity | rewrite IH; reflexivity]. Qed.

Lemma replaceForbidden_allowed (l : list ascii) :
  Forall (fun c => oneOf FileProcessor.forbidden c = false)
         (FileProcessor.replaceForbidden l).
Proof.
  unfold FileProcessor.replaceForbidden. apply Forall_map, Forall_forall.
  intros c _. destruct (oneOf FileProcessor.forbidden c) eqn:E; [reflexivity | exact E].
Qed.

Lemma underscoreRuns_clean (inRun : bool) (l : list ascii) :
  Forall (fun c => oneOf FileProcessor.forbidden c = false) l ->
  Forall (fun c => clean c = true) (FileProcessor.underscoreRuns inRun l).
Proof.
  intros H. revert inRun. induction H as [|c t Hc Ht IH]; intros inRun; simpl.
  - constructor.
  - destruct (isSpace c) eqn:S.
    + destruct inRun; [apply IH|]. constructor; [reflexivity | apply IH].
    + constructor; [|apply IH]. unfold clean. rewrite Hc, S. reflexivity.
Qed.

Lemma clean_fixed (l : list ascii) :
  Forall (fun c => clean c = true) l ->
  FileProcessor.replaceForbidden l = l
  /\ forall inRun, FileProcessor.underscoreRuns inRun l = l.
Proof.
  induction 1 as [|c t Hc Ht (IH1 & IH2)]; [split; reflexivity|].
  unfold clean in Hc. apply andb_true_iff in Hc. destruct Hc as (F & S).
  apply negb_true_iff in F. apply negb_true_iff in S. split.
  - unfold FileProcessor.replaceForbidden in *. cbn [map].
    rewrite F, IH1. reflexivity.
  - intros inRun. cbn [FileProcessor.underscoreRuns]. rewrite S, IH2. reflexivity.
Qed.

Lemma firstn_keeps {A} (ok : A -> Prop) (n : nat) (l : list A) :
  Forall ok l -> Forall ok (firstn n l).
Proof.
  intros H. revert n. induction H as [|x t Hx Ht IH]; intros [|n]; simpl;
    constructor; auto.
Qed.

(** X16. A sanitised file name has at most 255 characters, none of which is
    white space or one of the characters the function replaces, and
    sanitising it again changes nothing. *)
Theorem sanitizeFilename_safe (filename : string) :
  let name := FileProcessor.sanitizeFilename filename in
  (String.length name <= 255)%nat
  /\ Forall (fun c => oneOf FileProcessor.forbidden c = false /\ isSpace c = false)
            (chars name)
  /\ FileProcessor.sanitizeFilename name = name.
Proof.
  cbv zeta. unfold FileProcessor.sanitizeFilename.
  set (l := FileProcessor.underscoreRuns false
              (FileProcessor.replaceForbidden (chars filename))).
  assert (C : Forall (fun c => clean c = true) (firstn 255 l)).
  { apply firstn_keeps. apply underscoreRuns_clean, replaceForbidden_allowed. }
  assert (L : (List.length (firstn 255 l) <= 255)%nat) by apply firstn_le_length.
  split; [rewrite length_ofChars; exact L|]. rewrite chars_ofChars. split.
  - eapply Forall_impl; [|exact C]. intros c Hc. unfold clean in Hc.
    apply andb_true_iff in Hc. destruct Hc as (F & S).
    apply negb_true_iff in F. apply negb_true_iff in S. auto.
  - destruct (clean_fixed C) as (R & U). rewrite R, U.
    rewrite firstn_all2 by exact L. reflexivity.
Qed.

(** ** The metrics of a file *)

Lemma countLine_counts (n : nat) (m : FileProcessor.Metrics) (line : string) :
  let m' := FileProcessor.countLine m line in
  (FileProcessor.blankLines m + FileProcessor.commentLines m
   + FileProcessor.codeLines m = n)%nat
  /\ (FileProcessor.functionCount m <= FileProcessor.codeLines m)%nat
  /\ (FileProcessor.classCount m <= FileProcessor.codeLines m)%nat
  /\ (FileProcessor.variableCount m <= FileProcessor.codeLines m)%nat
  /\ (FileProcessor.complexity m <= FileProcessor.codeLines m)%nat ->
  FileProcessor.totalLines m' = FileProcessor.totalLines m
  /\ (FileProcessor.blankLines m' + FileProcessor.commentLines m'
      + FileProcessor.codeLines m' = S n)%nat
  /\ (FileProcessor.functionCount m' <= FileProcessor.codeLines m')%nat
  /\ (FileProcessor.classCount m' <= FileProcessor.codeLines m')%nat
  /\ (FileProcessor.variableCount m' <= FileProcessor.codeLines m')%nat
  /\ (FileProcessor.complexity m' <= FileProcessor.codeLines m')%nat.
Proof.
  cbv zeta. intros (S0 & F & C & V & X). unfold FileProcessor.countLine. cbv zeta.
  destruct (String.eqb (trim line) ""); [simpl; repeat split; lia|].
  match goal with
  | |- context [if ?b then _ else _] => destruct b
  end; [simpl; repeat split; lia|].
  cbn [FileProcessor.totalLines FileProcessor.codeLines FileProcessor.commentLines
       FileProcessor.blankLines FileProcessor.functionCount FileProcessor.classCount
       FileProcessor.variableCount FileProcessor.complexity].
  unfold FileProcessor.bump.
  repeat split; try lia;
    match goal with
    | |- context [if ?b then _ else _] => destruct b; lia
    end.
Qed.

(** X17. [calculateCodeMetrics] puts every line of the content in exactly
    one of three classes: the blank, comment and code lines add up to
    the number of lines, which is at least one; and the functions,
    classes, variables and branching constructs it counts are counted
    on code lines only, at most one of each per line. *)
Theorem calculateCodeMetrics_partition (content : string) :
  let m := FileProcessor.calculateCodeMetrics content in
  FileProcessor.totalLines m = List.length (splitLines content)
  /\ (1 <= FileProcessor.totalLines m)%nat
  /\ (FileProcessor.blankLines m + FileProcessor.commentLines m
      + FileProcessor.codeLines m = FileProcessor.totalLines m)%nat
  /\ (FileProcessor.functionCount m <= FileProcessor.codeLines m)%nat
  /\ (FileProcessor.classCount m <= FileProcessor.codeLines m)%nat
  /\ (FileProcessor.variableCount m <= FileProcessor.codeLines m)%nat
  /\ (FileProcessor.complexity m <= FileProcessor.codeLines m)%nat.
Proof.
  cbv zeta. unfold FileProcessor.calculateCodeMetrics. cbv zeta.
  pose proof (splitLines_length content) as L1.
  set (total := List.length (splitLines content)) in *.
  assert (G : forall (lines : list string) (m : FileProcessor.Metrics) (n : nat),
             (FileProcessor.blankLines m + FileProcessor.commentLines m
              + FileProcessor.codeLines m = n)%nat
             /\ (FileProcessor.functionCount m <= FileProcessor.codeLines m)%nat
             /\ (FileProcessor.classCount m <= FileProcessor.codeLines m)%nat
             /\ (FileProcessor.variableCount m <= FileProcessor.codeLines m)%nat
             /\ (FileProcessor.complexity m <= FileProcessor.codeLines m)%nat ->
             let m' := fold_left FileProcessor.countLine lines m in
             FileProcessor.totalLines m' = FileProcessor.totalLines m
             /\ (FileProcessor.blankLines m' + FileProcessor.commentLines m'
                 + FileProcessor.codeLines m' = n + List.length lines)%nat
             /\ (FileProcessor.functionCount m' <= FileProcessor.codeLines m')%nat
             /\ (FileProcessor.classCount m' <= FileProcessor.codeLines m')%nat
             /\ (FileProcessor.variableCount m' <= FileProcessor.codeLines m')%nat
             /\ (FileProcessor.complexity m' <= FileProcessor.codeLines m')%nat).
  { induction lines as [|line rest IH]; intros m n H; cbv zeta.
    - simpl. destruct H as (S0 & H). split; [reflexivity|]. split; [lia | exact H].
    - simpl. destruct (@countLine_counts n m line H) as (T & H').
      destruct (IH _ (S n) H') as (T' & S' & R). cbv zeta in T', S', R.
      split; [rewrite T'; exact T|]. split; [lia | exact R]. }
  destruct (G (splitLines content)
              {| FileProcessor.totalLines := total;
                 FileProcessor.codeLines := 0;
                 FileProcessor.commentLines := 0;
                 FileProcessor.blankLines := 0;
                 FileProcessor.functionCount := 0;
                 FileProcessor.classCount := 0;
                 FileProcessor.variableCount := 0;
                 FileProcessor.complexity := 0 |} 0%nat) as (T & S0 & R).
  { simpl. repeat split; lia. }
  cbv zeta in T, S0, R. simpl in T. fold total in S0.
  rewrite T. split; [reflexivity|]. split; [exact L1|]. split; [lia | exact R].
Qed.

(** ** The route for one file *)


(** ** Extraction from a GitHub repository *)

Lemma dropPrefix_split (p s t : list ascii) :
  dropPrefix p s = Some t -> s = (p ++ t)%list.
Proof.
  revert s. induction p as [|a p IH]; intros s H; simpl in H.
  - injection H as ->. reflexivity.
  - destruct s as [|b s]; [discriminate|].
    destruct (Ascii.eqb a b) eqn:E; [|discriminate].
    apply Ascii.eqb_eq in E. subst b. simpl. f_equal. apply IH. exact H.
Qed.

Lemma starGreedy_calls (p : ascii -> bool) (k : cont) (s x : list ascii) :
  starGreedy p k s = Some x -> exists pre t, s = (pre ++ t)%list /\ k t = Some x.
Proof.
  induction s as [|c t IH]; simpl; intros H.
  - exists [], []. auto.
  - destruct (p c); [|exists [], (c :: t); auto].
    destruct (starGreedy p k t) as [r|] eqn:E.
    + injection H as ->. destruct (IH eq_refl) as (pre & u & -> & K).
      exists (c :: pre), u. auto.
    + exists [], (c :: t). auto.
Qed.

Lemma hasChar_In (sep : ascii) (l : list ascii) : hasChar sep l = true <-> In sep l.
Proof.
  unfold hasChar. rewrite existsb_exists. split.
  - intros (c & Hc & E). apply Ascii.eqb_eq in E. subst c. exact Hc.
  - intros H. exists sep. split; [exact H | apply Ascii.eqb_refl].
Qed.


Lemma splitOn_shape (sep : ascii) (l : list ascii) :
  match Github.splitOn sep l with
  | [] => False
  | [_] => hasChar sep l = false
  | _ :: _ :: _ => hasChar sep l = true
  end.
Proof.
  induction l as [|c t IH]; [reflexivity|].
  cbn [Github.splitOn hasChar existsb]. fold (hasChar sep t).
  destruct (Ascii.eqb c sep); cbn [orb].
  - destruct (Github.splitOn sep t); [destruct IH | reflexivity].
  - destruct (Github.splitOn sep t) as [|h [|h2 r]]; [destruct IH | exact IH | exact IH].
Qed.

Lemma parseUrl_outcome (githubUrl : string) :
  match Github.parseUrl githubUrl with
  | Ok _ => hasChar "/" (stripped githubUrl) = true
  | Throw _ => hasChar "/" (stripped githubUrl) = false
  end.
Proof.
  unfold Github.parseUrl. cbv zeta. fold (stripped githubUrl).
  pose proof (splitOn_shape "/" (stripped githubUrl)) as S.
  destruct (Github.splitOn "/" (stripped githubUrl)) as [|h [|h2 r]];
    [destruct S | exact S | exact S].
Qed.

Lemma extractFile_entry (remote : Github.Remote) (owner repo : string)
    (file : string * string) :
  Github.extractFile remote owner repo file
  = if fetched remote owner repo file
    then [{| Github.e_filename := fst file;
             Github.e_path := snd file;
             Github.e_content :=
               match Github.getFileContent remote owner repo (snd file) with
               | Some content => content
               | None => ""
               end;
             Github.e_size :=
               String.length
                 match Github.getFileContent remote owner repo (snd file) with
                 | Some content => content
                 | None => ""
                 end;
             Github.e_language := Github.getLanguageFromExtension (fst file) |}]
    else [].
Proof.
  unfold Github.extractFile, fetched.
  destruct (Github.getFileContent remote owner repo (snd file)) as [content|];
    reflexivity.
Qed.

Lemma isCodeFile_named (filename : string) :
  Github.isCodeFile filename = true ->
  exists language,
    Github.getLanguageFromExtension filename = Github.Named language
    /\ String.eqb language "unknown" = false.
Proof.
  unfold Github.isCodeFile, Github.getLanguageFromExtension, Github.lookupOr.
  generalize (Github.extensionOf filename) as ext. intros ext.
  unfold Github.codeExtensions, Github.languageMap.
  cbn [existsb Github.assoc].
  repeat match goal with
         | |- context [String.eqb ext ?k] =>
             destruct (String.eqb ext k) eqn:?; cbn [orb];
             try (intros _; eexists; split; reflexivity)
         end.
  all: discriminate.
Qed.

(** X19. [extractFromGitHub] throws exactly when the address, after the
    first ["https://github.com/"] and the first [".git"] are removed,
    holds no slash.  Otherwise it returns, also when requests to GitHub
    fail: the files it returns are the files of the listing that are
    code files and whose content could be fetched and is not empty, in
    the order of the listing; each has a language other than
    ["unknown"], and its size is the length of its content. *)
Theorem extractFromGitHub_outcome (remote : Github.Remote) (githubUrl : string) :
  match Github.extractFromGitHub remote githubUrl with
  | Throw _ => hasChar "/" (stripped githubUrl) = false
  | Ok extractedCode =>
      hasChar "/" (stripped githubUrl) = true
      /\ (exists owner repo,
            Github.parseUrl githubUrl = Ok (owner, repo)
            /\ map (fun e => (Github.e_filename e, Github.e_path e)) extractedCode
               = filter (fun file => Github.isCodeFile (fst file)
                                     && fetched remote owner repo file)
                   (Github.getRepositoryContents (Github.rootContents remote owner repo))
            /\ Forall (fun e =>
                 Github.getFileContent remote owner repo (Github.e_path e)
                 = Some (Github.e_content e)) extractedCode)
      /\ Forall (fun e =>
           Github.isCodeFile (Github.e_filename e) = true
           /\ String.eqb (Github.e_content e) "" = false
           /\ Github.e_size e = String.length (Github.e_content e)
           /\ exists language,
                Github.e_language e = Github.Named language
                /\ String.eqb language "unknown" = false) extractedCode
  end.
Proof.
  unfold Github.extractFromGitHub.
  pose proof (parseUrl_outcome githubUrl) as P.
  destruct (Github.parseUrl githubUrl) as [[owner repo]|e]; [|exact P].
  cbv zeta. split; [exact P|]. split.
  - exists owner, repo. split; [reflexivity|].
    generalize (Github.getRepositoryContents (Github.rootContents remote owner repo))
      as files.
    intros files. split.
    + induction files as [|file t IH]; [reflexivity|].
      cbn [filter]. destruct (Github.isCodeFile (fst file)); cbn [andb flat_map]; [|exact IH].
      rewrite map_app, IH, extractFile_entry.
      destruct (fetched remote owner repo file); [|reflexivity].
      destruct file; reflexivity.
    + apply Forall_forall. intros e He. apply in_flat_map in He.
      destruct He as (file & _ & He). unfold Github.extractFile in He.
      destruct (Github.getFileContent remote owner repo (snd file)) as [content|] eqn:G;
        [|destruct He].
      destruct (String.eqb content ""); [destruct He|].
      destruct He as [<-|[]]. simpl. exact G.
  - apply Forall_forall. intros e He. apply in_flat_map in He.
    destruct He as (file & Hf & He). apply filter_In in Hf. destruct Hf as (_ & C).
    unfold Github.extractFile in He.
    destruct (Github.getFileContent remote owner repo (snd file)) as [content|];
      [|destruct He].
    destruct (String.eqb content "") eqn:E; [destruct He|].
    destruct He as [<-|[]]. simpl.
    split; [exact C|]. split; [exact E|]. split; [reflexivity|].
    apply isCodeFile_named. exact C.
Qed.



(** ** Where the Stack Overflow results come from *)

Lemma bestAnswers_provenance (cfg : Config) (net : Net) (questions : list Question) :
  forall results out : list StackResult,
    bestAnswers cfg net questions results = Ok out ->
    exists found : list StackResult,
      out = (results ++ found)%list
      /\ (List.length found <= count answered questions)%nat
      /\ Forall (fun r => exists question,
                   In question questions /\ answered question = true
                   /\ bestAnswerOf cfg net question r) found.
Proof.
  unfold count.
  induction questions as [|q t IH]; intros results out H; simpl in H.
  - injection H as <-. exists []. rewrite app_nil_r. repeat split; auto.
  - assert (W : forall found : list StackResult,
               Forall (fun r => exists question,
                         In question t /\ answered question = true
                         /\ bestAnswerOf cfg net question r) found ->
               Forall (fun r => exists question,
                         In question (q :: t) /\ answered question = true
                         /\ bestAnswerOf cfg net question r) found).
    { intros found F. eapply Forall_impl; [|exact F].
      intros r (question & I & R). exists question. split; [right; exact I | exact R]. }
    cbn [filter]. unfold answered at 1.
    destruct (0 <? answer_count q)%nat eqn:A.
    + destruct (stackAnswers net (question_id q) (stackKey cfg)) as [items|e] eqn:S;
        [|discriminate]. cbn [bind] in H.
      destruct items as [[|answer others]|].
      * destruct (IH _ _ H) as (found & -> & L & F).
        exists found. split; [reflexivity|]. split; [simpl; lia | apply W; exact F].
      * destruct (IH _ _ H) as (found & -> & L & F).
        eexists (_ :: found). split; [rewrite <- app_assoc; reflexivity|].
        split; [simpl; lia|]. constructor; [|apply W; exact F].
        exists q. split; [left; reflexivity|]. split; [exact A|].
        exists answer, others. split; [exact S|]. simpl. repeat split.
      * destruct (IH _ _ H) as (found & -> & L & F).
        exists found. split; [reflexivity|]. split; [simpl; lia | apply W; exact F].
    + destruct (IH _ _ H) as (found & -> & L & F).
      exists found. split; [reflexivity|]. split; [exact L | apply W; exact F].
Qed.

(** X21. Every result of [searchStackOverflow] is made of a question of the
    search reply that has an answer and of the first answer in the
    reply to the request for the answers of that question: title and
    link of the question, code of the body, score and id of the answer.
    There is at most one result per answered question. *)
Theorem stackoverflow_results_provenance (cfg : Config) (net : Net)
    (query : string) (language : option string) :
  match Search.searchStackOverflow cfg net query language with
  | Ok results =>
      (List.length results <= count answered (questionsOf cfg net query language))%nat
      /\ Forall (fun r => exists question,
                   In question (questionsOf cfg net query language)
                   /\ answered question = true
                   /\ bestAnswerOf cfg net question r) results
  | Throw _ => False
  end.
Proof.
  unfold Search.searchStackOverflow, questionsOf. cbv zeta.
  destruct (stackSearch net
              (if truthy language then query ++ " [" ++ render language ++ "]" else query)
              (if truthy language then render language else "") (stackKey cfg))
    as [[questions|]|e]; cbn [bind tryCatch]; try (split; [simpl; lia | constructor]).
  destruct (bestAnswers cfg net questions []) as [out|e] eqn:B; cbn [tryCatch].
  - destruct (bestAnswers_provenance _ _ _ _ B) as (found & -> & L & F).
    simpl. split; [exact L | exact F].
  - split; [simpl; lia | constructor].
Qed.

(** ** The snippets that are searched for *)

Lemma starLazy_calls (p : ascii -> bool) (k : cont) (s x : list ascii) :
  starLazy p k s = Some x -> exists pre t, s = (pre ++ t)%list /\ k t = Some x.
Proof.
  induction s as [|c t IH]; simpl; intros H.
  - destruct (k []) eqn:K; [|discriminate]. exists [], []. rewrite K. auto.
  - destruct (k (c :: t)) eqn:K; [exists [], (c :: t); rewrite K; auto|].
    destruct (p c); [|discriminate].
    destruct (IH H) as (pre & u & -> & Ku). exists (c :: pre), u. auto.
Qed.

Lemma matchAt_calls (r : re) :
  forall (s : list ascii) (k : cont) (x : list ascii),
    matchAt r s k = Some x -> exists pre t, s = (pre ++ t)%list /\ k t = Some x.
Proof.
  induction r as [|p|l|a IHa b IHb|a IHa b IHb|p|p|a IHa|]; intros s k x H; simpl in H.
  - exists [], s. auto.
  - destruct s as [|c t]; [discriminate|]. destruct (p c); [|discriminate].
    exists [c], t. auto.
  - destruct (dropPrefix (chars l) s) as [t|] eqn:D; [|discriminate].
    apply dropPrefix_split in D. exists (chars l), t. auto.
  - destruct (IHa _ _ _ H) as (pre1 & t1 & -> & H1).
    destruct (IHb _ _ _ H1) as (pre2 & t2 & -> & H2).
    exists (pre1 ++ pre2)%list, t2. rewrite <- app_assoc. auto.
  - destruct (matchAt a s k) as [y|] eqn:E.
    + injection H as ->. apply (IHa _ _ _ E).
    + apply (IHb _ _ _ H).
  - apply starGreedy_calls in H. exact H.
  - apply starLazy_calls in H. exact H.
  - destruct (matchAt a s (fun t => Some t)); [|discriminate]. exists [], s. auto.
  - destruct s; [|discriminate]. exists [], []. auto.
Qed.

Lemma searchFrom_split (r : re) (s m rest : list ascii) :
  searchFrom r s = Some (m, rest) -> exists pre, s = (pre ++ m ++ rest)%list.
Proof.
  revert m rest.
  assert (Here : forall s m rest y,
             matchAt r s (fun t => Some t) = Some y ->
             Some (firstn (List.length s - List.length y) s, y) = Some (m, rest) ->
             s = (m ++ rest)%list).
  { intros s0 m rest y M E. apply matchAt_calls in M.
    destruct M as (pre & t & -> & K). injection K as ->.
    injection E as <- <-. rewrite length_app.
    replace (List.length pre + List.length y - List.length y)%nat
      with (List.length pre + 0)%nat by lia.
    rewrite firstn_app_2. simpl. rewrite app_nil_r. reflexivity. }
  induction s as [|c t IH]; intros m rest H; cbn [searchFrom] in H.
  - destruct (matchAt r [] (fun t => Some t)) as [y|] eqn:M; [|discriminate].
    exists []. apply (Here _ _ _ _ M H).
  - destruct (matchAt r (c :: t) (fun t => Some t)) as [y|] eqn:M.
    + exists []. apply (Here _ _ _ _ M H).
    + destruct (IH _ _ H) as (pre & ->). exists (c :: pre). reflexivity.
Qed.

Lemma execAllFrom_parts (r : re) (fuel : nat) :
  forall s m : list ascii,
    In m (execAllFrom fuel r s) ->
    m <> [] /\ exists pre post, s = (pre ++ m ++ post)%list.
Proof.
  induction fuel as [|fuel IH]; intros s m H; simpl in H; [destruct H|].
  destruct (searchFrom r s) as [[m0 rest]|] eqn:E; [|destruct H].
  destruct m0 as [|c m0]; [destruct H|].
  apply searchFrom_split in E. destruct E as (pre & ->).
  destruct H as [<-|H].
  - split; [discriminate|]. exists pre, rest. reflexivity.
  - destruct (IH _ _ H) as (N & pre' & post & ->). split; [exact N|].
    exists (pre ++ (c :: m0) ++ pre')%list, post.
    rewrite <- !app_assoc. reflexivity.
Qed.

Lemma execAll_parts (r : re) (code snippet : string) :
  In snippet (execAll r code) -> String.eqb snippet "" = false /\ partOf snippet code.
Proof.
  unfold execAll. intros H. apply in_map_iff in H. destruct H as (m & <- & H).
  apply execAllFrom_parts in H. destruct H as (N & pre & post & E). split.
  - destruct m; [congruence | reflexivity].
  - exists pre, post. rewrite chars_ofChars. exact E.
Qed.

Lemma chunksOf5_chunks (fuel : nat) :
  forall (l : list string) (chunk : string),
    In chunk (chunksOf5 fuel l) ->
    (50 < String.length chunk)%nat
    /\ exists lines, chunk = joinLines lines /\ (List.length lines <= 5)%nat
                     /\ incl lines l.
Proof.
  induction fuel as [|fuel IH]; intros l chunk H; cbn [chunksOf5] in H; [destruct H|].
  destruct l as [|x t]; [destruct H|]. cbv zeta in H.
  apply in_app_or in H. destruct H as [H|H].
  - destruct (50 <? String.length (joinLines (firstn 5 (x :: t))))%nat eqn:E;
      [|destruct H].
    destruct H as [<-|[]]. apply Nat.ltb_lt in E. split; [exact E|].
    exists (firstn 5 (x :: t)). split; [reflexivity|].
    split; [apply firstn_le_length|].
    intros y Hy. rewrite <- (firstn_skipn 5 (x :: t)). apply in_or_app. left. exact Hy.
  - destruct (IH _ _ H) as (L & lines & J & N & I). split; [exact L|].
    exists lines. split; [exact J|]. split; [exact N|].
    intros y Hy. rewrite <- (firstn_skipn 5 (x :: t)). apply in_or_app. right.
    apply I. exact Hy.
Qed.

Lemma in_firstn_in {A} (n : nat) (l : list A) (x : A) : In x (firstn n l) -> In x l.
Proof.
  intros H. rewrite <- (firstn_skipn n l). apply in_or_app. left. exact H.
Qed.

(** X22. [extractSearchSnippets] gives at most ten snippets, none of them
    empty.  Each one is a contiguous part of the code (a function or
    class definition), or, when the code has no such definition, a
    chunk longer than 50 characters made of at most five significant
    lines of the code. *)
Theorem extractSearchSnippets_sound (code : string) :
  (List.length (extractSearchSnippets code) <= 10)%nat
  /\ Forall (fun snippet =>
       String.eqb snippet "" = false
       /\ (partOf snippet code
           \/ (50 < String.length snippet)%nat /\ chunkOf snippet code))
     (extractSearchSnippets code).
Proof.
  split; [apply extractSearchSnippets_length|].
  apply Forall_forall. intros snippet H. unfold extractSearchSnippets in H.
  cbv zeta in H. apply in_firstn_in in H.
  destruct (execAll functionRegex code ++ execAll classRegex code)%list
    as [|first others] eqn:E.
  - apply chunksOf5_chunks in H. destruct H as (L & lines & J & N & I). split.
    + destruct snippet; [simpl in L; lia | reflexivity].
    + right. split; [exact L|]. exists lines. split; [exact J|]. split; [exact N|].
      apply Forall_forall. intros line Hl. apply I in Hl. apply filter_In in Hl. exact Hl.
  - rewrite <- E in H. apply in_app_or in H.
    destruct H as [H|H]; apply execAll_parts in H; destruct H as (N & P); auto.
Qed.

(** ** The file processor and the statistical analysis *)

Lemma fold_countLine (lines : list string) :
  forall m : FileProcessor.Metrics,
    let m' := fold_left FileProcessor.countLine lines m in
    FileProcessor.commentLines m'
    = (FileProcessor.commentLines m
       + count (fun line =>
                  let trimmedLine := trim line in
                  startsWith trimmedLine "//" || startsWith trimmedLine "#"
                  || startsWith trimmedLine "/*" || startsWith trimmedLine "*")
               lines)%nat
    /\ (FileProcessor.functionCount m'
        <= FileProcessor.functionCount m
           + count (fun line =>
                      test (seq [Lit "function"; plus isSpace; plus isWord;
                                 Star isSpace; Lit "("]) line
                      || test (seq [Lit "def"; plus isSpace; plus isWord;
                                    Star isSpace; Lit "("]) line)
                   lines)%nat
    /\ (FileProcessor.classCount m'
        <= FileProcessor.classCount m
           + count (test (seq [Lit "class"; plus isSpace; plus isWord])) lines)%nat
    /\ (FileProcessor.variableCount m'
        <= FileProcessor.variableCount m
           + count (test (Alt (seq [Lit "const"; plus isSpace; plus isWord])
                         (Alt (seq [Lit "let"; plus isSpace; plus isWord])
                              (seq [Lit "var"; plus isSpace; plus isWord]))))
                   lines)%nat.
Proof.
  unfold count. induction lines as [|line rest IH]; intros m; cbv zeta.
  - simpl. repeat split; lia.
  - cbn [fold_left filter].
    destruct (IH (FileProcessor.countLine m line)) as (C & F & K & V).
    cbv zeta in C, F, K, V. rewrite C. clear C IH.
    revert F K V. unfold FileProcessor.countLine. cbv zeta.
    destruct (String.eqb (trim line) "") eqn:B.
    + apply String.eqb_eq in B. rewrite B.
      change (startsWith "" "//" || startsWith "" "#" || startsWith "" "/*"
              || startsWith "" "*") with false.
      cbv iota.
      cbn [FileProcessor.commentLines FileProcessor.functionCount
           FileProcessor.classCount FileProcessor.variableCount].
      intros F K V. split; [lia|].
      repeat split;
        match goal with
        | |- context [if ?b then _ else _] => destruct b; cbn [List.length]; lia
        end.
    + destruct (startsWith (trim line) "//" || startsWith (trim line) "#"
                || startsWith (trim line) "/*" || startsWith (trim line) "*");
        cbn [FileProcessor.commentLines FileProcessor.functionCount
             FileProcessor.classCount FileProcessor.variableCount];
        unfold FileProcessor.bump; intros F K V;
        (split; [cbn [List.length]; lia|]);
        repeat split;
        match goal with
        | |- context [if ?b then _ else _] =>
            revert F K V; destruct b; cbn [List.length]; intros; lia
        end.
Qed.

Lemma calculateCodeMetrics_lines (code : string) :
  FileProcessor.totalLines (FileProcessor.calculateCodeMetrics code)
  = List.length (splitLines code).
Proof.
  unfold FileProcessor.calculateCodeMetrics. cbv zeta.
  match goal with
  | |- FileProcessor.totalLines (fold_left _ ?lines ?m0) = _ =>
      change (List.length lines) with (FileProcessor.totalLines m0) at 2;
      generalize m0; generalize lines
  end.
  induction l as [|line rest IH]; intros m; [reflexivity|].
  cbn [fold_left]. rewrite IH. unfold FileProcessor.countLine. cbv zeta.
  repeat match goal with
         | |- context [if ?b then _ else _] => destruct b
         end; reflexivity.
Qed.

(** X23. The file processor and the statistical analysis of the AI
    detection read the same lines: they agree on the number of lines
    and on the number of comment lines, and the file processor, which
    looks for definitions on code lines only, never counts more
    functions, classes or variables than the statistical analysis. *)
Theorem metrics_agree_with_statistics (code : string) :
  let m := FileProcessor.calculateCodeMetrics code in
  let stats := statisticalAnalysis code in
  FileProcessor.totalLines m = totalLines stats
  /\ FileProcessor.commentLines m = commentLines stats
  /\ (FileProcessor.functionCount m <= functionCount stats)%nat
  /\ (FileProcessor.classCount m <= classCount stats)%nat
  /\ (FileProcessor.variableCount m <= variableCount stats)%nat.
Proof.
  cbv zeta.
  pose proof (calculateCodeMetrics_lines code) as T. revert T.
  unfold FileProcessor.calculateCodeMetrics, statisticalAnalysis. cbv zeta. intros T.
  cbn [totalLines commentLines functionCount classCount variableCount].
  match goal with
  | |- context [fold_left FileProcessor.countLine ?lines ?m0] =>
      destruct (fold_countLine lines m0) as (C & F & K & V)
  end.
  cbv zeta in C, F, K, V. simpl in C, F, K, V.
  split; [exact T|]. split; [exact C|]. split; [exact F|]. split; [exact K | exact V].
Qed.

(** ** The code of a Stack Overflow answer *)

Lemma partOf_trans (a b c : string) : partOf a b -> partOf b c -> partOf a c.
Proof.
  intros (p1 & q1 & E1) (p2 & q2 & E2). exists (p2 ++ p1)%list, (q1 ++ q2)%list.
  rewrite E2, E1. rewrite <- !app_assoc. reflexivity.
Qed.

Lemma substring_prefix (s : string) :
  forall len : nat, exists after : list ascii,
    chars s = (chars (String.substring 0 len s) ++ after)%list.
Proof.
  induction s as [|c s IH]; intros len.
  - destruct len; exists []; reflexivity.
  - destruct len as [|len].
    + exists (chars (String c s)). reflexivity.
    + destruct (IH len) as (after & E). exists after.
      unfold chars in *. simpl. f_equal. exact E.
Qed.

Lemma substring_partOf (s : string) :
  forall n len : nat, partOf (String.substring n len s) s.
Proof.
  induction s as [|c s IH]; intros n len.
  - destruct n, len; exists [], []; reflexivity.
  - destruct n as [|n].
    + destruct (substring_prefix (String c s) len) as (after & E).
      exists [], after. exact E.
    + destruct (IH n len) as (before & after & E).
      exists (c :: before), after. unfold chars in *. simpl. f_equal. exact E.
Qed.

Lemma searchFrom_starts (r : re) (s m rest : list ascii) :
  searchFrom r s = Some (m, rest) ->
  exists pre u, s = (pre ++ u)%list /\ matchAt r u (fun t => Some t) = Some rest.
Proof.
  revert m rest. induction s as [|c t IH]; intros m rest H; cbn [searchFrom] in H.
  - destruct (matchAt r [] (fun t => Some t)) as [y|] eqn:M; [|discriminate].
    injection H as _ <-. exists [], []. auto.
  - destruct (matchAt r (c :: t) (fun t => Some t)) as [y|] eqn:M.
    + injection H as _ <-. exists [], (c :: t). auto.
    + destruct (IH _ _ H) as (pre & u & -> & Hu). exists (c :: pre), u. auto.
Qed.

Lemma execAll_literal (l : string) (r : re) (a : ascii) (body : string) :
  In a (chars l) -> hasChar a (chars body) = false ->
  execAll (Seq (Lit l) r) body = [].
Proof.
  intros I N. unfold execAll. cbn [execAllFrom].
  destruct (searchFrom (Seq (Lit l) r) (chars body)) as [[m rest]|] eqn:E; [|reflexivity].
  exfalso. apply searchFrom_starts in E. destruct E as (pre & u & B & M).
  cbn [matchAt] in M.
  destruct (dropPrefix (chars l) u) as [t|] eqn:D; [|discriminate].
  apply dropPrefix_split in D. subst u.
  assert (H : hasChar a (chars body) = true).
  { apply hasChar_In. rewrite B. apply in_or_app. right. apply in_or_app. left. exact I. }
  congruence.
Qed.

(** X24. The snippet of a Stack Overflow result holds text of the answer
    only: it is made of contiguous parts of the body joined by line
    feeds, and it is empty when the body has no markup at all. *)
Theorem extractCodeFromAnswer_from_body (answerBody : string) :
  (exists codeBlocks : list string,
      extractCodeFromAnswer answerBody = joinLines codeBlocks
      /\ Forall (fun block => partOf block answerBody) codeBlocks)
  /\ (if hasChar "<" (chars answerBody) then True
      else extractCodeFromAnswer answerBody = "").
Proof.
  split.
  - unfold extractCodeFromAnswer. cbv zeta. eexists. split; [reflexivity|].
    apply Forall_app. split; apply Forall_map, Forall_forall; intros m H;
      apply execAll_parts in H; destruct H as (_ & P);
      (eapply partOf_trans; [apply substring_partOf | exact P]).
  - destruct (hasChar "<" (chars answerBody)) eqn:N; [exact I|].
    unfold extractCodeFromAnswer. cbv zeta. unfold seq. cbn [fold_right].
    rewrite (@execAll_literal "<pre><code>" _ "<"%char answerBody);
      [|left; reflexivity | exact N].
    rewrite (@execAll_literal "<code>" _ "<"%char answerBody);
      [|left; reflexivity | exact N].
    reflexivity.
Qed.

(** ** The scores of a submission without the model *)

Lemma analyzeFile_silent (cfg : Config) (net : Net) (gemini : Gemini)
    (file : CodeFile) (options : Options) (r : FileResult) :
  modelSilent gemini ->
  analyzeFile cfg net gemini file options = Ok r ->
  0 <= aiGeneratedScore r <= 1.
Proof.
  intros S A. destruct (content file) as [|n|s] eqn:C.
  - rewrite (@analyzeFile_absent cfg net gemini file options C) in A. discriminate.
  - destruct (@analyzeFile_notText cfg net gemini file options n r C A) as (_ & _ & -> & _).
    lra.
  - destruct (@analyzeFile_text cfg net gemini file options s r C A) as (_ & _ & -> & _).
    destruct (detectAI options); [|lra].
    unfold detectAIGeneratedCode. cbn [aiProbability].
    set (lang := match language file with Some l => l | None => "javascript" end).
    rewrite (@openai_silent gemini s lang S).
    pose proof (pattern_score_range s lang) as P.
    pose proof (statistical_score_range s) as T.
    unfold weighted. rewrite !orZero_eq. lra.
Qed.

(** X25. When the model is not configured or its calls fail, every
    score of a successful answer to [POST /analyze] is within [0,1]:
    the AI score and the plagiarism score of each file and of the
    summary. *)
Theorem scores_without_model (cfg : Config) (net : Net) (gemini : Gemini)
    (options : Options) (codeFiles : list CodeFile) (d : Submission.t) :
  modelSilent gemini ->
  analyze cfg net gemini codeFiles options = Success d ->
  0 <= Summary.aiGeneratedScore (Submission.summary d) <= 1
  /\ 0 <= Summary.plagiarismScore (Submission.summary d) <= 1
  /\ Forall (fun f => 0 <= aiGeneratedScore f <= 1 /\ 0 <= plagiarismScore f <= 1)
            (Submission.files d).
Proof.
  intros S A.
  destruct (summary_plagiarismScore_range _ _ _ _ _ A) as (P & PF).
  revert A PF. unfold analyze. destruct codeFiles as [|file rest] eqn:L; [discriminate|].
  rewrite <- L.
  destruct (processFiles cfg net gemini options codeFiles ([], [], 0%nat))
    as [[[files highRisk] total]|e] eqn:E; [|discriminate].
  intros A. injection A as <-. cbn [Submission.summary Submission.files
                                     Summary.aiGeneratedScore] in *.
  intros PF.
  destruct (@processFiles_results cfg net gemini options
              (fun f => 0 <= aiGeneratedScore f <= 1) _ _ _
              (fun file r A => @analyzeFile_silent cfg net gemini file options r S A) E)
    as (F & Len); [constructor|].
  simpl in F, Len. split; [|split; [exact P|]].
  - rewrite fold_sum_map.
    assert (R := @sum_range (map aiGeneratedScore files) 0
                   (proj2 (Forall_map _ _ _) F)).
    rewrite length_map in R.
    assert (N : 0 < Num.natQ (List.length files)).
    { apply natQ_pos. rewrite Len, L. simpl. lia. }
    split.
    + apply Qle_shift_div_l; [exact N|]. lra.
    + apply Qle_shift_div_r; [exact N|]. lra.
  - rewrite Forall_forall in *. intros f Hf. split; [apply F | apply PF]; exact Hf.
Qed.

Lemma scores_without_model_witness :
  exists d,
    modelSilent Cases.geminiDown
    /\ analyze Examples.cfgWeb Examples.netWeb Cases.geminiDown
               [Examples.fileA; Examples.fileB] defaultOptions = Success d
    /\ 0 <= Summary.aiGeneratedScore (Submission.summary d) <= 1.
Proof.
  eexists.
  assert (S : modelSilent Cases.geminiDown).
  { intros language excerpt. eexists. reflexivity. }
  assert (E : analyze Examples.cfgWeb Examples.netWeb Cases.geminiDown
                [Examples.fileA; Examples.fileB] defaultOptions = Success _)
    by (vm_compute; reflexivity).
  split; [exact S|]. split; [exact E|].
  exact (proj1 (@scores_without_model _ _ _ _ _ _ S E)).
Defined.

(** ** Normalised texts *)

Lemma lowerChar_lower (c : ascii) : isUpper (lowerChar c) = false.
Proof. destruct c as [[] [] [] [] [] [] [] []]; reflexivity. Qed.

Lemma collapseFrom_normal (inRun : bool) (l : list ascii) :
  Forall (fun c => isWord c || isSpace c = true /\ isUpper c = false) l ->
  Forall normalChar (collapseFrom inRun l) /\ spaced inRun (collapseFrom inRun l).
Proof.
  intros H. revert inRun. induction H as [|c t (W & U) _ IH]; intros inRun.
  - split; constructor.
  - cbn [collapseFrom]. destruct (isSpace c) eqn:S.
    + destruct inRun; [apply IH|]. destruct (IH true) as (N & P). split.
      * constructor; [left; reflexivity | exact N].
      * cbn [spaced]. change (isSpace " ") with true. cbv iota. auto.
    + destruct (IH false) as (N & P). split.
      * constructor; [|exact N]. right. try rewrite S in W.
        rewrite orb_false_r in W. auto.
      * cbn [spaced]. rewrite S. exact P.
Qed.

Lemma normal_fixed (l : list ascii) :
  Forall normalChar l ->
  map lowerChar l = l
  /\ replaceSpecial l = l
  /\ forall inRun, spaced inRun l -> collapseFrom inRun l = l.
Proof.
  unfold replaceSpecial.
  induction 1 as [|c t Hc _ (L & R & C)]; [repeat split|].
  cbn [map]. rewrite L, R. split; [|split].
  - f_equal. unfold lowerChar. destruct Hc as [->|(_ & _ & ->)]; reflexivity.
  - f_equal. destruct Hc as [->|(_ & -> & _)]; reflexivity.
  - intros inRun P. cbn [collapseFrom spaced] in *. destruct Hc as [->|(S & _ & _)].
    + change (isSpace " ") with true in *. cbv iota in *. destruct P as (-> & P).
      rewrite (C _ P). reflexivity.
    + rewrite S in *. rewrite (C _ P). reflexivity.
Qed.

Lemma dropWhile_suffix {A} (p : A -> bool) (l : list A) :
  exists pre, l = (pre ++ dropWhile p l)%list.
Proof.
  induction l as [|x t (pre & IH)]; [exists []; reflexivity|].
  simpl. destruct (p x); [|exists []; reflexivity].
  exists (x :: pre). simpl. f_equal. exact IH.
Qed.

Lemma dropWhile_trimmed (l : list ascii) : trimmed (dropWhile isSpace l) = true.
Proof.
  induction l as [|c t IH]; [reflexivity|]. simpl.
  destruct (isSpace c) eqn:S; [exact IH|]. simpl. rewrite S. reflexivity.
Qed.

Lemma trimmed_fixed (l : list ascii) : trimmed l = true -> dropWhile isSpace l = l.
Proof.
  destruct l as [|c t]; [reflexivity|]. simpl. intros H.
  apply negb_true_iff in H. rewrite H. reflexivity.
Qed.

Lemma dropWhile_last (u : list ascii) (c : ascii) :
  isSpace c = false -> dropWhile isSpace (u ++ [c]) = (dropWhile isSpace u ++ [c])%list.
Proof.
  intros S. induction u as [|x t IH]; simpl; [rewrite S; reflexivity|].
  destruct (isSpace x); [exact IH | reflexivity].
Qed.

Lemma trimEnd_trimmed (l : list ascii) :
  trimmed l = true -> trimmed (rev (dropWhile isSpace (rev l))) = true.
Proof.
  destruct l as [|c t]; [reflexivity|]. simpl. intros H. apply negb_true_iff in H.
  rewrite dropWhile_last by exact H. rewrite rev_app_distr. simpl. rewrite H. reflexivity.
Qed.

Lemma trimChars_twice (l : list ascii) : trimChars (trimChars l) = trimChars l.
Proof.
  unfold trimChars.
  set (y := dropWhile isSpace l).
  assert (Y : trimmed y = true) by apply dropWhile_trimmed.
  rewrite (@trimmed_fixed (rev (dropWhile isSpace (rev y)))) by (apply trimEnd_trimmed; exact Y).
  rewrite rev_involutive.
  rewrite (@trimmed_fixed (dropWhile isSpace (rev y))) by apply dropWhile_trimmed.
  reflexivity.
Qed.

Lemma spaced_weaken (inRun : bool) (l : list ascii) : spaced inRun l -> spaced false l.
Proof.
  destruct l as [|c t]; [auto|]. simpl. destruct (isSpace c); [|auto].
  intros (_ & P). auto.
Qed.

Lemma spaced_suffix (pre l : list ascii) :
  forall inRun, spaced inRun (pre ++ l) -> spaced false l.
Proof.
  induction pre as [|c t IH]; intros inRun P; [apply (@spaced_weaken inRun); exact P|].
  simpl in P. destruct (isSpace c); [destruct P as (_ & P)|]; apply (IH _ P).
Qed.

Lemma spaced_prefix (l post : list ascii) :
  forall inRun, spaced inRun (l ++ post) -> spaced inRun l.
Proof.
  induction l as [|c t IH]; intros inRun P; [exact I|].
  simpl in *. destruct (isSpace c); [destruct P as (E & P); split; [exact E|]|];
    apply (IH _ P).
Qed.

Lemma trimChars_infix (l : list ascii) :
  exists pre post, l = (pre ++ trimChars l ++ post)%list.
Proof.
  unfold trimChars.
  destruct (dropWhile_suffix isSpace l) as (pre & E).
  destruct (dropWhile_suffix isSpace (rev (dropWhile isSpace l))) as (post & F).
  exists pre, (rev post). rewrite <- rev_app_distr, <- F, rev_involutive. exact E.
Qed.

(** X26. [normalizeText] gives a canonical text: it holds only spaces and
    word characters that are not upper-case letters, no space follows a
    space, it neither starts nor ends with a space, and normalising it
    again changes nothing; so [calculateSimilarity] gives the same
    score for a text and for its normalised form. *)
Theorem normalizeText_canonical (text : string) :
  let normal := normalizeText text in
  Forall normalChar (chars normal)
  /\ spaced true (chars normal)
  /\ trimmed (rev (chars normal)) = true
  /\ normalizeText normal = normal
  /\ forall other : string,
       calculateSimilarity normal other = calculateSimilarity text other
       /\ calculateSimilarity other normal = calculateSimilarity other text.
Proof.
  cbv zeta.
  assert (I : normalizeText (normalizeText text) = normalizeText text
              /\ Forall normalChar (chars (normalizeText text))
              /\ spaced true (chars (normalizeText text))
              /\ trimmed (rev (chars (normalizeText text))) = true).
  { unfold normalizeText, collapseSpaces. rewrite !chars_ofChars.
    set (l := collapseFrom false (replaceSpecial (map lowerChar (chars text)))).
    assert (G : Forall normalChar l /\ spaced false l).
    { apply collapseFrom_normal. unfold replaceSpecial.
      apply Forall_map, Forall_map, Forall_forall. intros c _.
      pose proof (lowerChar_lower c) as U.
      destruct (isWord (lowerChar c) || isSpace (lowerChar c)) eqn:W; auto. }
    destruct G as (N & P).
    destruct (trimChars_infix l) as (pre & post & E).
    assert (N' : Forall normalChar (trimChars l)).
    { rewrite E in N. apply Forall_app in N. destruct N as (_ & N).
      apply Forall_app in N. destruct N as (N & _). exact N. }
    assert (P' : spaced false (trimChars l)).
    { rewrite E in P. apply spaced_suffix in P. apply spaced_prefix in P. exact P. }
    assert (T : trimmed (trimChars l) = true).
    { unfold trimChars. apply trimEnd_trimmed, dropWhile_trimmed. }
    destruct (normal_fixed N') as (L & R & C).
    split; [|split; [exact N'|split]].
    - rewrite L, R, (C _ P'), trimChars_twice. reflexivity.
    - destruct (trimChars l) as [|c t]; [exact I|]. simpl in T, P' |- *.
      apply negb_true_iff in T. rewrite T in *. exact P'.
    - unfold trimChars. rewrite rev_involutive. apply dropWhile_trimmed. }
  destruct I as (Idem & N & P & T).
  split; [exact N|]. split; [exact P|]. split; [exact T|]. split; [exact Idem|].
  intros other. unfold calculateSimilarity. cbv zeta. rewrite Idem. split; reflexivity.
Qed.

(** ** A source that is down *)

Lemma searchSnippet_down (cfg : Config) (net : Net) (file : CodeFile)
    (options : Options) (kind : SourceKind) (unit : string) :
  sourceDown cfg net kind ->
  searchSnippet cfg net file options unit
  = searchSnippet cfg net file (without kind options) unit.
Proof.
  intros D. unfold searchSnippet, without.
  cbn [searchGitHub searchStackOverflow searchWeb].
  destruct kind; cbn [sourceDown] in D.
  - destruct (searchGitHub options); [|reflexivity].
    rewrite (@search_code_fails cfg net unit (language file) D). reflexivity.
  - destruct (searchStackOverflow options); [|reflexivity].
    rewrite (@search_stack_silent cfg net unit (language file) D). reflexivity.
  - destruct (searchWeb options); [|reflexivity].
    rewrite (@search_web_silent cfg net unit (language file) D). reflexivity.
Qed.

(** X27. A source whose service refuses every request counts as a source
    that is switched off: the result of the file is the one the
    analysis gives with that source disabled, so the matches of the
    other sources, the scores and the error are not affected. *)
Theorem failed_source_as_switched_off (cfg : Config) (net : Net) (gemini : Gemini)
    (file : CodeFile) (options : Options) (kind : SourceKind) :
  sourceDown cfg net kind ->
  analyzeFile cfg net gemini file options
  = analyzeFile cfg net gemini file (without kind options).
Proof.
  intros D.
  assert (C : forall snippets,
             collectMatches cfg net file options snippets
             = collectMatches cfg net file (without kind options) snippets).
  { intros snippets. unfold collectMatches.
    induction snippets as [|unit rest IH]; [reflexivity|].
    cbn [flat_map]. rewrite IH, (@searchSnippet_down cfg net file options kind unit D).
    reflexivity. }
  unfold analyzeFile.
  destruct (contentLength (content file)) as [size|e]; [|reflexivity].
  cbn [bind]. change (detectAI (without kind options)) with (detectAI options).
  destruct (snippetsOf (content file)) as [snippets|e]; [|reflexivity].
  cbv zeta. rewrite C. reflexivity.
Qed.

Lemma failed_source_as_switched_off_witness :
  sourceDown Examples.cfgWeb Examples.netWeb github
  /\ analyzeFile Examples.cfgWeb Examples.netWeb None Examples.fileA defaultOptions
     = analyzeFile Examples.cfgWeb Examples.netWeb None Examples.fileA
                   (without github defaultOptions).
Proof.
  assert (D : sourceDown Examples.cfgWeb Examples.netWeb github).
  { intros auth q. eexists. reflexivity. }
  split; [exact D|].
  exact (@failed_source_as_switched_off Examples.cfgWeb Examples.netWeb None
           Examples.fileA defaultOptions github D).
Defined.

(** ** One failing request for answers *)

Lemma bestAnswers_one_fails (cfg : Config) (net : Net) (question : Question)
    (e : string) (questions : list Question) :
  answered question = true ->
  stackAnswers net (question_id question) (stackKey cfg) = Throw e ->
  In question questions ->
  forall results, fails (bestAnswers cfg net questions results).
Proof.
  intros A T. induction questions as [|q rest IH]; intros I results; [destruct I|].
  cbn [bestAnswers].
  destruct (0 <? answer_count q)%nat eqn:Aq.
  - destruct (stackAnswers net (question_id q) (stackKey cfg)) as [items|e'] eqn:S.
    + cbn [bind]. destruct I as [->|I]; [congruence|].
      destruct items as [[|answer others]|]; apply IH; exact I.
    + exists e'. reflexivity.
  - destruct I as [->|I]; [unfold answered in A; congruence|]. apply IH. exact I.
Qed.

(** X28. One failing request is enough to lose every Stack Overflow result:
    when the request for the answers of one answered question of the
    search reply fails, [searchStackOverflow] returns the empty list,
    whatever the other questions and their answers are. *)
Theorem stackoverflow_one_failure_drops_all (cfg : Config) (net : Net)
    (query : string) (language : option string) (question : Question) (e : string) :
  In question (questionsOf cfg net query language) ->
  answered question = true ->
  stackAnswers net (question_id question) (stackKey cfg) = Throw e ->
  Search.searchStackOverflow cfg net query language = Ok [].
Proof.
  unfold questionsOf, Search.searchStackOverflow. cbv zeta.
  destruct (stackSearch net
              (if truthy language then query ++ " [" ++ render language ++ "]" else query)
              (if truthy language then render language else "") (stackKey cfg))
    as [[questions|]|e']; cbn [bind tryCatch]; try reflexivity.
  intros I A T.
  destruct (@bestAnswers_one_fails cfg net question e questions A T I []) as (e' & ->).
  reflexivity.
Qed.

Lemma stackoverflow_one_failure_drops_all_witness :
  exists question,
    In question (questionsOf Examples.cfgNone Cases.netAnswersDown "a + b" None)
    /\ answered question = true
    /\ Search.searchStackOverflow Examples.cfgNone Cases.netAnswersDown "a + b" None
       = Ok [].
Proof.
  eexists.
  assert (I : In _ (questionsOf Examples.cfgNone Cases.netAnswersDown "a + b" None))
    by (right; left; reflexivity).
  assert (A : answered {| question_id := 13%Z;
                          question_title := Some "How to sum a list";
                          question_link := Some "https://stackoverflow.com/q/13";
                          answer_count := 2 |} = true) by reflexivity.
  split; [exact I|]. split; [exact A|].
  exact (@stackoverflow_one_failure_drops_all Examples.cfgNone Cases.netAnswersDown
           "a + b" None _ "Request failed with status code 429" I A eq_refl).
Defined.
